(** * Algae carbon sequestration model

    A shallow embedding of [src/models/algae_model.py]: the three input
    records, the model object built by [__init__], and every method of
    [AlgaeCarbonSequestrationModel] up to [_calculate_viability_score].

    Numbers.  Python floats are embedded as real numbers with exact
    arithmetic: an equation between computed quantities is the equation
    of the exact values, which the binary64 results match up to rounding.
    NaN and signed zeros are not part of the model.  Infinities are, in
    [pyfloat]: the source builds [float('inf')] on purpose, and the
    quotient of the cost per tonne overflows to it when the CO2 removed
    is positive but tiny ([float_truediv]).  Where rounding decides a
    statement, the arithmetic of the source is also run on the binary64
    floats of the kernel (the definitions named [binary64_...]).

    Calls.  A method call either returns a value or raises; it receives the
    object [self] and hands it back.  [Method A] is that state-and-exception
    monad. *)

From Stdlib Require Import PrimFloat.
From Stdlib Require Import Reals Lra Psatz Bool String ZArith.
From Stdlib Require Import List.
Import ListNotations.

(** A decimal literal of a float is the nearest binary64 number, as in
    Python. *)
Set Warnings "-inexact-float".

Open Scope R_scope.

(** ** Comparisons of floats as booleans *)

Definition Rltb (x y : R) : bool := if Rlt_dec x y then true else false.
Definition Rleb (x y : R) : bool := if Rle_dec x y then true else false.
Definition Rgtb (x y : R) : bool := Rltb y x.
Definition Rgeb (x y : R) : bool := Rleb y x.
Definition Reqb (x y : R) : bool := if Req_dec_T x y then true else false.

(** ** Built-ins *)

(** [max(a, b)] keeps its first argument unless the second is strictly
    greater; [min(a, b)] unless the second is strictly smaller. *)
Definition py_max (a b : R) : R := if Rgtb b a then b else a.
Definition py_min (a b : R) : R := if Rltb b a then b else a.

(** [min(a, b, c)] scans its arguments from left to right. *)
Definition py_min3 (a b c : R) : R := py_min (py_min a b) c.

(** Division of a numpy scalar ([np.log(2)] and what is computed from it).
    It never raises: on a zero divisor numpy warns and yields inf or nan,
    which the reals do not have.  The value of a quotient by zero means
    nothing here; no statement below depends on one (the divisor is
    assumed non-zero, or the quotient stays an unknown of the proof). *)
Definition np_truediv (a b : R) : R := a / b.

(** ** Floats that may be infinite *)

Inductive pyfloat : Type :=
| Finite (r : R)
| PosInf
| NegInf.

(** [x - c], [x / c] with [c] a non-zero finite constant, and [c - x]. *)
Definition pf_sub (x : pyfloat) (c : R) : pyfloat :=
  match x with
  | Finite r => Finite (r - c)
  | PosInf => PosInf
  | NegInf => NegInf
  end.

Definition pf_div (x : pyfloat) (c : R) : pyfloat :=
  match x with
  | Finite r => Finite (r / c)
  | PosInf => if Rltb 0 c then PosInf else NegInf
  | NegInf => if Rltb 0 c then NegInf else PosInf
  end.

Definition pf_rsub (c : R) (x : pyfloat) : pyfloat :=
  match x with
  | Finite r => Finite (c - r)
  | PosInf => NegInf
  | NegInf => PosInf
  end.

(** [c / x] for a finite [c] and a divisor already known to be positive. *)
Definition pf_rdiv (c : R) (x : pyfloat) : R :=
  match x with
  | Finite r => c / r
  | PosInf | NegInf => 0
  end.

(** [x <= c] and [x > c]. *)
Definition pf_leb (x : pyfloat) (c : R) : bool :=
  match x with
  | Finite r => Rleb r c
  | PosInf => false
  | NegInf => true
  end.

Definition pf_gtb (x : pyfloat) (c : R) : bool :=
  match x with
  | Finite r => Rgtb r c
  | PosInf => true
  | NegInf => false
  end.

(** [max(0, x)]: the result is [x] only when [x > 0]. *)
Definition pf_max0 (x : pyfloat) : pyfloat :=
  if pf_gtb x 0 then x else Finite 0.

(** [x * c] and [x + c] with [c] a non-zero finite constant. *)
Definition pf_mul (x : pyfloat) (c : R) : pyfloat :=
  match x with
  | Finite r => Finite (r * c)
  | PosInf => if Rltb 0 c then PosInf else NegInf
  | NegInf => if Rltb 0 c then NegInf else PosInf
  end.

Definition pf_add (x : pyfloat) (c : R) : pyfloat :=
  match x with
  | Finite r => Finite (r + c)
  | PosInf => PosInf
  | NegInf => NegInf
  end.

(** ** Overflow

    The largest binary64 number is [2^1024 - 2^971].  Rounding to nearest
    sends every real from [2^1024 - 2^970] on, half a step above it, to
    [inf], and symmetrically to [-inf]. *)
Definition float_overflow : R := IZR (2 ^ 1024 - 2 ^ 970).

Definition overflow (q : R) : pyfloat :=
  if Rleb float_overflow q then PosInf
  else if Rleb q (- float_overflow) then NegInf
  else Finite q.

(** [a / b] of two floats, [b] not zero: the division does not raise on
    overflow, it returns an infinity. *)
Definition float_truediv (a b : R) : pyfloat := overflow (a / b).

(** ** The input records *)

Record AlgaeStrain : Type := {
  name : string;
  carbon_content_percent : R;
  doubling_time_hours : R;
  photosynthetic_efficiency : R;
  sinking_rate_m_per_day : R;
  export_fraction : R;
  optimal_temperature_range : R * R;
  optimal_salinity_range : R * R;
  genetic_kill_switch : bool;
  r_and_d_cost_millions : R
}.

Record EnvironmentalConditions : Type := {
  euphotic_depth_m : R;
  surface_temperature_celsius : R;
  salinity_ppt : R;
  nutrient_nitrogen_umol_per_l : R;
  nutrient_phosphorus_umol_per_l : R;
  nutrient_iron_nmol_per_l : R;
  mixing_depth_m : R;
  current_speed_m_per_s : R;
  sequestration_depth_m : R
}.

Record OperationalParameters : Type := {
  area_km2 : R;
  application_frequency_per_year : R;
  cultivation_cost_per_kg : R;
  delivery_cost_per_kg : R;
  vessel_cost_per_day : R;
  monitoring_cost_per_year : R;
  regulatory_cost_per_year : R
}.

(** ** The model object *)

Record AlgaeCarbonSequestrationModel : Type := {
  strain : AlgaeStrain;
  environment : EnvironmentalConditions;
  operations : OperationalParameters;
  CARBON_TO_CO2_RATIO : R;
  DAYS_PER_YEAR : R
}.

(** ** Calls: state and exceptions *)

Inductive exn : Type := ZeroDivisionError.

Inductive outcome (A : Type) : Type :=
| Returns (a : A)
| Raises (e : exn).

Arguments Returns {A} a.
Arguments Raises {A} e.

Definition Method (A : Type) : Type :=
  AlgaeCarbonSequestrationModel -> outcome (A * AlgaeCarbonSequestrationModel).

Definition ret {A} (a : A) : Method A := fun self => Returns (a, self).

Definition bind {A B} (m : Method A) (k : A -> Method B) : Method B :=
  fun self =>
    match m self with
    | Returns (a, self') => k a self'
    | Raises e => Raises e
    end.

Definition raise {A} (e : exn) : Method A := fun _ => Raises e.

Definition get_self : Method AlgaeCarbonSequestrationModel :=
  fun self => Returns (self, self).

Notation "x <- m ;; k" := (bind m (fun x => k))
  (at level 61, m at next level, right associativity).

(** Python's [/] on two plain numbers. *)
Definition py_truediv (a b : R) : Method R :=
  if Reqb b 0 then raise ZeroDivisionError else ret (a / b).

(** ** Construction *)

Definition __init__ (strain : AlgaeStrain) (environment : EnvironmentalConditions)
    (operations : OperationalParameters) : outcome AlgaeCarbonSequestrationModel :=
  Returns {| strain := strain;
             environment := environment;
             operations := operations;
             CARBON_TO_CO2_RATIO := 3.67;
             DAYS_PER_YEAR := 365.25 |}.

(** ** Response factors *)

Definition _temperature_response_factor : Method R :=
  self <- get_self ;;
  let temp := surface_temperature_celsius (environment self) in
  let opt_min := fst (optimal_temperature_range (strain self)) in
  let opt_max := snd (optimal_temperature_range (strain self)) in
  let opt_temp := (opt_min + opt_max) / 2 in
  if Rltb temp opt_min || Rgtb temp opt_max then ret 0
  else if Reqb temp opt_temp then ret 1
  else
    q <- py_truediv (temp - opt_temp) (opt_max - opt_min) ;;
    ret (1 - q ^ 2).

Definition _light_limitation_factor : Method R :=
  self <- get_self ;;
  let euphotic_depth := euphotic_depth_m (environment self) in
  if Rltb euphotic_depth 10 then ret 0.1
  else if Rgtb euphotic_depth 100 then ret 1
  else ret (0.1 + 0.9 * (euphotic_depth - 10) / 90).

Definition _nutrient_limitation_factor : Method R :=
  self <- get_self ;;
  let n_factor := py_min 1 (nutrient_nitrogen_umol_per_l (environment self) / 5) in
  let p_factor := py_min 1 (nutrient_phosphorus_umol_per_l (environment self) / 0.3) in
  let fe_factor := py_min 1 (nutrient_iron_nmol_per_l (environment self) / 0.06) in
  ret (py_min3 n_factor p_factor fe_factor).

Definition _salinity_response_factor : Method R :=
  self <- get_self ;;
  let salinity := salinity_ppt (environment self) in
  let opt_min := fst (optimal_salinity_range (strain self)) in
  let opt_max := snd (optimal_salinity_range (strain self)) in
  if Rltb salinity opt_min || Rgtb salinity opt_max then ret 0
  else if Reqb salinity ((opt_min + opt_max) / 2) then ret 1
  else
    q <- py_truediv (salinity - (opt_min + opt_max) / 2) (opt_max - opt_min) ;;
    ret (1 - q ^ 2).

(** ** Growth *)

Definition calculate_growth_rate : Method R :=
  self <- get_self ;;
  let base_growth_rate :=
    np_truediv (ln 2) (doubling_time_hours (strain self) / 24) in
  let temp_opt :=
    (fst (optimal_temperature_range (strain self))
     + snd (optimal_temperature_range (strain self))) / 2 in
  temp_factor <- _temperature_response_factor ;;
  light_factor <- _light_limitation_factor ;;
  nutrient_factor <- _nutrient_limitation_factor ;;
  salinity_factor <- _salinity_response_factor ;;
  let effective_growth_rate :=
    base_growth_rate * temp_factor * light_factor * nutrient_factor
    * salinity_factor in
  ret (py_max 0 effective_growth_rate).

(** ** Production *)

Definition calculate_net_primary_productivity : Method R :=
  growth_rate <- calculate_growth_rate ;;
  self <- get_self ;;
  let mixed_layer_depth := mixing_depth_m (environment self) in
  let biomass_density := 1 in
  let npp :=
    growth_rate * biomass_density * mixed_layer_depth * DAYS_PER_YEAR self in
  ret (py_max 0 npp).

Definition calculate_carbon_export : Method R :=
  npp <- calculate_net_primary_productivity ;;
  self <- get_self ;;
  let export_carbon := npp * export_fraction (strain self) in
  sinking_time_days <-
    py_truediv (sequestration_depth_m (environment self))
               (sinking_rate_m_per_day (strain self)) ;;
  let remineralization_rate_per_day := 0.1 in
  let survival_fraction :=
    exp (- remineralization_rate_per_day * sinking_time_days) in
  ret (export_carbon * survival_fraction).

Definition calculate_total_carbon_sequestered : Method R :=
  carbon_export_per_m2 <- calculate_carbon_export ;;
  self <- get_self ;;
  let area_m2 := area_km2 (operations self) * 1e6 in
  ret (carbon_export_per_m2 * area_m2 / 1000).

Definition calculate_co2_removed : Method R :=
  carbon_kg <- calculate_total_carbon_sequestered ;;
  self <- get_self ;;
  ret (carbon_kg * CARBON_TO_CO2_RATIO self / 1000).

(** [a / b] where [a] was computed from [current = max(0, x)].  That call
    returns [x] itself, a numpy scalar, when [x > 0], and the int [0]
    otherwise; the quotient is numpy's in the first case and Python's in
    the second. *)
Definition truediv_from_max (current a b : R) : Method R :=
  if Rgtb current 0 then ret (np_truediv a b) else py_truediv a b.

Definition calculate_biomass_required : Method R :=
  let target_npp := 125 in
  current_npp <- calculate_net_primary_productivity ;;
  if Rgeb current_npp target_npp then ret 0
  else
    self <- get_self ;;
    q <- truediv_from_max current_npp (target_npp - current_npp)
           (carbon_content_percent (strain self)) ;;
    let biomass_needed_per_m2 := q * 100 in
    let area_m2 := area_km2 (operations self) * 1e6 in
    ret (biomass_needed_per_m2 * area_m2 / 1000).

(** ** Costs *)

(** The dict that [calculate_operational_costs] returns has a fixed set of
    literal keys: a record. *)
Record CostBreakdown : Type := {
  cultivation : R;
  delivery : R;
  vessel : R;
  monitoring : R;
  regulatory : R;
  r_and_d : R;
  total : R
}.

Definition calculate_operational_costs : Method CostBreakdown :=
  biomass_required <- calculate_biomass_required ;;
  self <- get_self ;;
  let cultivation_cost :=
    biomass_required * cultivation_cost_per_kg (operations self) in
  let delivery_cost :=
    biomass_required * delivery_cost_per_kg (operations self) in
  let vessel_cost := vessel_cost_per_day (operations self) * DAYS_PER_YEAR self in
  let monitoring_cost := monitoring_cost_per_year (operations self) in
  let regulatory_cost := regulatory_cost_per_year (operations self) in
  let r_and_d_cost := r_and_d_cost_millions (strain self) * 1e6 / 10 in
  let total_cost :=
    cultivation_cost + delivery_cost + vessel_cost
    + monitoring_cost + regulatory_cost + r_and_d_cost in
  ret {| cultivation := cultivation_cost;
         delivery := delivery_cost;
         vessel := vessel_cost;
         monitoring := monitoring_cost;
         regulatory := regulatory_cost;
         r_and_d := r_and_d_cost;
         total := total_cost |}.

Definition calculate_cost_per_tonne_co2 : Method pyfloat :=
  costs <- calculate_operational_costs ;;
  co2_removed <- calculate_co2_removed ;;
  if Rleb co2_removed 0 then ret PosInf
  else ret (float_truediv (total costs) co2_removed).

(** ** Viability *)

Definition _calculate_viability_score (cost_per_tonne : pyfloat)
    (co2_removed : R) : Method pyfloat :=
  if pf_leb cost_per_tonne 0 || Rleb co2_removed 0 then ret (Finite 0)
  else
    let cost_score :=
      pf_max0 (pf_rsub 1 (pf_div (pf_sub cost_per_tonne 50) 200)) in
    let scale_score := py_min 1 (co2_removed / 10000) in
    self <- get_self ;;
    let safety_score := if genetic_kill_switch (strain self) then 1 else 0.5 in
    ret (pf_add (pf_add (pf_mul cost_score 0.4) (scale_score * 0.4))
                (safety_score * 0.2)).

Record Metrics : Type := {
  co2_removed_tonnes_per_year : R;
  cost_per_tonne_co2 : pyfloat;
  total_cost_per_year : R;
  biomass_required_kg_per_year : R;
  carbon_sequestered_kg_per_year : R;
  npp_g_c_per_m2_per_year : R;
  growth_rate_per_day : R;
  viability_score : pyfloat;
  cost_competitiveness : R;
  scale_adequacy : R
}.

Definition calculate_viability_metrics : Method Metrics :=
  co2_removed <- calculate_co2_removed ;;
  cost_per_tonne <- calculate_cost_per_tonne_co2 ;;
  costs <- calculate_operational_costs ;;
  let target_cost_per_tonne := 100 in
  let target_co2_removed := 1000 in
  biomass_required <- calculate_biomass_required ;;
  carbon_sequestered <- calculate_total_carbon_sequestered ;;
  npp <- calculate_net_primary_productivity ;;
  growth_rate <- calculate_growth_rate ;;
  score <- _calculate_viability_score cost_per_tonne co2_removed ;;
  ret {| co2_removed_tonnes_per_year := co2_removed;
         cost_per_tonne_co2 := cost_per_tonne;
         total_cost_per_year := total costs;
         biomass_required_kg_per_year := biomass_required;
         carbon_sequestered_kg_per_year := carbon_sequestered;
         npp_g_c_per_m2_per_year := npp;
         growth_rate_per_day := growth_rate;
         viability_score := score;
         cost_competitiveness :=
           if pf_gtb cost_per_tonne 0
           then pf_rdiv target_cost_per_tonne cost_per_tonne else 0;
         scale_adequacy := co2_removed / target_co2_removed |}.

(** ** The same arithmetic on binary64

    The expressions of three methods on machine floats, as functions of
    the numbers that the method reads from the object.  The operations are
    those of IEEE 754 binary64, rounded to nearest, which is what Python
    and numpy compute with; [x ** 2] is the product [x * x], the correctly
    rounded square. *)

Definition binary64_temperature_response_factor
    (temp opt_min opt_max : float) : float :=
  (let opt_temp := (opt_min + opt_max) / 2 in
   if (temp <? opt_min) || (opt_max <? temp) then 0
   else if temp =? opt_temp then 1
   else
     let q := (temp - opt_temp) / (opt_max - opt_min) in
     1 - q * q)%float.

Definition binary64_salinity_response_factor
    (salinity opt_min opt_max : float) : float :=
  (if (salinity <? opt_min) || (opt_max <? salinity) then 0
   else if salinity =? (opt_min + opt_max) / 2 then 1
   else
     let q := (salinity - (opt_min + opt_max) / 2) / (opt_max - opt_min) in
     1 - q * q)%float.

(** The last three lines of [calculate_cost_per_tonne_co2], from the total
    of the costs and the CO2 removed. *)
Definition binary64_cost_per_tonne_co2 (total co2_removed : float) : float :=
  (if co2_removed <=? 0 then infinity else total / co2_removed)%float.

(** ** Running a model

    What the callers in [test_model.py] do with a model object. *)

(** The "Run model" lines of [test_basic_scenario]: the metrics, then the
    cost breakdown, asked of one model object. *)
Definition evaluate : Method (Metrics * CostBreakdown) :=
  metrics <- calculate_viability_metrics ;;
  costs <- calculate_operational_costs ;;
  ret (metrics, costs).

(** [operations.area_km2 = a], every other field kept. *)
Definition with_area_km2 (o : OperationalParameters) (a : R)
    : OperationalParameters :=
  {| area_km2 := a;
     application_frequency_per_year := application_frequency_per_year o;
     cultivation_cost_per_kg := cultivation_cost_per_kg o;
     delivery_cost_per_kg := delivery_cost_per_kg o;
     vessel_cost_per_day := vessel_cost_per_day o;
     monitoring_cost_per_year := monitoring_cost_per_year o;
     regulatory_cost_per_year := regulatory_cost_per_year o |}.

(** [environment.euphotic_depth_m = d], every other field kept. *)
Definition with_euphotic_depth_m (e : EnvironmentalConditions) (d : R)
    : EnvironmentalConditions :=
  {| euphotic_depth_m := d;
     surface_temperature_celsius := surface_temperature_celsius e;
     salinity_ppt := salinity_ppt e;
     nutrient_nitrogen_umol_per_l := nutrient_nitrogen_umol_per_l e;
     nutrient_phosphorus_umol_per_l := nutrient_phosphorus_umol_per_l e;
     nutrient_iron_nmol_per_l := nutrient_iron_nmol_per_l e;
     mixing_depth_m := mixing_depth_m e;
     current_speed_m_per_s := current_speed_m_per_s e;
     sequestration_depth_m := sequestration_depth_m e |}.

(** [strain.doubling_time_hours = dt], [strain.sinking_rate_m_per_day = r]
    and [strain.genetic_kill_switch = b], every other field kept. *)
Definition with_doubling_time_hours (s : AlgaeStrain) (dt : R) : AlgaeStrain :=
  {| name := name s;
     carbon_content_percent := carbon_content_percent s;
     doubling_time_hours := dt;
     photosynthetic_efficiency := photosynthetic_efficiency s;
     sinking_rate_m_per_day := sinking_rate_m_per_day s;
     export_fraction := export_fraction s;
     optimal_temperature_range := optimal_temperature_range s;
     optimal_salinity_range := optimal_salinity_range s;
     genetic_kill_switch := genetic_kill_switch s;
     r_and_d_cost_millions := r_and_d_cost_millions s |}.

Definition with_sinking_rate_m_per_day (s : AlgaeStrain) (r : R) : AlgaeStrain :=
  {| name := name s;
     carbon_content_percent := carbon_content_percent s;
     doubling_time_hours := doubling_time_hours s;
     photosynthetic_efficiency := photosynthetic_efficiency s;
     sinking_rate_m_per_day := r;
     export_fraction := export_fraction s;
     optimal_temperature_range := optimal_temperature_range s;
     optimal_salinity_range := optimal_salinity_range s;
     genetic_kill_switch := genetic_kill_switch s;
     r_and_d_cost_millions := r_and_d_cost_millions s |}.

Definition with_genetic_kill_switch (s : AlgaeStrain) (b : bool) : AlgaeStrain :=
  {| name := name s;
     carbon_content_percent := carbon_content_percent s;
     doubling_time_hours := doubling_time_hours s;
     photosynthetic_efficiency := photosynthetic_efficiency s;
     sinking_rate_m_per_day := sinking_rate_m_per_day s;
     export_fraction := export_fraction s;
     optimal_temperature_range := optimal_temperature_range s;
     optimal_salinity_range := optimal_salinity_range s;
     genetic_kill_switch := b;
     r_and_d_cost_millions := r_and_d_cost_millions s |}.

(** The three nutrient fields of an environment set at once, every other
    field kept. *)
Definition with_nutrients (e : EnvironmentalConditions) (n p fe : R)
    : EnvironmentalConditions :=
  {| euphotic_depth_m := euphotic_depth_m e;
     surface_temperature_celsius := surface_temperature_celsius e;
     salinity_ppt := salinity_ppt e;
     nutrient_nitrogen_umol_per_l := n;
     nutrient_phosphorus_umol_per_l := p;
     nutrient_iron_nmol_per_l := fe;
     mixing_depth_m := mixing_depth_m e;
     current_speed_m_per_s := current_speed_m_per_s e;
     sequestration_depth_m := sequestration_depth_m e |}.

(** The fields that no formula reads, set to other values: the name and
    the photosynthetic efficiency of a strain, the current speed of an
    environment, the application frequency of the operations. *)
Definition with_name_and_efficiency (s : AlgaeStrain) (n : string) (pe : R)
    : AlgaeStrain :=
  {| name := n;
     carbon_content_percent := carbon_content_percent s;
     doubling_time_hours := doubling_time_hours s;
     photosynthetic_efficiency := pe;
     sinking_rate_m_per_day := sinking_rate_m_per_day s;
     export_fraction := export_fraction s;
     optimal_temperature_range := optimal_temperature_range s;
     optimal_salinity_range := optimal_salinity_range s;
     genetic_kill_switch := genetic_kill_switch s;
     r_and_d_cost_millions := r_and_d_cost_millions s |}.

Definition with_current_speed_m_per_s (e : EnvironmentalConditions) (v : R)
    : EnvironmentalConditions :=
  {| euphotic_depth_m := euphotic_depth_m e;
     surface_temperature_celsius := surface_temperature_celsius e;
     salinity_ppt := salinity_ppt e;
     nutrient_nitrogen_umol_per_l := nutrient_nitrogen_umol_per_l e;
     nutrient_phosphorus_umol_per_l := nutrient_phosphorus_umol_per_l e;
     nutrient_iron_nmol_per_l := nutrient_iron_nmol_per_l e;
     mixing_depth_m := mixing_depth_m e;
     current_speed_m_per_s := v;
     sequestration_depth_m := sequestration_depth_m e |}.

Definition with_application_frequency_per_year (o : OperationalParameters)
    (f : R) : OperationalParameters :=
  {| area_km2 := area_km2 o;
     application_frequency_per_year := f;
     cultivation_cost_per_kg := cultivation_cost_per_kg o;
     delivery_cost_per_kg := delivery_cost_per_kg o;
     vessel_cost_per_day := vessel_cost_per_day o;
     monitoring_cost_per_year := monitoring_cost_per_year o;
     regulatory_cost_per_year := regulatory_cost_per_year o |}.

(** ** The sample tables

    [create_sample_strains] and [create_sample_environments] return dicts
    with literal keys; a dict keeps its keys in insertion order, so each is
    a list of pairs.  [d[key]] raises [KeyError] when the key is missing:
    [dict_get] answers [None] there. *)

Fixpoint dict_get {V : Type} (d : list (string * V)) (key : string)
    : option V :=
  match d with
  | [] => None
  | (k, v) :: rest => if String.eqb k key then Some v else dict_get rest key
  end.

Definition create_sample_strains : list (string * AlgaeStrain) :=
  [ ("fast_growing_cyanobacteria"%string,
     {| name := "Fast-growing Cyanobacteria";
        carbon_content_percent := 45;
        doubling_time_hours := 12;
        photosynthetic_efficiency := 0.8;
        sinking_rate_m_per_day := 50;
        export_fraction := 0.4;
        optimal_temperature_range := (20, 30);
        optimal_salinity_range := (30, 40);
        genetic_kill_switch := true;
        r_and_d_cost_millions := 15 |});
    ("diatom_variant"%string,
     {| name := "GM Diatom Variant";
        carbon_content_percent := 52;
        doubling_time_hours := 24;
        photosynthetic_efficiency := 0.9;
        sinking_rate_m_per_day := 100;
        export_fraction := 0.6;
        optimal_temperature_range := (15, 25);
        optimal_salinity_range := (25, 35);
        genetic_kill_switch := true;
        r_and_d_cost_millions := 20 |});
    ("conservative_strain"%string,
     {| name := "Conservative GM Algae";
        carbon_content_percent := 40;
        doubling_time_hours := 48;
        photosynthetic_efficiency := 0.7;
        sinking_rate_m_per_day := 25;
        export_fraction := 0.3;
        optimal_temperature_range := (18, 28);
        optimal_salinity_range := (28, 38);
        genetic_kill_switch := true;
        r_and_d_cost_millions := 10 |}) ].

Definition create_sample_environments
    : list (string * EnvironmentalConditions) :=
  [ ("tropical_ocean"%string,
     {| euphotic_depth_m := 80;
        surface_temperature_celsius := 28;
        salinity_ppt := 35;
        nutrient_nitrogen_umol_per_l := 2;
        nutrient_phosphorus_umol_per_l := 0.2;
        nutrient_iron_nmol_per_l := 0.05;
        mixing_depth_m := 50;
        current_speed_m_per_s := 0.1;
        sequestration_depth_m := 1000 |});
    ("temperate_ocean"%string,
     {| euphotic_depth_m := 60;
        surface_temperature_celsius := 15;
        salinity_ppt := 33;
        nutrient_nitrogen_umol_per_l := 5;
        nutrient_phosphorus_umol_per_l := 0.4;
        nutrient_iron_nmol_per_l := 0.08;
        mixing_depth_m := 100;
        current_speed_m_per_s := 0.2;
        sequestration_depth_m := 1500 |});
    ("nutrient_rich"%string,
     {| euphotic_depth_m := 40;
        surface_temperature_celsius := 20;
        salinity_ppt := 34;
        nutrient_nitrogen_umol_per_l := 10;
        nutrient_phosphorus_umol_per_l := 0.8;
        nutrient_iron_nmol_per_l := 0.12;
        mixing_depth_m := 75;
        current_speed_m_per_s := 0.15;
        sequestration_depth_m := 1200 |}) ].

(** ** The dashboard of [main.py] *)

(** The two dicts from the names shown in the select boxes to the keys of
    the sample tables. *)
Definition strain_map : list (string * string) :=
  [ ("Fast-growing Cyanobacteria"%string, "fast_growing_cyanobacteria"%string);
    ("GM Diatom Variant"%string, "diatom_variant"%string);
    ("Conservative GM Algae"%string, "conservative_strain"%string) ].

Definition env_map : list (string * string) :=
  [ ("Tropical Ocean"%string, "tropical_ocean"%string);
    ("Temperate Ocean"%string, "temperate_ocean"%string);
    ("Nutrient Rich"%string, "nutrient_rich"%string) ].

(** [strains[strain_map[strain_name]]] and
    [environments[env_map[env_name]]], the branch taken for a name other
    than "Custom". *)
Definition preset_strain (strain_name : string) : option AlgaeStrain :=
  match dict_get strain_map strain_name with
  | Some key => dict_get create_sample_strains key
  | None => None
  end.

Definition preset_environment (env_name : string)
    : option EnvironmentalConditions :=
  match dict_get env_map env_name with
  | Some key => dict_get create_sample_environments key
  | None => None
  end.

(** The sensitivity analysis of the fourth tab: one fresh model per area,
    the CO2 removed and the cost per tonne of each appended to two lists.
    An exception leaves the loop. *)
Definition areas : list R := [100; 500; 1000; 5000; 10000].

Fixpoint area_sensitivity (strain : AlgaeStrain)
    (environment : EnvironmentalConditions) (operations : OperationalParameters)
    (areas : list R) (co2_results : list R) (cost_results : list pyfloat)
    : outcome (list R * list pyfloat) :=
  match areas with
  | [] => Returns (co2_results, cost_results)
  | area :: rest =>
      let test_ops :=
        {| area_km2 := area;
           application_frequency_per_year :=
             application_frequency_per_year operations;
           cultivation_cost_per_kg := cultivation_cost_per_kg operations;
           delivery_cost_per_kg := delivery_cost_per_kg operations;
           vessel_cost_per_day := vessel_cost_per_day operations;
           monitoring_cost_per_year := monitoring_cost_per_year operations;
           regulatory_cost_per_year := regulatory_cost_per_year operations |} in
      match __init__ strain environment test_ops with
      | Raises e => Raises e
      | Returns test_model =>
          match calculate_viability_metrics test_model with
          | Raises e => Raises e
          | Returns (test_metrics, _) =>
              area_sensitivity strain environment operations rest
                (co2_results ++ [co2_removed_tonnes_per_year test_metrics])
                (cost_results ++ [cost_per_tonne_co2 test_metrics])
          end
      end
  end.

(** * Scenarios

    The basic scenario of [test_model.py] and variations of it in one or
    a few fields. *)

Definition basic_strain : AlgaeStrain :=
  {| name := "Fast-growing Cyanobacteria";
     carbon_content_percent := 45;
     doubling_time_hours := 12;
     photosynthetic_efficiency := 0.8;
     sinking_rate_m_per_day := 50;
     export_fraction := 0.4;
     optimal_temperature_range := (20, 30);
     optimal_salinity_range := (30, 40);
     genetic_kill_switch := true;
     r_and_d_cost_millions := 15 |}.

Definition basic_environment : EnvironmentalConditions :=
  {| euphotic_depth_m := 80;
     surface_temperature_celsius := 28;
     salinity_ppt := 35;
     nutrient_nitrogen_umol_per_l := 2;
     nutrient_phosphorus_umol_per_l := 0.2;
     nutrient_iron_nmol_per_l := 0.05;
     mixing_depth_m := 50;
     current_speed_m_per_s := 0.1;
     sequestration_depth_m := 1000 |}.

Definition basic_operations : OperationalParameters :=
  {| area_km2 := 1000;
     application_frequency_per_year := 4;
     cultivation_cost_per_kg := 0.5;
     delivery_cost_per_kg := 0.3;
     vessel_cost_per_day := 5000;
     monitoring_cost_per_year := 100000;
     regulatory_cost_per_year := 50000 |}.

Definition boundary_environment : EnvironmentalConditions :=
  {| euphotic_depth_m := 80;
     surface_temperature_celsius := 20;
     salinity_ppt := 35;
     nutrient_nitrogen_umol_per_l := 2;
     nutrient_phosphorus_umol_per_l := 0.2;
     nutrient_iron_nmol_per_l := 0.05;
     mixing_depth_m := 50;
     current_speed_m_per_s := 0.1;
     sequestration_depth_m := 1000 |}.

Definition cold_environment : EnvironmentalConditions :=
  {| euphotic_depth_m := 80;
     surface_temperature_celsius := 10;
     salinity_ppt := 35;
     nutrient_nitrogen_umol_per_l := 2;
     nutrient_phosphorus_umol_per_l := 0.2;
     nutrient_iron_nmol_per_l := 0.05;
     mixing_depth_m := 50;
     current_speed_m_per_s := 0.1;
     sequestration_depth_m := 1000 |}.

Definition nitrogen_free_environment : EnvironmentalConditions :=
  {| euphotic_depth_m := 80;
     surface_temperature_celsius := 28;
     salinity_ppt := 35;
     nutrient_nitrogen_umol_per_l := 0;
     nutrient_phosphorus_umol_per_l := 0.2;
     nutrient_iron_nmol_per_l := 0.05;
     mixing_depth_m := 50;
     current_speed_m_per_s := 0.1;
     sequestration_depth_m := 1000 |}.

Definition negative_strain : AlgaeStrain :=
  {| name := "Fast-growing Cyanobacteria";
     carbon_content_percent := 45;
     doubling_time_hours := -12;
     photosynthetic_efficiency := 0.8;
     sinking_rate_m_per_day := -50;
     export_fraction := 0.4;
     optimal_temperature_range := (20, 30);
     optimal_salinity_range := (30, 40);
     genetic_kill_switch := true;
     r_and_d_cost_millions := 15 |}.

Definition negative_environment : EnvironmentalConditions :=
  {| euphotic_depth_m := -80;
     surface_temperature_celsius := 28;
     salinity_ppt := 35;
     nutrient_nitrogen_umol_per_l := 2;
     nutrient_phosphorus_umol_per_l := 0.2;
     nutrient_iron_nmol_per_l := 0.05;
     mixing_depth_m := -50;
     current_speed_m_per_s := 0.1;
     sequestration_depth_m := 1000 |}.

Definition negative_operations : OperationalParameters :=
  {| area_km2 := -1000;
     application_frequency_per_year := 4;
     cultivation_cost_per_kg := 0.5;
     delivery_cost_per_kg := 0.3;
     vessel_cost_per_day := 5000;
     monitoring_cost_per_year := 100000;
     regulatory_cost_per_year := 50000 |}.

(** The ranges that section 3 of the specification gives for the fields of
    a valid record.  The code checks none of them. *)
Definition valid_strain (s : AlgaeStrain) : Prop :=
  0 < carbon_content_percent s <= 100
  /\ 0 < doubling_time_hours s
  /\ 0 < photosynthetic_efficiency s <= 1
  /\ 0 < sinking_rate_m_per_day s
  /\ 0 <= export_fraction s <= 1
  /\ fst (optimal_temperature_range s) < snd (optimal_temperature_range s)
  /\ fst (optimal_salinity_range s) < snd (optimal_salinity_range s)
  /\ 0 <= r_and_d_cost_millions s.

Definition valid_environment (e : EnvironmentalConditions) : Prop :=
  0 < euphotic_depth_m e
  /\ 0 < salinity_ppt e
  /\ 0 <= nutrient_nitrogen_umol_per_l e
  /\ 0 <= nutrient_phosphorus_umol_per_l e
  /\ 0 <= nutrient_iron_nmol_per_l e
  /\ 0 < mixing_depth_m e
  /\ 0 <= current_speed_m_per_s e
  /\ 0 < sequestration_depth_m e.

Definition valid_operations (o : OperationalParameters) : Prop :=
  0 < area_km2 o
  /\ 0 < application_frequency_per_year o
  /\ 0 <= cultivation_cost_per_kg o
  /\ 0 <= delivery_cost_per_kg o
  /\ 0 <= vessel_cost_per_day o
  /\ 0 <= monitoring_cost_per_year o
  /\ 0 <= regulatory_cost_per_year o.

(** The object that [__init__] builds from three records. *)
Definition model_of (s : AlgaeStrain) (e : EnvironmentalConditions)
    (o : OperationalParameters) : AlgaeCarbonSequestrationModel :=
  {| strain := s; environment := e; operations := o;
     CARBON_TO_CO2_RATIO := 3.67; DAYS_PER_YEAR := 365.25 |}.

Definition basic_model : AlgaeCarbonSequestrationModel :=
  model_of basic_strain basic_environment basic_operations.

Definition cold_model : AlgaeCarbonSequestrationModel :=
  model_of basic_strain cold_environment basic_operations.

Definition negative_model : AlgaeCarbonSequestrationModel :=
  model_of negative_strain negative_environment negative_operations.

(** The basic strain with a sinking rate of 0, and with a carbon content
    of 0. *)
Definition still_strain : AlgaeStrain :=
  with_sinking_rate_m_per_day basic_strain 0.

Definition carbon_free_strain : AlgaeStrain :=
  {| name := "Fast-growing Cyanobacteria";
     carbon_content_percent := 0;
     doubling_time_hours := 12;
     photosynthetic_efficiency := 0.8;
     sinking_rate_m_per_day := 50;
     export_fraction := 0.4;
     optimal_temperature_range := (20, 30);
     optimal_salinity_range := (30, 40);
     genetic_kill_switch := true;
     r_and_d_cost_millions := 15 |}.

(** The basic scenario with a strain that sinks at 0.14 m/day. *)
Definition slow_strain : AlgaeStrain :=
  with_sinking_rate_m_per_day basic_strain 0.14.

Definition slow_model : AlgaeCarbonSequestrationModel :=
  model_of slow_strain basic_environment basic_operations.

(** * Vocabulary of the statements *)

(** A call is read-only when the object it hands back is the object it was
    given. *)
Definition read_only {A} (m : Method A) : Prop :=
  forall self,
    match m self with
    | Returns (_, self') => self' = self
    | Raises _ => True
    end.

(** The value a call returns on [self], or [default] when it raises. *)
Definition value_of {A} (m : Method A) (self : AlgaeCarbonSequestrationModel)
    (default : A) : A :=
  match m self with
  | Returns (a, _) => a
  | Raises _ => default
  end.

Definition factor (m : Method R) self : R := value_of m self 0.

Definition growth_of self : R := value_of calculate_growth_rate self 0.
Definition npp_of self : R := value_of calculate_net_primary_productivity self 0.
Definition co2_of self : R := value_of calculate_co2_removed self 0.
Definition biomass_of self : R := value_of calculate_biomass_required self 0.

(** The curve that [_temperature_response_factor] and
    [_salinity_response_factor] both spell out. *)
Definition bell (x lo hi : R) : Method R :=
  if Rltb x lo || Rgtb x hi then ret 0
  else if Reqb x ((lo + hi) / 2) then ret 1
  else
    q <- py_truediv (x - (lo + hi) / 2) (hi - lo) ;;
    ret (1 - q ^ 2).

Definition costs_of self : CostBreakdown :=
  {| cultivation := biomass_of self * cultivation_cost_per_kg (operations self);
     delivery := biomass_of self * delivery_cost_per_kg (operations self);
     vessel := vessel_cost_per_day (operations self) * DAYS_PER_YEAR self;
     monitoring := monitoring_cost_per_year (operations self);
     regulatory := regulatory_cost_per_year (operations self);
     r_and_d := r_and_d_cost_millions (strain self) * 1e6 / 10;
     total :=
       biomass_of self * cultivation_cost_per_kg (operations self)
       + biomass_of self * delivery_cost_per_kg (operations self)
       + vessel_cost_per_day (operations self) * DAYS_PER_YEAR self
       + monitoring_cost_per_year (operations self)
       + regulatory_cost_per_year (operations self)
       + r_and_d_cost_millions (strain self) * 1e6 / 10 |}.

Definition cost_per_tonne_of self : pyfloat :=
  if Rleb (co2_of self) 0 then PosInf
  else float_truediv (total (costs_of self)) (co2_of self).

(** The order of the floats, infinities included. *)
Definition pf_le (x y : pyfloat) : Prop :=
  match x, y with
  | NegInf, _ => True
  | _, PosInf => True
  | Finite a, Finite b => a <= b
  | _, _ => False
  end.

Definition safety_of self : R :=
  if genetic_kill_switch (strain self) then 1 else 0.5.

Definition score_of (c : pyfloat) (x : R) self : pyfloat :=
  value_of (_calculate_viability_score c x) self (Finite 0).

Definition metrics_of self : Metrics :=
  {| co2_removed_tonnes_per_year := co2_of self;
     cost_per_tonne_co2 := cost_per_tonne_of self;
     total_cost_per_year := total (costs_of self);
     biomass_required_kg_per_year := biomass_of self;
     carbon_sequestered_kg_per_year :=
       value_of calculate_total_carbon_sequestered self 0;
     npp_g_c_per_m2_per_year := npp_of self;
     growth_rate_per_day := growth_of self;
     viability_score := score_of (cost_per_tonne_of self) (co2_of self) self;
     cost_competitiveness :=
       if pf_gtb (cost_per_tonne_of self) 0
       then pf_rdiv 100 (cost_per_tonne_of self) else 0;
     scale_adequacy := co2_of self / 1000 |}.

(** Two models hold the same values in every field that a formula reads. *)
Definition same_fields_read (self1 self2 : AlgaeCarbonSequestrationModel)
    : Prop :=
  carbon_content_percent (strain self1) = carbon_content_percent (strain self2)
  /\ doubling_time_hours (strain self1) = doubling_time_hours (strain self2)
  /\ sinking_rate_m_per_day (strain self1)
     = sinking_rate_m_per_day (strain self2)
  /\ export_fraction (strain self1) = export_fraction (strain self2)
  /\ optimal_temperature_range (strain self1)
     = optimal_temperature_range (strain self2)
  /\ optimal_salinity_range (strain self1)
     = optimal_salinity_range (strain self2)
  /\ genetic_kill_switch (strain self1) = genetic_kill_switch (strain self2)
  /\ r_and_d_cost_millions (strain self1)
     = r_and_d_cost_millions (strain self2)
  /\ euphotic_depth_m (environment self1)
     = euphotic_depth_m (environment self2)
  /\ surface_temperature_celsius (environment self1)
     = surface_temperature_celsius (environment self2)
  /\ salinity_ppt (environment self1) = salinity_ppt (environment self2)
  /\ nutrient_nitrogen_umol_per_l (environment self1)
     = nutrient_nitrogen_umol_per_l (environment self2)
  /\ nutrient_phosphorus_umol_per_l (environment self1)
     = nutrient_phosphorus_umol_per_l (environment self2)
  /\ nutrient_iron_nmol_per_l (environment self1)
     = nutrient_iron_nmol_per_l (environment self2)
  /\ mixing_depth_m (environment self1) = mixing_depth_m (environment self2)
  /\ sequestration_depth_m (environment self1)
     = sequestration_depth_m (environment self2)
  /\ area_km2 (operations self1) = area_km2 (operations self2)
  /\ cultivation_cost_per_kg (operations self1)
     = cultivation_cost_per_kg (operations self2)
  /\ delivery_cost_per_kg (operations self1)
     = delivery_cost_per_kg (operations self2)
  /\ vessel_cost_per_day (operations self1)
     = vessel_cost_per_day (operations self2)
  /\ monitoring_cost_per_year (operations self1)
     = monitoring_cost_per_year (operations self2)
  /\ regulatory_cost_per_year (operations self1)
     = regulatory_cost_per_year (operations self2)
  /\ CARBON_TO_CO2_RATIO self1 = CARBON_TO_CO2_RATIO self2
  /\ DAYS_PER_YEAR self1 = DAYS_PER_YEAR self2.

(** Two calls, each on its own model, end alike: both return the same
    value and leave their model alone, or both raise the same error. *)
Definition agree {A} (self1 self2 : AlgaeCarbonSequestrationModel)
    (m1 m2 : Method A) : Prop :=
  match m1 self1, m2 self2 with
  | Returns (a, s1), Returns (b, s2) => a = b /\ s1 = self1 /\ s2 = self2
  | Raises e1, Raises e2 => e1 = e2
  | _, _ => False
  end.

(** * Properties *)

(** ** Comparisons *)

Lemma Rltb_true (x y : R) : Rltb x y = true <-> x < y.
Proof. unfold Rltb; destruct (Rlt_dec x y); split; intros; try easy. Qed.

Lemma Rltb_false (x y : R) : Rltb x y = false <-> y <= x.
Proof.
  unfold Rltb; destruct (Rlt_dec x y); split; intros; try easy; lra.
Qed.

Lemma Rleb_true (x y : R) : Rleb x y = true <-> x <= y.
Proof. unfold Rleb; destruct (Rle_dec x y); split; intros; try easy. Qed.

Lemma Rleb_false (x y : R) : Rleb x y = false <-> y < x.
Proof.
  unfold Rleb; destruct (Rle_dec x y); split; intros; try easy; lra.
Qed.

Lemma Reqb_true (x y : R) : Reqb x y = true <-> x = y.
Proof. unfold Reqb; destruct (Req_dec_T x y); split; intros; try easy. Qed.

Lemma Reqb_false (x y : R) : Reqb x y = false <-> x <> y.
Proof. unfold Reqb; destruct (Req_dec_T x y); split; intros; try easy. Qed.

(** Splits on every comparison that the goal branches on, innermost first. *)
Ltac no_comparison t :=
  lazymatch t with
  | context [Rlt_dec _ _] => fail
  | context [Rle_dec _ _] => fail
  | context [Req_dec_T _ _] => fail
  | _ => idtac
  end.

Ltac case_R :=
  unfold Rgtb, Rgeb, Rltb, Rleb, Reqb in *;
  repeat match goal with
         | |- context [Rlt_dec ?x ?y] =>
             no_comparison x; no_comparison y; destruct (Rlt_dec x y)
         | |- context [Rle_dec ?x ?y] =>
             no_comparison x; no_comparison y; destruct (Rle_dec x y)
         | |- context [Req_dec_T ?x ?y] =>
             no_comparison x; no_comparison y; destruct (Req_dec_T x y)
         end;
  simpl.

Lemma py_max_Rmax (a b : R) : py_max a b = Rmax a b.
Proof. unfold py_max, Rmax; case_R; lra. Qed.

Lemma py_min_Rmin (a b : R) : py_min a b = Rmin a b.
Proof. unfold py_min, Rmin; case_R; lra. Qed.

Lemma py_max_lower (a b : R) : a <= py_max a b.
Proof. unfold py_max; case_R; lra. Qed.

Lemma py_max_0_of_nonpos (x : R) : x <= 0 -> py_max 0 x = 0.
Proof. unfold py_max; case_R; lra. Qed.

Lemma py_max_0_of_pos (x : R) : 0 < x -> py_max 0 x = x.
Proof. unfold py_max; case_R; lra. Qed.

(** ** Overflow *)

Lemma float_overflow_large : 1000000 < float_overflow.
Proof. unfold float_overflow. apply IZR_lt. reflexivity. Qed.

Lemma overflow_finite (q : R) :
  - float_overflow < q < float_overflow -> overflow q = Finite q.
Proof.
  intros [Hlo Hhi]. unfold overflow.
  destruct (Rleb float_overflow q) eqn:E1; [apply Rleb_true in E1; lra |].
  destruct (Rleb q (- float_overflow)) eqn:E2; [apply Rleb_true in E2; lra |].
  reflexivity.
Qed.

Lemma overflow_posinf (q : R) : float_overflow <= q -> overflow q = PosInf.
Proof.
  intros H. unfold overflow.
  destruct (Rleb float_overflow q) eqn:E; [reflexivity |].
  apply Rleb_false in E. lra.
Qed.

Lemma overflow_neginf (q : R) : q <= - float_overflow -> overflow q = NegInf.
Proof.
  intros H. pose proof float_overflow_large as HM. unfold overflow.
  destruct (Rleb float_overflow q) eqn:E1; [apply Rleb_true in E1; lra |].
  destruct (Rleb q (- float_overflow)) eqn:E2; [reflexivity |].
  apply Rleb_false in E2. lra.
Qed.

Lemma overflow_cases (q : R) :
  (- float_overflow < q < float_overflow /\ overflow q = Finite q)
  \/ (float_overflow <= q /\ overflow q = PosInf)
  \/ (q <= - float_overflow /\ overflow q = NegInf).
Proof.
  destruct (Rle_dec float_overflow q) as [H1 | H1].
  - right. left. split; [exact H1 | apply overflow_posinf, H1].
  - destruct (Rle_dec q (- float_overflow)) as [H2 | H2].
    + right. right. split; [exact H2 | apply overflow_neginf, H2].
    + left. assert (H : - float_overflow < q < float_overflow) by lra.
      split; [exact H | apply overflow_finite, H].
Qed.

Lemma overflow_monotone (q1 q2 : R) :
  q1 <= q2 -> pf_le (overflow q1) (overflow q2).
Proof.
  intros H. pose proof float_overflow_large as HM.
  destruct (overflow_cases q1) as [[H1 E1] | [[H1 E1] | [H1 E1]]],
    (overflow_cases q2) as [[H2 E2] | [[H2 E2] | [H2 E2]]];
    rewrite E1, E2; simpl; try exact I; lra.
Qed.

(** A quotient below a million in absolute value is far from overflow. *)
Lemma float_truediv_finite (a b : R) :
  - 1000000 <= a / b <= 1000000 -> float_truediv a b = Finite (a / b).
Proof.
  intros H. pose proof float_overflow_large as HM.
  apply overflow_finite. lra.
Qed.

(** ** Calls that only read the object *)

Lemma read_only_ret {A} (a : A) : read_only (ret a).
Proof. intros self; reflexivity. Qed.

Lemma read_only_raise {A} (e : exn) : read_only (@raise A e).
Proof. intros self; exact I. Qed.

Lemma read_only_get_self : read_only get_self.
Proof. intros self; reflexivity. Qed.

Lemma read_only_bind {A B} (m : Method A) (k : A -> Method B) :
  read_only m -> (forall a, read_only (k a)) -> read_only (bind m k).
Proof.
  intros Hm Hk self. unfold bind.
  specialize (Hm self). destruct (m self) as [[a self'] | e]; [| exact I].
  subst self'. apply Hk.
Qed.

Lemma read_only_if {A} (b : bool) (m1 m2 : Method A) :
  read_only m1 -> read_only m2 -> read_only (if b then m1 else m2).
Proof. destruct b; auto. Qed.

Lemma read_only_py_truediv (a b : R) : read_only (py_truediv a b).
Proof.
  unfold py_truediv. apply read_only_if;
    [apply read_only_raise | apply read_only_ret].
Qed.

Lemma read_only_truediv_from_max (c a b : R) :
  read_only (truediv_from_max c a b).
Proof.
  unfold truediv_from_max. apply read_only_if;
    [apply read_only_ret | apply read_only_py_truediv].
Qed.

Create HintDb readonly.
#[local] Hint Resolve read_only_ret read_only_raise read_only_get_self
  read_only_py_truediv read_only_truediv_from_max : readonly.

(** Decomposes a method body along its binds and branches. *)
Ltac read_only_body :=
  repeat first
    [ apply read_only_bind; [| intro]
    | apply read_only_if
    | solve [auto with readonly] ].

Lemma read_only_temperature : read_only _temperature_response_factor.
Proof. unfold _temperature_response_factor; read_only_body. Qed.

Lemma read_only_light : read_only _light_limitation_factor.
Proof. unfold _light_limitation_factor; read_only_body. Qed.

Lemma read_only_nutrient : read_only _nutrient_limitation_factor.
Proof. unfold _nutrient_limitation_factor; read_only_body. Qed.

Lemma read_only_salinity : read_only _salinity_response_factor.
Proof. unfold _salinity_response_factor; read_only_body. Qed.

#[local] Hint Resolve read_only_temperature read_only_light
  read_only_nutrient read_only_salinity : readonly.

Lemma read_only_growth_rate : read_only calculate_growth_rate.
Proof. unfold calculate_growth_rate; read_only_body. Qed.

#[local] Hint Resolve read_only_growth_rate : readonly.

Lemma read_only_npp : read_only calculate_net_primary_productivity.
Proof. unfold calculate_net_primary_productivity; read_only_body. Qed.

#[local] Hint Resolve read_only_npp : readonly.

Lemma read_only_carbon_export : read_only calculate_carbon_export.
Proof. unfold calculate_carbon_export; read_only_body. Qed.

#[local] Hint Resolve read_only_carbon_export : readonly.

Lemma read_only_total_carbon : read_only calculate_total_carbon_sequestered.
Proof. unfold calculate_total_carbon_sequestered; read_only_body. Qed.

#[local] Hint Resolve read_only_total_carbon : readonly.

Lemma read_only_co2_removed : read_only calculate_co2_removed.
Proof. unfold calculate_co2_removed; read_only_body. Qed.

Lemma read_only_biomass_required : read_only calculate_biomass_required.
Proof. unfold calculate_biomass_required; read_only_body. Qed.

#[local] Hint Resolve read_only_co2_removed read_only_biomass_required
  : readonly.

Lemma read_only_operational_costs : read_only calculate_operational_costs.
Proof. unfold calculate_operational_costs; read_only_body. Qed.

#[local] Hint Resolve read_only_operational_costs : readonly.

Lemma read_only_cost_per_tonne : read_only calculate_cost_per_tonne_co2.
Proof. unfold calculate_cost_per_tonne_co2; read_only_body. Qed.

Lemma read_only_viability_score (c : pyfloat) (x : R) :
  read_only (_calculate_viability_score c x).
Proof. unfold _calculate_viability_score; read_only_body. Qed.

#[local] Hint Resolve read_only_cost_per_tonne read_only_viability_score
  : readonly.

Lemma read_only_viability_metrics : read_only calculate_viability_metrics.
Proof. unfold calculate_viability_metrics; read_only_body. Qed.

(** ** What a call returns *)

Lemma bind_run {A B} (m : Method A) (k : A -> Method B) self a :
  m self = Returns (a, self) -> bind m k self = k a self.
Proof. intros H. unfold bind. rewrite H. reflexivity. Qed.

Lemma bind_raises {A B} (m : Method A) (k : A -> Method B) self e :
  m self = Raises e -> bind m k self = Raises e.
Proof. intros H. unfold bind. rewrite H. reflexivity. Qed.

Lemma run_value_of {A} (m : Method A) self a (default : A) :
  m self = Returns (a, self) -> value_of m self default = a.
Proof. intros H. unfold value_of. rewrite H. reflexivity. Qed.

Lemma py_truediv_run (a b : R) self :
  b <> 0 -> py_truediv a b self = Returns (a / b, self).
Proof.
  intros Hb. unfold py_truediv.
  destruct (Reqb b 0) eqn:E; [apply Reqb_true in E; contradiction |].
  reflexivity.
Qed.

Lemma py_truediv_zero (a : R) self :
  py_truediv a 0 self = Raises ZeroDivisionError.
Proof.
  unfold py_truediv.
  destruct (Reqb 0 0) eqn:E; [reflexivity |].
  apply Reqb_false in E. contradiction.
Qed.

(** *** The bell curve shared by temperature and salinity *)

Lemma temperature_is_bell self :
  _temperature_response_factor self =
  bell (surface_temperature_celsius (environment self))
       (fst (optimal_temperature_range (strain self)))
       (snd (optimal_temperature_range (strain self))) self.
Proof. reflexivity. Qed.

Lemma salinity_is_bell self :
  _salinity_response_factor self =
  bell (salinity_ppt (environment self))
       (fst (optimal_salinity_range (strain self)))
       (snd (optimal_salinity_range (strain self))) self.
Proof. reflexivity. Qed.

Lemma bell_outside (x lo hi : R) self :
  x < lo \/ x > hi -> bell x lo hi self = Returns (0, self).
Proof.
  intros H. unfold bell.
  destruct (Rltb x lo || Rgtb x hi) eqn:E; [reflexivity |].
  apply orb_false_iff in E. destruct E as [E1 E2].
  apply Rltb_false in E1. apply Rltb_false in E2. lra.
Qed.

Lemma bell_inside (x lo hi : R) self :
  lo <= x <= hi ->
  bell x lo hi self =
  Returns (if Reqb x ((lo + hi) / 2) then 1
           else 1 - ((x - (lo + hi) / 2) / (hi - lo)) ^ 2, self).
Proof.
  intros H. unfold bell.
  destruct (Rltb x lo || Rgtb x hi) eqn:E.
  - apply orb_true_iff in E. destruct E as [E | E];
      apply Rltb_true in E; lra.
  - destruct (Reqb x ((lo + hi) / 2)) eqn:E'; [reflexivity |].
    apply Reqb_false in E'.
    rewrite (bind_run _ _ _ ((x - (lo + hi) / 2) / (hi - lo)));
      [reflexivity |].
    apply py_truediv_run. intros Hz. apply E'. lra.
Qed.

(** The bell curve never divides by zero, whatever the range. *)
Lemma bell_returns (x lo hi : R) self :
  exists v, bell x lo hi self = Returns (v, self).
Proof.
  destruct (Rlt_dec x lo) as [H1 | H1];
    [eexists; apply bell_outside; lra |].
  destruct (Rlt_dec hi x) as [H2 | H2];
    [eexists; apply bell_outside; lra |].
  eexists. apply bell_inside. lra.
Qed.

Lemma bell_inside_bounds (x lo hi : R) self :
  lo < hi -> lo <= x <= hi ->
  exists v, bell x lo hi self = Returns (v, self) /\ 0.75 <= v <= 1.
Proof.
  intros Hlt Hin. rewrite (bell_inside _ _ _ _ Hin).
  eexists; split; [reflexivity |].
  destruct (Reqb x ((lo + hi) / 2)); [lra |].
  set (q := (x - (lo + hi) / 2) / (hi - lo)).
  assert (Hq : -0.5 <= q <= 0.5).
  { unfold q. split.
    - apply Rmult_le_reg_r with (hi - lo); [lra |].
      unfold Rdiv. rewrite Rmult_assoc, Rinv_l by lra. lra.
    - apply Rmult_le_reg_r with (hi - lo); [lra |].
      unfold Rdiv. rewrite Rmult_assoc, Rinv_l by lra. lra. }
  nra.
Qed.

Lemma bell_at_endpoint (x lo hi : R) self :
  lo < hi -> x = lo \/ x = hi -> bell x lo hi self = Returns (0.75, self).
Proof.
  intros Hlt Hx. rewrite bell_inside by lra.
  destruct (Reqb x ((lo + hi) / 2)) eqn:E;
    [apply Reqb_true in E; lra |].
  replace 0.75 with (3 / 4) by lra.
  f_equal. f_equal. destruct Hx; subst x; field; lra.
Qed.

(** *** The four factors return and leave the object alone *)

Lemma run_factor (m : Method R) self :
  (exists v, m self = Returns (v, self)) ->
  m self = Returns (factor m self, self).
Proof.
  intros [v H]. unfold factor. rewrite (run_value_of _ _ _ _ H). exact H.
Qed.

Lemma temperature_run self :
  _temperature_response_factor self =
  Returns (factor _temperature_response_factor self, self).
Proof. apply run_factor. rewrite temperature_is_bell. apply bell_returns. Qed.

Lemma salinity_run self :
  _salinity_response_factor self =
  Returns (factor _salinity_response_factor self, self).
Proof. apply run_factor. rewrite salinity_is_bell. apply bell_returns. Qed.

Lemma light_run self :
  _light_limitation_factor self =
  Returns (factor _light_limitation_factor self, self).
Proof.
  apply run_factor. unfold _light_limitation_factor, bind, get_self.
  destruct (Rltb _ _); [eexists; reflexivity |].
  destruct (Rgtb _ _); eexists; reflexivity.
Qed.

Lemma nutrient_run self :
  _nutrient_limitation_factor self =
  Returns (factor _nutrient_limitation_factor self, self).
Proof.
  apply run_factor. unfold _nutrient_limitation_factor, bind, get_self.
  eexists. reflexivity.
Qed.

Lemma light_positive self : 0.1 <= factor _light_limitation_factor self <= 1.
Proof.
  unfold factor, value_of, _light_limitation_factor, bind, get_self.
  case_R; unfold ret; lra.
Qed.

Lemma growth_rate_run self :
  calculate_growth_rate self =
  Returns
    (py_max 0
       (np_truediv (ln 2) (doubling_time_hours (strain self) / 24)
        * factor _temperature_response_factor self
        * factor _light_limitation_factor self
        * factor _nutrient_limitation_factor self
        * factor _salinity_response_factor self), self).
Proof.
  unfold calculate_growth_rate.
  rewrite (bind_run _ _ _ self) by reflexivity.
  rewrite (bind_run _ _ _ _ (temperature_run self)).
  rewrite (bind_run _ _ _ _ (light_run self)).
  rewrite (bind_run _ _ _ _ (nutrient_run self)).
  rewrite (bind_run _ _ _ _ (salinity_run self)).
  reflexivity.
Qed.

(** *** Growth and production *)

Lemma growth_of_eq self :
  growth_of self =
  py_max 0
    (np_truediv (ln 2) (doubling_time_hours (strain self) / 24)
     * factor _temperature_response_factor self
     * factor _light_limitation_factor self
     * factor _nutrient_limitation_factor self
     * factor _salinity_response_factor self).
Proof. apply run_value_of, growth_rate_run. Qed.

Lemma growth_rate_returns self :
  calculate_growth_rate self = Returns (growth_of self, self).
Proof. rewrite growth_of_eq. apply growth_rate_run. Qed.

Lemma npp_run self :
  calculate_net_primary_productivity self =
  Returns
    (py_max 0 (growth_of self * 1 * mixing_depth_m (environment self)
               * DAYS_PER_YEAR self), self).
Proof.
  unfold calculate_net_primary_productivity.
  rewrite (bind_run _ _ _ _ (growth_rate_returns self)).
  reflexivity.
Qed.

Lemma npp_of_eq self :
  npp_of self =
  py_max 0 (growth_of self * 1 * mixing_depth_m (environment self)
            * DAYS_PER_YEAR self).
Proof. apply run_value_of, npp_run. Qed.

Lemma npp_returns self :
  calculate_net_primary_productivity self = Returns (npp_of self, self).
Proof. rewrite npp_of_eq. apply npp_run. Qed.

Lemma carbon_export_run self :
  sinking_rate_m_per_day (strain self) <> 0 ->
  calculate_carbon_export self =
  Returns
    (npp_of self * export_fraction (strain self)
     * exp (- (0.1) * (sequestration_depth_m (environment self)
                     / sinking_rate_m_per_day (strain self))), self).
Proof.
  intros Hs. unfold calculate_carbon_export.
  rewrite (bind_run _ _ _ _ (npp_returns self)).
  rewrite (bind_run _ _ _ self) by reflexivity.
  rewrite (bind_run _ _ _ _ (py_truediv_run _ _ self Hs)).
  reflexivity.
Qed.

Lemma carbon_export_raises self :
  sinking_rate_m_per_day (strain self) = 0 ->
  calculate_carbon_export self = Raises ZeroDivisionError.
Proof.
  intros Hs. unfold calculate_carbon_export.
  rewrite (bind_run _ _ _ _ (npp_returns self)).
  rewrite (bind_run _ _ _ self) by reflexivity.
  rewrite Hs. apply bind_raises, py_truediv_zero.
Qed.

Lemma total_carbon_run self :
  sinking_rate_m_per_day (strain self) <> 0 ->
  calculate_total_carbon_sequestered self =
  Returns
    (npp_of self * export_fraction (strain self)
     * exp (- (0.1) * (sequestration_depth_m (environment self)
                     / sinking_rate_m_per_day (strain self)))
     * (area_km2 (operations self) * 1e6) / 1000, self).
Proof.
  intros Hs. unfold calculate_total_carbon_sequestered.
  rewrite (bind_run _ _ _ _ (carbon_export_run self Hs)).
  reflexivity.
Qed.

Lemma co2_removed_run self :
  sinking_rate_m_per_day (strain self) <> 0 ->
  calculate_co2_removed self =
  Returns
    (npp_of self * export_fraction (strain self)
     * exp (- (0.1) * (sequestration_depth_m (environment self)
                     / sinking_rate_m_per_day (strain self)))
     * (area_km2 (operations self) * 1e6) / 1000
     * CARBON_TO_CO2_RATIO self / 1000, self).
Proof.
  intros Hs. unfold calculate_co2_removed.
  rewrite (bind_run _ _ _ _ (total_carbon_run self Hs)).
  reflexivity.
Qed.

Lemma co2_removed_raises self :
  sinking_rate_m_per_day (strain self) = 0 ->
  calculate_co2_removed self = Raises ZeroDivisionError.
Proof.
  intros Hs. unfold calculate_co2_removed, calculate_total_carbon_sequestered.
  apply bind_raises, bind_raises, carbon_export_raises, Hs.
Qed.

Lemma co2_of_eq self :
  sinking_rate_m_per_day (strain self) <> 0 ->
  co2_of self =
  npp_of self * export_fraction (strain self)
  * exp (- (0.1) * (sequestration_depth_m (environment self)
                  / sinking_rate_m_per_day (strain self)))
  * (area_km2 (operations self) * 1e6) / 1000
  * CARBON_TO_CO2_RATIO self / 1000.
Proof. intros Hs. apply run_value_of, co2_removed_run, Hs. Qed.

Lemma co2_removed_returns self :
  sinking_rate_m_per_day (strain self) <> 0 ->
  calculate_co2_removed self = Returns (co2_of self, self).
Proof. intros Hs. rewrite co2_of_eq by exact Hs. apply co2_removed_run, Hs. Qed.

Lemma truediv_from_max_run (c a b : R) self :
  b <> 0 -> truediv_from_max c a b self = Returns (a / b, self).
Proof.
  intros Hb. unfold truediv_from_max.
  destruct (Rgtb c 0); [reflexivity | apply py_truediv_run, Hb].
Qed.

Lemma biomass_required_run self :
  carbon_content_percent (strain self) <> 0 ->
  calculate_biomass_required self =
  Returns
    (if Rgeb (npp_of self) 125 then 0
     else (125 - npp_of self) / carbon_content_percent (strain self) * 100
          * (area_km2 (operations self) * 1e6) / 1000, self).
Proof.
  intros Hc. unfold calculate_biomass_required.
  rewrite (bind_run _ _ _ _ (npp_returns self)).
  destruct (Rgeb (npp_of self) 125); [reflexivity |].
  rewrite (bind_run _ _ _ self) by reflexivity.
  rewrite (bind_run _ _ _ _ (truediv_from_max_run _ _ _ self Hc)).
  reflexivity.
Qed.

Lemma biomass_of_eq self :
  carbon_content_percent (strain self) <> 0 ->
  biomass_of self =
  if Rgeb (npp_of self) 125 then 0
  else (125 - npp_of self) / carbon_content_percent (strain self) * 100
       * (area_km2 (operations self) * 1e6) / 1000.
Proof. intros Hc. apply run_value_of, biomass_required_run, Hc. Qed.

Lemma biomass_required_returns self :
  carbon_content_percent (strain self) <> 0 ->
  calculate_biomass_required self = Returns (biomass_of self, self).
Proof.
  intros Hc. rewrite biomass_of_eq by exact Hc.
  apply biomass_required_run, Hc.
Qed.

(** With a carbon content of 0 the division of line 196 is reached when
    the NPP is below the target, and it is Python's own when the NPP is 0. *)
Lemma biomass_required_raises self :
  carbon_content_percent (strain self) = 0 ->
  npp_of self <= 0 ->
  calculate_biomass_required self = Raises ZeroDivisionError.
Proof.
  intros Hc Hn. unfold calculate_biomass_required.
  rewrite (bind_run _ _ _ _ (npp_returns self)).
  destruct (Rgeb (npp_of self) 125) eqn:E; [apply Rleb_true in E; lra |].
  rewrite (bind_run _ _ _ self) by reflexivity.
  apply bind_raises. unfold truediv_from_max.
  destruct (Rgtb (npp_of self) 0) eqn:E2; [apply Rltb_true in E2; lra |].
  rewrite Hc. apply py_truediv_zero.
Qed.

(** *** Costs *)

Lemma operational_costs_returns self :
  carbon_content_percent (strain self) <> 0 ->
  calculate_operational_costs self = Returns (costs_of self, self).
Proof.
  intros Hc. unfold calculate_operational_costs.
  rewrite (bind_run _ _ _ _ (biomass_required_returns self Hc)).
  reflexivity.
Qed.

Lemma cost_per_tonne_returns self :
  carbon_content_percent (strain self) <> 0 ->
  sinking_rate_m_per_day (strain self) <> 0 ->
  calculate_cost_per_tonne_co2 self = Returns (cost_per_tonne_of self, self).
Proof.
  intros Hc Hs. unfold calculate_cost_per_tonne_co2, cost_per_tonne_of.
  rewrite (bind_run _ _ _ _ (operational_costs_returns self Hc)).
  rewrite (bind_run _ _ _ _ (co2_removed_returns self Hs)).
  destruct (Rleb (co2_of self) 0); reflexivity.
Qed.

(** *** Viability *)

Lemma viability_score_nonviable (c : pyfloat) (x : R) self :
  pf_leb c 0 = true \/ x <= 0 ->
  _calculate_viability_score c x self = Returns (Finite 0, self).
Proof.
  intros H. unfold _calculate_viability_score.
  destruct (pf_leb c 0 || Rleb x 0) eqn:E; [reflexivity |].
  apply orb_false_iff in E. destruct E as [E1 E2].
  destruct H as [H | H]; [congruence |].
  apply Rleb_false in E2. lra.
Qed.

Lemma viability_score_finite (c x : R) self :
  0 < c -> 0 < x ->
  _calculate_viability_score (Finite c) x self =
  Returns
    (Finite (py_max 0 (1 - (c - 50) / 200) * 0.4
             + py_min 1 (x / 10000) * 0.4 + safety_of self * 0.2), self).
Proof.
  intros Hc Hx. unfold _calculate_viability_score.
  destruct (pf_leb (Finite c) 0 || Rleb x 0) eqn:E.
  - apply orb_true_iff in E. destruct E as [E | E];
      apply Rleb_true in E; lra.
  - rewrite (bind_run _ _ _ self) by reflexivity.
    unfold pf_max0, py_max, safety_of. simpl.
    destruct (Rgtb (1 - (c - 50) / 200) 0); reflexivity.
Qed.

Lemma viability_score_infinite_cost (x : R) self :
  0 < x ->
  _calculate_viability_score PosInf x self =
  Returns
    (Finite (0 * 0.4 + py_min 1 (x / 10000) * 0.4 + safety_of self * 0.2),
     self).
Proof.
  intros Hx. unfold _calculate_viability_score.
  destruct (pf_leb PosInf 0 || Rleb x 0) eqn:E.
  - apply orb_true_iff in E. destruct E as [E | E]; [discriminate |].
    apply Rleb_true in E. lra.
  - rewrite (bind_run _ _ _ self) by reflexivity.
    unfold pf_max0, pf_div, safety_of. simpl.
    destruct (Rltb 0 200) eqn:E'; [reflexivity |].
    apply Rltb_false in E'. lra.
Qed.

Lemma viability_score_returns (c : pyfloat) (x : R) self :
  _calculate_viability_score c x self = Returns (score_of c x self, self).
Proof.
  assert (H : exists v, _calculate_viability_score c x self = Returns (v, self)).
  { unfold _calculate_viability_score.
    destruct (pf_leb c 0 || Rleb x 0); eexists; reflexivity. }
  destruct H as [v H]. unfold score_of.
  rewrite (run_value_of _ _ _ _ H). exact H.
Qed.

Lemma total_carbon_returns self :
  sinking_rate_m_per_day (strain self) <> 0 ->
  calculate_total_carbon_sequestered self =
  Returns (value_of calculate_total_carbon_sequestered self 0, self).
Proof.
  intros Hs. pose proof (total_carbon_run self Hs) as H.
  rewrite (run_value_of _ _ _ _ H). exact H.
Qed.

Lemma viability_metrics_returns self :
  carbon_content_percent (strain self) <> 0 ->
  sinking_rate_m_per_day (strain self) <> 0 ->
  calculate_viability_metrics self = Returns (metrics_of self, self).
Proof.
  intros Hc Hs. unfold calculate_viability_metrics.
  rewrite (bind_run _ _ _ _ (co2_removed_returns self Hs)).
  rewrite (bind_run _ _ _ _ (cost_per_tonne_returns self Hc Hs)).
  rewrite (bind_run _ _ _ _ (operational_costs_returns self Hc)).
  rewrite (bind_run _ _ _ _ (biomass_required_returns self Hc)).
  rewrite (bind_run _ _ _ _ (total_carbon_returns self Hs)).
  rewrite (bind_run _ _ _ _ (npp_returns self)).
  rewrite (bind_run _ _ _ _ (growth_rate_returns self)).
  rewrite (bind_run _ _ _ _ (viability_score_returns _ _ self)).
  reflexivity.
Qed.

Lemma viability_metrics_raises self :
  sinking_rate_m_per_day (strain self) = 0 ->
  calculate_viability_metrics self = Raises ZeroDivisionError.
Proof.
  intros Hs. unfold calculate_viability_metrics.
  apply bind_raises, co2_removed_raises, Hs.
Qed.

Lemma viability_metrics_raises_without_carbon self :
  sinking_rate_m_per_day (strain self) <> 0 ->
  carbon_content_percent (strain self) = 0 ->
  npp_of self <= 0 ->
  calculate_viability_metrics self = Raises ZeroDivisionError.
Proof.
  intros Hs Hc Hn. unfold calculate_viability_metrics.
  rewrite (bind_run _ _ _ _ (co2_removed_returns self Hs)).
  apply bind_raises. unfold calculate_cost_per_tonne_co2.
  apply bind_raises. unfold calculate_operational_costs.
  apply bind_raises, biomass_required_raises; assumption.
Qed.

(** ** The basic scenario of [test_model.py] *)

Lemma basic_temperature :
  factor _temperature_response_factor basic_model = 0.91.
Proof.
  apply run_value_of. rewrite temperature_is_bell. simpl.
  rewrite bell_inside by lra.
  destruct (Reqb 28 ((20 + 30) / 2)) eqn:E;
    [apply Reqb_true in E; lra |].
  f_equal. f_equal. lra.
Qed.

Lemma basic_salinity :
  factor _salinity_response_factor basic_model = 1.
Proof.
  apply run_value_of. rewrite salinity_is_bell. simpl.
  rewrite bell_inside by lra.
  destruct (Reqb 35 ((30 + 40) / 2)) eqn:E; [reflexivity |].
  apply Reqb_false in E. exfalso. apply E. lra.
Qed.

Lemma basic_light :
  factor _light_limitation_factor basic_model = 0.8.
Proof.
  unfold factor, value_of, _light_limitation_factor, bind, get_self. simpl.
  case_R; unfold ret; lra.
Qed.

Lemma basic_nutrient :
  factor _nutrient_limitation_factor basic_model = 0.4.
Proof.
  unfold factor, value_of, _nutrient_limitation_factor, bind, get_self. simpl.
  unfold ret, py_min3, py_min. case_R; lra.
Qed.

Lemma basic_growth : growth_of basic_model = 0.5824 * ln 2.
Proof.
  rewrite growth_of_eq, basic_temperature, basic_light, basic_nutrient,
    basic_salinity.
  pose proof ln_lt_2 as Hln.
  rewrite py_max_0_of_pos; unfold np_truediv; simpl; lra.
Qed.

Lemma exp_minus_2_lower : / 9 <= exp (- 2).
Proof.
  replace (- 2) with (- (1 + 1)) by lra. rewrite exp_Ropp, exp_plus.
  pose proof exp_le_3 as H3. pose proof (exp_pos 1) as Hp.
  apply Rinv_le_contravar; nra.
Qed.

Lemma basic_npp : npp_of basic_model = 10636.08 * ln 2.
Proof.
  rewrite npp_of_eq, basic_growth. pose proof ln_lt_2 as Hln.
  rewrite py_max_0_of_pos; simpl; lra.
Qed.

Lemma basic_biomass : biomass_of basic_model = 0.
Proof.
  rewrite biomass_of_eq by (simpl; lra).
  rewrite basic_npp. pose proof ln_lt_2 as Hln.
  destruct (Rgeb (10636.08 * ln 2) 125) eqn:E; [reflexivity |].
  apply Rleb_false in E. lra.
Qed.

Lemma basic_total_cost : total (costs_of basic_model) = 3476250.
Proof. simpl. rewrite basic_biomass. lra. Qed.

Lemma basic_co2_lower : 867000 <= co2_of basic_model.
Proof.
  rewrite co2_of_eq by (simpl; lra). rewrite basic_npp. simpl.
  replace (- (0.1) * (1000 / 50)) with (- 2) by lra.
  pose proof exp_minus_2_lower as He. pose proof ln_lt_2 as Hln.
  set (E := exp (- 2)) in *. set (L := ln 2) in *.
  assert (HLE : / 2 * / 9 <= L * E) by (apply Rmult_le_compat; lra).
  lra.
Qed.

Lemma basic_scenario_valid :
  valid_strain basic_strain
  /\ valid_environment basic_environment
  /\ valid_operations basic_operations.
Proof.
  unfold valid_strain, valid_environment, valid_operations. simpl.
  repeat split; lra.
Qed.

(** The score of a removal of 10000 t/year at 10 $/t, with a kill switch. *)
Lemma viability_score_at_10_dollars :
  _calculate_viability_score (Finite 10) 10000 basic_model
  = Returns (Finite 1.08, basic_model).
Proof.
  rewrite viability_score_finite by lra.
  rewrite py_max_0_of_pos by lra.
  unfold py_min, safety_of. simpl.
  destruct (Rltb (10000 / 10000) 1) eqn:E;
    [apply Rltb_true in E; lra |].
  f_equal. f_equal. f_equal. lra.
Qed.

(** [C1] The docstring of [_calculate_viability_score] promises a score
    in 0-1, and the specification a viability score in [0,1] on every
    valid input.  On the basic scenario of [test_model.py] (a valid strain,
    environment and operations) the evaluation returns a viability score
    strictly above 1: the cost sub-score is only clamped from below. *)
Theorem basic_scenario_viability_above_one :
  valid_strain basic_strain
  /\ valid_environment basic_environment
  /\ valid_operations basic_operations
  /\ exists self m v,
       __init__ basic_strain basic_environment basic_operations
       = Returns self
       /\ calculate_viability_metrics self = Returns (m, self)
       /\ viability_score m = Finite v
       /\ 1 < v.
Proof.
  destruct basic_scenario_valid as (Vs & Ve & Vo).
  split; [exact Vs |]. split; [exact Ve |]. split; [exact Vo |].
  pose proof basic_co2_lower as Hco2.
  set (x := co2_of basic_model) in *.
  assert (Hc : 0 < 3476250 / x < 50).
  { split.
    - apply Rdiv_lt_0_compat; lra.
    - apply Rmult_lt_reg_r with x; [lra |].
      unfold Rdiv. rewrite Rmult_assoc, Rinv_l by lra. lra. }
  assert (Hcost : cost_per_tonne_of basic_model = Finite (3476250 / x)).
  { unfold cost_per_tonne_of. rewrite basic_total_cost. fold x.
    destruct (Rleb x 0) eqn:E; [apply Rleb_true in E; lra |].
    apply float_truediv_finite. lra. }
  assert (Hx : 1 <= x / 10000) by lra.
  assert (Hpos : 0 < x) by lra.
  exists basic_model, (metrics_of basic_model).
  eexists. split; [reflexivity |]. split.
  - apply viability_metrics_returns; simpl; lra.
  - simpl. fold x. rewrite Hcost. unfold score_of.
    rewrite (run_value_of _ _ _ (Finite 0)
               (viability_score_finite _ _ basic_model (proj1 Hc) Hpos)).
    split; [reflexivity |].
    rewrite py_max_0_of_pos by lra.
    unfold py_min, safety_of. simpl.
    destruct (Rltb (x / 10000) 1) eqn:E;
      [apply Rltb_true in E; lra | lra].
Qed.

(** ** Temperature and salinity response *)

(** [C3] A surface temperature equal to [opt_min] does not give the
    response 0: with the range (20, 30) and 20 degrees the method returns
    0.75. *)
Lemma temperature_at_opt_min_is_not_zero :
  exists self,
    __init__ basic_strain boundary_environment basic_operations = Returns self /\
    fst (optimal_temperature_range (strain self))
    < snd (optimal_temperature_range (strain self)) /\
    surface_temperature_celsius (environment self)
    = fst (optimal_temperature_range (strain self)) /\
    _temperature_response_factor self = Returns (0.75, self) /\
    _temperature_response_factor self <> Returns (0, self).
Proof.
  eexists. split; [reflexivity |]. simpl.
  assert (H : _temperature_response_factor
                (model_of basic_strain boundary_environment basic_operations)
              = Returns (0.75, model_of basic_strain boundary_environment
                                 basic_operations)).
  { rewrite temperature_is_bell. apply bell_at_endpoint; simpl; lra. }
  repeat split; try lra; [exact H |].
  change (_temperature_response_factor
            (model_of basic_strain boundary_environment basic_operations)
          <> Returns (0, model_of basic_strain boundary_environment
                           basic_operations)).
  rewrite H. intros E. inversion E. lra.
Qed.

(** [C3] For an ordered range, a surface temperature exactly at
    [opt_min] or exactly at [opt_max] is inside the tolerated range and the
    temperature response is exactly 0.75; the cutoff to 0 applies strictly
    outside the range only. *)
Theorem temperature_response_at_endpoints (s : AlgaeStrain)
    (e : EnvironmentalConditions) (o : OperationalParameters) self :
  __init__ s e o = Returns self ->
  fst (optimal_temperature_range s) < snd (optimal_temperature_range s) ->
  surface_temperature_celsius e = fst (optimal_temperature_range s)
  \/ surface_temperature_celsius e = snd (optimal_temperature_range s) ->
  _temperature_response_factor self = Returns (0.75, self).
Proof.
  intros Hinit Hlt Hat. inversion Hinit; subst self; clear Hinit.
  rewrite temperature_is_bell. apply bell_at_endpoint; simpl; assumption.
Qed.

Lemma temperature_response_at_endpoints_witness :
  __init__ basic_strain boundary_environment basic_operations
  = Returns (model_of basic_strain boundary_environment basic_operations) /\
  fst (optimal_temperature_range basic_strain)
  < snd (optimal_temperature_range basic_strain) /\
  (surface_temperature_celsius boundary_environment
   = fst (optimal_temperature_range basic_strain)
   \/ surface_temperature_celsius boundary_environment
      = snd (optimal_temperature_range basic_strain)) /\
  _temperature_response_factor
    (model_of basic_strain boundary_environment basic_operations)
  = Returns (0.75, model_of basic_strain boundary_environment basic_operations).
Proof.
  assert (H1 : fst (optimal_temperature_range basic_strain)
               < snd (optimal_temperature_range basic_strain))
    by (simpl; lra).
  assert (H2 : surface_temperature_celsius boundary_environment
               = fst (optimal_temperature_range basic_strain)
               \/ surface_temperature_celsius boundary_environment
                  = snd (optimal_temperature_range basic_strain))
    by (left; reflexivity).
  split; [reflexivity |]. split; [exact H1 |]. split; [exact H2 |].
  exact (temperature_response_at_endpoints basic_strain boundary_environment
           basic_operations _ eq_refl H1 H2).
Defined.

(** [C10] On machine floats the lower bound 0.75 is missed by rounding.
    For the range (0.1, 0.3) and the temperature 0.1, which is inside it,
    the expression of the temperature response evaluates to
    0.7499999999999999; for the range (18, 27.2) and the salinity 18 the
    expression of the salinity response evaluates to 0.7499999999999998. *)
Lemma bell_response_below_three_quarters :
  (0.1 <? 0.3)%float = true
  /\ (0.1 <=? 0.1)%float = true /\ (0.1 <=? 0.3)%float = true
  /\ binary64_temperature_response_factor 0.1 0.1 0.3
     = 0.7499999999999999%float
  /\ (0.7499999999999999 <? 0.75)%float = true
  /\ (18 <? 27.2)%float = true
  /\ (18 <=? 18)%float = true /\ (18 <=? 27.2)%float = true
  /\ binary64_salinity_response_factor 18 18 27.2
     = 0.7499999999999998%float
  /\ (0.7499999999999998 <? 0.75)%float = true.
Proof. repeat split; reflexivity. Qed.

(** [C10] In exact arithmetic, for an ordered optimal range and a value
    inside it, the temperature response and the salinity response both
    return a factor between 0.75 and 1. *)
Theorem bell_response_in_range (s : AlgaeStrain)
    (e : EnvironmentalConditions) (o : OperationalParameters) self :
  __init__ s e o = Returns self ->
  (fst (optimal_temperature_range s) < snd (optimal_temperature_range s) ->
   fst (optimal_temperature_range s) <= surface_temperature_celsius e
   <= snd (optimal_temperature_range s) ->
   exists v, _temperature_response_factor self = Returns (v, self)
             /\ 0.75 <= v <= 1)
  /\
  (fst (optimal_salinity_range s) < snd (optimal_salinity_range s) ->
   fst (optimal_salinity_range s) <= salinity_ppt e
   <= snd (optimal_salinity_range s) ->
   exists v, _salinity_response_factor self = Returns (v, self)
             /\ 0.75 <= v <= 1).
Proof.
  intros Hinit. inversion Hinit; subst self; clear Hinit. split.
  - intros Hlt Hin. rewrite temperature_is_bell.
    apply bell_inside_bounds; simpl; assumption.
  - intros Hlt Hin. rewrite salinity_is_bell.
    apply bell_inside_bounds; simpl; assumption.
Qed.

Lemma bell_response_in_range_witness :
  (exists v,
      _temperature_response_factor basic_model = Returns (v, basic_model)
      /\ 0.75 <= v <= 1)
  /\
  (exists v,
      _salinity_response_factor basic_model = Returns (v, basic_model)
      /\ 0.75 <= v <= 1).
Proof.
  destruct (bell_response_in_range basic_strain basic_environment
              basic_operations basic_model eq_refl) as [Ht Hs].
  split.
  - apply Ht; simpl; lra.
  - apply Hs; simpl; lra.
Defined.

(** ** What a returned metrics record holds *)

(** Reads off a call that returned: the object is the one it was given. *)
Ltac returned R E :=
  match type of E with
  | ?m ?self = Returns (_, ?self') =>
      let H := fresh in
      pose proof (R self) as H; rewrite E in H; subst self'
  end.

Lemma viability_metrics_fields self m self' :
  calculate_viability_metrics self = Returns (m, self') ->
  self' = self
  /\ calculate_co2_removed self = Returns (co2_removed_tonnes_per_year m, self)
  /\ calculate_cost_per_tonne_co2 self = Returns (cost_per_tonne_co2 m, self)
  /\ calculate_biomass_required self
     = Returns (biomass_required_kg_per_year m, self)
  /\ calculate_net_primary_productivity self
     = Returns (npp_g_c_per_m2_per_year m, self)
  /\ calculate_growth_rate self = Returns (growth_rate_per_day m, self)
  /\ _calculate_viability_score (cost_per_tonne_co2 m)
       (co2_removed_tonnes_per_year m) self
     = Returns (viability_score m, self).
Proof.
  unfold calculate_viability_metrics, bind. intros H.
  destruct (calculate_co2_removed self) as [[a1 s1] |] eqn:E1;
    [| discriminate].
  returned read_only_co2_removed E1.
  destruct (calculate_cost_per_tonne_co2 self) as [[a2 s2] |] eqn:E2;
    [| discriminate].
  returned read_only_cost_per_tonne E2.
  destruct (calculate_operational_costs self) as [[a3 s3] |] eqn:E3;
    [| discriminate].
  returned read_only_operational_costs E3.
  destruct (calculate_biomass_required self) as [[a4 s4] |] eqn:E4;
    [| discriminate].
  returned read_only_biomass_required E4.
  destruct (calculate_total_carbon_sequestered self) as [[a5 s5] |] eqn:E5;
    [| discriminate].
  returned read_only_total_carbon E5.
  destruct (calculate_net_primary_productivity self) as [[a6 s6] |] eqn:E6;
    [| discriminate].
  returned read_only_npp E6.
  destruct (calculate_growth_rate self) as [[a7 s7] |] eqn:E7;
    [| discriminate].
  returned read_only_growth_rate E7.
  destruct (_calculate_viability_score a2 a1 self) as [[a8 s8] |] eqn:E8;
    [| discriminate].
  returned (read_only_viability_score a2 a1) E8.
  unfold ret in H. inversion H; subst; simpl.
  repeat split; assumption.
Qed.

(** ** Growth under a vanishing factor *)

Lemma temperature_outside self :
  surface_temperature_celsius (environment self)
  < fst (optimal_temperature_range (strain self))
  \/ surface_temperature_celsius (environment self)
     > snd (optimal_temperature_range (strain self)) ->
  factor _temperature_response_factor self = 0.
Proof.
  intros H. apply run_value_of. rewrite temperature_is_bell.
  apply bell_outside, H.
Qed.

Lemma nutrient_without_nitrogen self :
  nutrient_nitrogen_umol_per_l (environment self) = 0 ->
  0 <= nutrient_phosphorus_umol_per_l (environment self) ->
  0 <= nutrient_iron_nmol_per_l (environment self) ->
  factor _nutrient_limitation_factor self = 0.
Proof.
  intros Hn Hp Hfe.
  unfold factor, value_of, _nutrient_limitation_factor, bind, get_self.
  rewrite Hn. unfold ret, py_min3, py_min.
  set (p := nutrient_phosphorus_umol_per_l (environment self)) in *.
  set (fe := nutrient_iron_nmol_per_l (environment self)) in *.
  assert (0 <= p / 0.3) by (apply Rmult_le_pos; lra).
  assert (0 <= fe / 0.06) by (apply Rmult_le_pos; lra).
  case_R; lra.
Qed.

Lemma growth_zero_of_temperature self :
  factor _temperature_response_factor self = 0 -> growth_of self = 0.
Proof.
  intros H. rewrite growth_of_eq, H. apply py_max_0_of_nonpos. lra.
Qed.

Lemma growth_zero_of_nutrient self :
  factor _nutrient_limitation_factor self = 0 -> growth_of self = 0.
Proof.
  intros H. rewrite growth_of_eq, H. apply py_max_0_of_nonpos. lra.
Qed.

Lemma npp_zero_of_growth self : growth_of self = 0 -> npp_of self = 0.
Proof.
  intros H. rewrite npp_of_eq, H. apply py_max_0_of_nonpos. lra.
Qed.

Lemma co2_zero_of_npp self :
  sinking_rate_m_per_day (strain self) <> 0 ->
  npp_of self = 0 -> co2_of self = 0.
Proof. intros Hs H. rewrite co2_of_eq by exact Hs. rewrite H. lra. Qed.

(** [C4] With a surface temperature strictly below [opt_min] or strictly
    above [opt_max], and a strain whose sinking rate is not zero (the data
    model has it positive), the growth rate, the net primary productivity
    and the CO2 removed are all returned as 0; a metrics record that the
    evaluation returns carries 0 in these three fields. *)
Theorem no_growth_outside_temperature_range (s : AlgaeStrain)
    (e : EnvironmentalConditions) (o : OperationalParameters) self :
  __init__ s e o = Returns self ->
  surface_temperature_celsius e < fst (optimal_temperature_range s)
  \/ surface_temperature_celsius e > snd (optimal_temperature_range s) ->
  sinking_rate_m_per_day s <> 0 ->
  calculate_growth_rate self = Returns (0, self)
  /\ calculate_net_primary_productivity self = Returns (0, self)
  /\ calculate_co2_removed self = Returns (0, self)
  /\ forall m self',
       calculate_viability_metrics self = Returns (m, self') ->
       growth_rate_per_day m = 0
       /\ npp_g_c_per_m2_per_year m = 0
       /\ co2_removed_tonnes_per_year m = 0.
Proof.
  intros Hinit Hout Hs. inversion Hinit; subst self; clear Hinit.
  set (self := {| strain := s |}).
  assert (Hg : growth_of self = 0)
    by (apply growth_zero_of_temperature, temperature_outside, Hout).
  assert (Hn : npp_of self = 0) by (apply npp_zero_of_growth, Hg).
  assert (Hc : co2_of self = 0) by (apply co2_zero_of_npp; assumption).
  assert (G : calculate_growth_rate self = Returns (0, self))
    by (rewrite <- Hg; apply growth_rate_returns).
  assert (N : calculate_net_primary_productivity self = Returns (0, self))
    by (rewrite <- Hn; apply npp_returns).
  assert (C : calculate_co2_removed self = Returns (0, self))
    by (rewrite <- Hc; apply co2_removed_returns; exact Hs).
  repeat split; try assumption;
    destruct (viability_metrics_fields _ _ _ H)
      as (_ & C' & _ & _ & N' & G' & _); congruence.
Qed.

Lemma no_growth_outside_temperature_range_witness :
  let self := model_of basic_strain cold_environment basic_operations in
  calculate_growth_rate self = Returns (0, self)
  /\ calculate_net_primary_productivity self = Returns (0, self)
  /\ calculate_co2_removed self = Returns (0, self)
  /\ forall m self',
       calculate_viability_metrics self = Returns (m, self') ->
       growth_rate_per_day m = 0
       /\ npp_g_c_per_m2_per_year m = 0
       /\ co2_removed_tonnes_per_year m = 0.
Proof.
  apply (no_growth_outside_temperature_range basic_strain cold_environment
           basic_operations).
  - reflexivity.
  - left. simpl. lra.
  - simpl. lra.
Defined.

(** ** Nitrogen as the limiting nutrient *)

(** [C8] With no nitrogen, and phosphorus and iron concentrations that are
    not negative (as the data model has them), the nutrient limitation
    factor is returned as 0 and so is the growth rate, whatever the other
    fields of the strain and of the environment. *)
Theorem no_growth_without_nitrogen (s : AlgaeStrain)
    (e : EnvironmentalConditions) (o : OperationalParameters) self :
  __init__ s e o = Returns self ->
  nutrient_nitrogen_umol_per_l e = 0 ->
  0 <= nutrient_phosphorus_umol_per_l e ->
  0 <= nutrient_iron_nmol_per_l e ->
  _nutrient_limitation_factor self = Returns (0, self)
  /\ calculate_growth_rate self = Returns (0, self).
Proof.
  intros Hinit Hn Hp Hfe. inversion Hinit; subst self; clear Hinit.
  set (self := {| strain := s |}).
  assert (H0 : factor _nutrient_limitation_factor self = 0)
    by (apply nutrient_without_nitrogen; assumption).
  split.
  - rewrite <- H0. apply nutrient_run.
  - rewrite <- (growth_zero_of_nutrient self H0). apply growth_rate_returns.
Qed.

Lemma no_growth_without_nitrogen_witness :
  let self := model_of basic_strain nitrogen_free_environment basic_operations in
  _nutrient_limitation_factor self = Returns (0, self)
  /\ calculate_growth_rate self = Returns (0, self).
Proof.
  apply (no_growth_without_nitrogen basic_strain nitrogen_free_environment
           basic_operations).
  - reflexivity.
  - reflexivity.
  - simpl. lra.
  - simpl. lra.
Defined.

(** ** Light *)

Lemma bell_value_indep (x lo hi : R) self1 self2 :
  value_of (bell x lo hi) self1 0 = value_of (bell x lo hi) self2 0.
Proof.
  destruct (Rlt_dec x lo) as [H1 | H1].
  { rewrite (run_value_of _ _ _ 0 (bell_outside x lo hi self1 (or_introl H1))).
    rewrite (run_value_of _ _ _ 0 (bell_outside x lo hi self2 (or_introl H1))).
    reflexivity. }
  destruct (Rlt_dec hi x) as [H2 | H2].
  { rewrite (run_value_of _ _ _ 0 (bell_outside x lo hi self1 (or_intror H2))).
    rewrite (run_value_of _ _ _ 0 (bell_outside x lo hi self2 (or_intror H2))).
    reflexivity. }
  assert (Hin : lo <= x <= hi) by lra.
  rewrite (run_value_of _ _ _ 0 (bell_inside x lo hi self1 Hin)).
  rewrite (run_value_of _ _ _ 0 (bell_inside x lo hi self2 Hin)).
  reflexivity.
Qed.

Lemma temperature_factor_indep self1 self2 :
  surface_temperature_celsius (environment self1)
  = surface_temperature_celsius (environment self2) ->
  optimal_temperature_range (strain self1)
  = optimal_temperature_range (strain self2) ->
  factor _temperature_response_factor self1
  = factor _temperature_response_factor self2.
Proof.
  intros Ht Hr. unfold factor, value_of.
  rewrite !temperature_is_bell, Ht, Hr. apply bell_value_indep.
Qed.

Lemma salinity_factor_indep self1 self2 :
  salinity_ppt (environment self1) = salinity_ppt (environment self2) ->
  optimal_salinity_range (strain self1)
  = optimal_salinity_range (strain self2) ->
  factor _salinity_response_factor self1
  = factor _salinity_response_factor self2.
Proof.
  intros Ht Hr. unfold factor, value_of.
  rewrite !salinity_is_bell, Ht, Hr. apply bell_value_indep.
Qed.

Lemma nutrient_factor_indep self1 self2 :
  nutrient_nitrogen_umol_per_l (environment self1)
  = nutrient_nitrogen_umol_per_l (environment self2) ->
  nutrient_phosphorus_umol_per_l (environment self1)
  = nutrient_phosphorus_umol_per_l (environment self2) ->
  nutrient_iron_nmol_per_l (environment self1)
  = nutrient_iron_nmol_per_l (environment self2) ->
  factor _nutrient_limitation_factor self1
  = factor _nutrient_limitation_factor self2.
Proof.
  intros Hn Hp Hfe.
  unfold factor, value_of, _nutrient_limitation_factor, bind, get_self, ret.
  rewrite Hn, Hp, Hfe. reflexivity.
Qed.

Lemma light_factor_indep self1 self2 :
  euphotic_depth_m (environment self1) = euphotic_depth_m (environment self2) ->
  factor _light_limitation_factor self1 = factor _light_limitation_factor self2.
Proof.
  intros Hd.
  unfold factor, value_of, _light_limitation_factor, bind, get_self.
  rewrite Hd.
  destruct (Rltb _ _); [reflexivity |]. destruct (Rgtb _ _); reflexivity.
Qed.

Lemma light_factor_monotone self1 self2 :
  euphotic_depth_m (environment self1) <= euphotic_depth_m (environment self2) ->
  factor _light_limitation_factor self1 <= factor _light_limitation_factor self2.
Proof.
  intros Hd.
  unfold factor, value_of, _light_limitation_factor, bind, get_self.
  set (d1 := euphotic_depth_m (environment self1)) in *.
  set (d2 := euphotic_depth_m (environment self2)) in *.
  case_R; unfold ret; lra.
Qed.

Lemma py_max_0_scaling (k l1 l2 : R) :
  0 < l1 -> l1 <= l2 -> py_max 0 (k * l1) <= py_max 0 (k * l2).
Proof.
  intros H1 H2. unfold py_max.
  destruct (Rle_dec 0 k); case_R; nra.
Qed.

(** [C7] Two models that differ in the euphotic depth only, with depths
    [10 <= d1 <= d2 <= 100]: both growth rates are returned, and the one at
    [d2] is at least the one at [d1]. *)
Theorem growth_rate_monotone_in_euphotic_depth (s : AlgaeStrain)
    (e : EnvironmentalConditions) (o : OperationalParameters)
    (d1 d2 : R) self1 self2 :
  10 <= d1 -> d1 <= d2 -> d2 <= 100 ->
  __init__ s (with_euphotic_depth_m e d1) o = Returns self1 ->
  __init__ s (with_euphotic_depth_m e d2) o = Returns self2 ->
  exists g1 g2,
    calculate_growth_rate self1 = Returns (g1, self1)
    /\ calculate_growth_rate self2 = Returns (g2, self2)
    /\ g1 <= g2.
Proof.
  intros Hlo Hle Hhi H1 H2.
  inversion H1; subst self1; clear H1. inversion H2; subst self2; clear H2.
  set (self1 := {| environment := with_euphotic_depth_m e d1 |}).
  set (self2 := {| environment := with_euphotic_depth_m e d2 |}).
  exists (growth_of self1), (growth_of self2).
  split; [apply growth_rate_returns |]. split; [apply growth_rate_returns |].
  rewrite !growth_of_eq.
  rewrite (temperature_factor_indep self1 self2) by reflexivity.
  rewrite (nutrient_factor_indep self1 self2) by reflexivity.
  rewrite (salinity_factor_indep self1 self2) by reflexivity.
  pose proof (light_factor_monotone self1 self2 Hle) as Hmono.
  pose proof (light_positive self1) as Hpos.
  simpl strain.
  set (b := np_truediv _ _). set (T := factor _temperature_response_factor _).
  set (N := factor _nutrient_limitation_factor _).
  set (S := factor _salinity_response_factor _).
  set (L1 := factor _light_limitation_factor self1) in *.
  set (L2 := factor _light_limitation_factor self2) in *.
  replace (b * T * L1 * N * S) with (b * T * N * S * L1) by ring.
  replace (b * T * L2 * N * S) with (b * T * N * S * L2) by ring.
  apply py_max_0_scaling; lra.
Qed.

Lemma growth_rate_monotone_in_euphotic_depth_witness :
  exists g1 g2,
    calculate_growth_rate
      (model_of basic_strain (with_euphotic_depth_m basic_environment 10)
         basic_operations)
    = Returns (g1, model_of basic_strain
                     (with_euphotic_depth_m basic_environment 10)
                     basic_operations)
    /\ calculate_growth_rate
         (model_of basic_strain (with_euphotic_depth_m basic_environment 100)
            basic_operations)
       = Returns (g2, model_of basic_strain
                        (with_euphotic_depth_m basic_environment 100)
                        basic_operations)
    /\ g1 <= g2.
Proof.
  apply (growth_rate_monotone_in_euphotic_depth basic_strain basic_environment
           basic_operations 10 100); try lra; reflexivity.
Defined.

(** ** Area *)

Lemma growth_of_indep_operations s e o1 o2 :
  growth_of (model_of s e o1) = growth_of (model_of s e o2).
Proof.
  rewrite !growth_of_eq.
  rewrite (temperature_factor_indep (model_of s e o1) (model_of s e o2))
    by reflexivity.
  rewrite (light_factor_indep (model_of s e o1) (model_of s e o2))
    by reflexivity.
  rewrite (nutrient_factor_indep (model_of s e o1) (model_of s e o2))
    by reflexivity.
  rewrite (salinity_factor_indep (model_of s e o1) (model_of s e o2))
    by reflexivity.
  reflexivity.
Qed.

Lemma npp_of_indep_operations s e o1 o2 :
  npp_of (model_of s e o1) = npp_of (model_of s e o2).
Proof.
  rewrite !npp_of_eq, (growth_of_indep_operations s e o1 o2). reflexivity.
Qed.





(** ** Cost per tonne *)

Lemma cost_per_tonne_from_parts self (costs : CostBreakdown) (co2 : R) :
  calculate_operational_costs self = Returns (costs, self) ->
  calculate_co2_removed self = Returns (co2, self) ->
  calculate_cost_per_tonne_co2 self
  = Returns (if Rleb co2 0 then PosInf
             else float_truediv (total costs) co2, self).
Proof.
  intros Hcosts Hco2. unfold calculate_cost_per_tonne_co2.
  rewrite (bind_run _ _ _ _ Hcosts), (bind_run _ _ _ _ Hco2).
  destruct (Rleb co2 0); reflexivity.
Qed.

(** [C5] Once the operational costs and the CO2 removed have been returned,
    the cost per tonne is returned as well.  It is +infinity when the CO2
    removed is 0 or negative.  When the CO2 removed is positive it is the
    quotient of the total cost by the CO2 removed as a float: the finite
    quotient while that is short of the overflow of binary64, and
    +infinity once the quotient reaches it, although the removal is
    positive. *)
Theorem cost_per_tonne_is_infinite_without_removal self
    (costs : CostBreakdown) (co2_removed : R) :
  calculate_operational_costs self = Returns (costs, self) ->
  calculate_co2_removed self = Returns (co2_removed, self) ->
  (co2_removed <= 0 ->
   calculate_cost_per_tonne_co2 self = Returns (PosInf, self))
  /\ (co2_removed = 0 ->
      calculate_cost_per_tonne_co2 self = Returns (PosInf, self))
  /\ (0 < co2_removed ->
      calculate_cost_per_tonne_co2 self
      = Returns (float_truediv (total costs) co2_removed, self))
  /\ (0 < co2_removed ->
      - float_overflow < total costs / co2_removed < float_overflow ->
      calculate_cost_per_tonne_co2 self
      = Returns (Finite (total costs / co2_removed), self))
  /\ (0 < co2_removed ->
      float_overflow <= total costs / co2_removed ->
      calculate_cost_per_tonne_co2 self = Returns (PosInf, self)).
Proof.
  intros Hcosts Hco2.
  rewrite (cost_per_tonne_from_parts _ _ _ Hcosts Hco2).
  assert (Hneg : co2_removed <= 0 -> Rleb co2_removed 0 = true)
    by (intros; apply Rleb_true; assumption).
  assert (Hpos : 0 < co2_removed -> Rleb co2_removed 0 = false)
    by (intros; apply Rleb_false; assumption).
  split; [| split; [| split; [| split]]].
  - intros Hx. rewrite Hneg by exact Hx. reflexivity.
  - intros Hx. rewrite Hneg by lra. reflexivity.
  - intros Hx. rewrite Hpos by exact Hx. reflexivity.
  - intros Hx Hq. rewrite Hpos by exact Hx.
    unfold float_truediv. rewrite overflow_finite by exact Hq. reflexivity.
  - intros Hx Hq. rewrite Hpos by exact Hx.
    unfold float_truediv. rewrite overflow_posinf by exact Hq. reflexivity.
Qed.

Lemma cold_co2 : calculate_co2_removed cold_model = Returns (0, cold_model).
Proof.
  assert (Hs : sinking_rate_m_per_day (strain cold_model) <> 0)
    by (simpl; lra).
  rewrite <- (co2_zero_of_npp cold_model Hs).
  - apply co2_removed_returns, Hs.
  - apply npp_zero_of_growth, growth_zero_of_temperature, temperature_outside.
    left. simpl. lra.
Qed.

Lemma basic_co2 :
  calculate_co2_removed basic_model = Returns (co2_of basic_model, basic_model).
Proof. apply co2_removed_returns. simpl. lra. Qed.

Lemma basic_cost_quotient :
  0 < total (costs_of basic_model) / co2_of basic_model < 50.
Proof.
  rewrite basic_total_cost. pose proof basic_co2_lower as Hco2.
  set (x := co2_of basic_model) in *. split.
  - apply Rdiv_lt_0_compat; lra.
  - apply Rmult_lt_reg_r with x; [lra |].
    unfold Rdiv. rewrite Rmult_assoc, Rinv_l by lra. lra.
Qed.

(** *** A removal that is positive and too small to divide by

    The basic scenario with a sinking rate of 0.14 m/day: over the 1000 m
    to the sequestration depth a fraction [exp (-714.3)] of the export
    survives. *)

Lemma exp_monotone (x y : R) : x <= y -> exp x <= exp y.
Proof.
  intros [H | H]; [left; apply exp_increasing, H | subst; right; reflexivity].
Qed.

Lemma exp_times (n : nat) (x : R) : exp (INR n * x) = exp x ^ n.
Proof.
  induction n as [| n IH].
  - simpl. rewrite Rmult_0_l. apply exp_0.
  - rewrite S_INR, Rmult_plus_distr_r, Rmult_1_l, exp_plus, IH. simpl. ring.
Qed.

(** A power of a ratio of integers is bounded below by integer
    arithmetic. *)
Lemma pow_ratio_lower (a b c d : Z) (n : nat) :
  (0 < b)%Z -> (0 < d)%Z ->
  (c * b ^ Z.of_nat n <= d * a ^ Z.of_nat n)%Z ->
  IZR c / IZR d <= (IZR a / IZR b) ^ n.
Proof.
  intros Hb Hd H. unfold Rdiv. rewrite Rpow_mult_distr, pow_inv, !pow_IZR.
  assert (HB : 0 < IZR (b ^ Z.of_nat n))
    by (apply IZR_lt, Z.pow_pos_nonneg; lia).
  assert (HD : 0 < IZR d) by (apply IZR_lt; exact Hd).
  apply IZR_le in H. rewrite !mult_IZR in H.
  set (A := IZR (a ^ Z.of_nat n)) in *. set (B := IZR (b ^ Z.of_nat n)) in *.
  clearbody A B.
  apply Rmult_le_reg_r with (IZR d * B);
    [apply Rmult_lt_0_compat; assumption |].
  replace (IZR c * / IZR d * (IZR d * B)) with (IZR c * B) by (field; lra).
  replace (A * / B * (IZR d * B)) with (IZR d * A) by (field; lra).
  exact H.
Qed.

Lemma exp_1_lower : 27129 / 10000 <= exp 1.
Proof.
  apply Rle_trans with ((257 / 256) ^ 256).
  - apply pow_ratio_lower; [lia | lia |].
    apply Z.leb_le. vm_compute. reflexivity.
  - replace (exp 1) with (exp (INR 256 * / 256))
      by (f_equal; rewrite INR_IZR_INZ; simpl; lra).
    rewrite exp_times. apply pow_incr.
    pose proof (exp_ineq1_le (/ 256)). lra.
Qed.

Lemma exp_714_lower : 8 * float_overflow <= exp 714.
Proof.
  replace (exp 714) with (exp (INR 714 * 1))
    by (f_equal; rewrite INR_IZR_INZ; simpl; lra).
  rewrite exp_times.
  apply Rle_trans with ((27129 / 10000) ^ 714);
    [| apply pow_incr; split; [lra | apply exp_1_lower]].
  unfold float_overflow. rewrite <- mult_IZR.
  replace (IZR (8 * (2 ^ 1024 - 2 ^ 970)))
    with (IZR (8 * (2 ^ 1024 - 2 ^ 970)) / 1) by lra.
  apply pow_ratio_lower; [lia | lia |].
  apply Z.leb_le. vm_compute. reflexivity.
Qed.

Lemma slow_scenario_valid :
  valid_strain slow_strain
  /\ valid_environment basic_environment
  /\ valid_operations basic_operations.
Proof.
  unfold valid_strain, valid_environment, valid_operations. simpl.
  repeat split; lra.
Qed.

Lemma slow_npp : npp_of slow_model = 10636.08 * ln 2.
Proof.
  rewrite <- basic_npp, !npp_of_eq, !growth_of_eq.
  rewrite (temperature_factor_indep slow_model basic_model) by reflexivity.
  rewrite (light_factor_indep slow_model basic_model) by reflexivity.
  rewrite (nutrient_factor_indep slow_model basic_model) by reflexivity.
  rewrite (salinity_factor_indep slow_model basic_model) by reflexivity.
  reflexivity.
Qed.

Lemma slow_total_cost : total (costs_of slow_model) = 3476250.
Proof.
  assert (Hb : biomass_of slow_model = 0).
  { rewrite biomass_of_eq by (simpl; lra).
    rewrite slow_npp. pose proof ln_lt_2 as Hln.
    destruct (Rgeb (10636.08 * ln 2) 125) eqn:E; [reflexivity |].
    apply Rleb_false in E. lra. }
  simpl. rewrite Hb. lra.
Qed.

Lemma ln_2_upper : ln 2 <= 1.
Proof.
  rewrite <- (ln_exp 1). pose proof exp_1_lower as He.
  destruct (Rle_lt_or_eq_dec 2 (exp 1)) as [Hlt | Heq]; [lra | |].
  - left. apply ln_increasing; lra.
  - rewrite <- Heq. lra.
Qed.

Lemma slow_co2_bounds :
  0 < co2_of slow_model
  /\ float_overflow * co2_of slow_model <= 3476250.
Proof.
  rewrite co2_of_eq by (simpl; lra). rewrite slow_npp. simpl.
  pose proof ln_lt_2 as Hln. pose proof ln_2_upper as Hln1.
  pose proof float_overflow_large as HM. pose proof exp_714_lower as H714.
  set (X := exp (- (0.1) * (1000 / 0.14))).
  assert (HX0 : 0 < X) by apply exp_pos.
  assert (HX : X <= / exp 714).
  { rewrite <- exp_Ropp. apply exp_monotone. lra. }
  set (L := ln 2) in *. set (M := float_overflow) in *.
  set (E := exp 714) in *.
  assert (HE : 0 < E) by lra.
  assert (HME : M * / E <= / 8).
  { apply Rmult_le_reg_r with E; [exact HE |].
    rewrite Rmult_assoc, Rinv_l by lra. lra. }
  assert (HLX : 0 < L * X) by (apply Rmult_lt_0_compat; lra).
  assert (HMX : M * X <= / 8).
  { apply Rle_trans with (M * / E); [| exact HME].
    apply Rmult_le_compat_l; lra. }
  assert (HMX0 : 0 <= M * X) by (apply Rmult_le_pos; lra).
  assert (HMLX : M * X * L <= / 8 * 1).
  { apply Rmult_le_compat; lra. }
  split; [lra | lra].
Qed.

Lemma slow_co2 :
  calculate_co2_removed slow_model = Returns (co2_of slow_model, slow_model).
Proof. apply co2_removed_returns. simpl. lra. Qed.

Lemma slow_cost_quotient :
  float_overflow <= total (costs_of slow_model) / co2_of slow_model.
Proof.
  rewrite slow_total_cost. destruct slow_co2_bounds as [Hpos Hle].
  apply Rmult_le_reg_r with (co2_of slow_model); [exact Hpos |].
  unfold Rdiv. rewrite Rmult_assoc, Rinv_l by lra. lra.
Qed.

(** [C5] A positive removal does not make the cost per tonne finite.  The
    basic scenario with a sinking rate of 0.14 m/day is a valid input; its
    CO2 removed is returned and is positive, and its cost per tonne is
    +infinity: the quotient overflows.  The floats of that run are a total
    cost of 3476250 and a CO2 removed of 6.667897194496595e-304, whose
    binary64 quotient is [infinity]. *)
Lemma positive_removal_at_infinite_cost :
  valid_strain slow_strain
  /\ valid_environment basic_environment
  /\ valid_operations basic_operations
  /\ calculate_co2_removed slow_model = Returns (co2_of slow_model, slow_model)
  /\ 0 < co2_of slow_model
  /\ calculate_cost_per_tonne_co2 slow_model = Returns (PosInf, slow_model)
  /\ (0 <? 6.667897194496595e-304)%float = true
  /\ binary64_cost_per_tonne_co2 3476250 6.667897194496595e-304 = infinity.
Proof.
  destruct slow_scenario_valid as (Vs & Ve & Vo).
  split; [exact Vs |]. split; [exact Ve |]. split; [exact Vo |].
  split; [exact slow_co2 |].
  split; [exact (proj1 slow_co2_bounds) |].
  split; [| split; reflexivity].
  assert (Hc : carbon_content_percent slow_strain <> 0) by (simpl; lra).
  rewrite (cost_per_tonne_from_parts _ _ _
             (operational_costs_returns slow_model Hc) slow_co2).
  destruct (Rleb (co2_of slow_model) 0) eqn:E; [reflexivity |].
  unfold float_truediv. rewrite overflow_posinf; [reflexivity |].
  exact slow_cost_quotient.
Qed.

Lemma cost_per_tonne_is_infinite_without_removal_witness :
  calculate_cost_per_tonne_co2 cold_model = Returns (PosInf, cold_model)
  /\ calculate_cost_per_tonne_co2 basic_model
     = Returns (Finite (total (costs_of basic_model) / co2_of basic_model),
                basic_model)
  /\ calculate_cost_per_tonne_co2 slow_model = Returns (PosInf, slow_model).
Proof.
  assert (Hc : carbon_content_percent basic_strain <> 0) by (simpl; lra).
  assert (Hc' : carbon_content_percent slow_strain <> 0) by (simpl; lra).
  assert (Hpos : 0 < co2_of basic_model)
    by (pose proof basic_co2_lower; lra).
  assert (Hq : - float_overflow
               < total (costs_of basic_model) / co2_of basic_model
               < float_overflow)
    by (pose proof basic_cost_quotient; pose proof float_overflow_large; lra).
  split; [| split].
  - exact (proj1 (cost_per_tonne_is_infinite_without_removal cold_model
                    (costs_of cold_model) 0
                    (operational_costs_returns cold_model Hc)
                    cold_co2) (Rle_refl 0)).
  - exact (proj1 (proj2 (proj2 (proj2
             (cost_per_tonne_is_infinite_without_removal basic_model
                (costs_of basic_model) (co2_of basic_model)
                (operational_costs_returns basic_model Hc)
                basic_co2)))) Hpos Hq).
  - exact (proj2 (proj2 (proj2 (proj2
             (cost_per_tonne_is_infinite_without_removal slow_model
                (costs_of slow_model) (co2_of slow_model)
                (operational_costs_returns slow_model Hc')
                slow_co2)))) (proj1 slow_co2_bounds) slow_cost_quotient).
Defined.

(** ** Inputs that are not positive *)

Lemma negative_growth : growth_of negative_model = 0.
Proof.
  rewrite growth_of_eq.
  rewrite (temperature_factor_indep negative_model basic_model) by reflexivity.
  rewrite (nutrient_factor_indep negative_model basic_model) by reflexivity.
  rewrite (salinity_factor_indep negative_model basic_model) by reflexivity.
  rewrite basic_temperature, basic_nutrient, basic_salinity.
  pose proof (light_positive negative_model) as HL.
  pose proof ln_lt_2 as Hln.
  apply py_max_0_of_nonpos. unfold np_truediv. simpl.
  set (L := factor _light_limitation_factor negative_model) in *.
  assert (0 <= ln 2 * L) by (apply Rmult_le_pos; lra).
  nra.
Qed.

Lemma negative_npp : npp_of negative_model = 0.
Proof. apply npp_zero_of_growth, negative_growth. Qed.

Lemma negative_co2 : co2_of negative_model = 0.
Proof. apply co2_zero_of_npp; [simpl; lra | apply negative_npp]. Qed.

Lemma negative_biomass : biomass_of negative_model < 0.
Proof.
  rewrite biomass_of_eq by (simpl; lra). rewrite negative_npp.
  destruct (Rgeb 0 125) eqn:E; [apply Rleb_true in E; lra |].
  simpl. lra.
Qed.

(** [C2] Negative values in all five fields are not turned away: the
    constructor returns a model and the evaluation returns a metrics record
    with computed numbers in it, among them a negative biomass. *)
Lemma nonpositive_inputs_are_not_rejected :
  doubling_time_hours negative_strain <= 0
  /\ sinking_rate_m_per_day negative_strain <= 0
  /\ euphotic_depth_m negative_environment <= 0
  /\ mixing_depth_m negative_environment <= 0
  /\ area_km2 negative_operations <= 0
  /\ exists self m,
       __init__ negative_strain negative_environment negative_operations
       = Returns self
       /\ calculate_viability_metrics self = Returns (m, self)
       /\ growth_rate_per_day m = 0
       /\ co2_removed_tonnes_per_year m = 0
       /\ biomass_required_kg_per_year m < 0
       /\ cost_per_tonne_co2 m = PosInf
       /\ viability_score m = Finite 0.
Proof.
  repeat (split; [simpl; lra |]).
  exists negative_model, (metrics_of negative_model).
  split; [reflexivity |].
  split; [apply viability_metrics_returns; simpl; lra |].
  assert (Hcost : cost_per_tonne_of negative_model = PosInf).
  { unfold cost_per_tonne_of. rewrite negative_co2.
    destruct (Rleb 0 0) eqn:E; [reflexivity |].
    apply Rleb_false in E. lra. }
  simpl. rewrite Hcost, negative_co2.
  split; [apply negative_growth |]. split; [reflexivity |].
  split; [apply negative_biomass |]. split; [reflexivity |].
  unfold score_of. apply run_value_of, viability_score_nonviable.
  right. lra.
Qed.

(** [C2] Nothing is validated.  The constructor returns a model
    holding the three records as given, whatever their values.  The
    evaluation returns a metrics record whenever the sinking rate and the
    carbon content are not zero, so also for negative values of
    [doubling_time_hours], [sinking_rate_m_per_day], [euphotic_depth_m],
    [mixing_depth_m] and [area_km2].  It raises [ZeroDivisionError], the
    error of the division itself, with a sinking rate of exactly 0, and
    with a carbon content of exactly 0 when the sinking rate is not 0 and
    the NPP is 0. *)
Theorem evaluation_without_validation (s : AlgaeStrain)
    (e : EnvironmentalConditions) (o : OperationalParameters) :
  exists self,
    __init__ s e o = Returns self
    /\ strain self = s /\ environment self = e /\ operations self = o
    /\ (sinking_rate_m_per_day s <> 0 -> carbon_content_percent s <> 0 ->
        exists m, calculate_viability_metrics self = Returns (m, self))
    /\ (sinking_rate_m_per_day s = 0 ->
        calculate_viability_metrics self = Raises ZeroDivisionError)
    /\ (sinking_rate_m_per_day s <> 0 -> carbon_content_percent s = 0 ->
        calculate_net_primary_productivity self = Returns (0, self) ->
        calculate_viability_metrics self = Raises ZeroDivisionError).
Proof.
  exists (model_of s e o). repeat split.
  - intros Hs Hc. exists (metrics_of (model_of s e o)).
    apply viability_metrics_returns; assumption.
  - intros Hs. apply viability_metrics_raises, Hs.
  - intros Hs Hc Hn.
    apply viability_metrics_raises_without_carbon; try assumption.
    unfold npp_of. rewrite (run_value_of _ _ _ 0 Hn). lra.
Qed.

Lemma cold_npp_without_carbon :
  calculate_net_primary_productivity
    (model_of carbon_free_strain cold_environment basic_operations)
  = Returns (0, model_of carbon_free_strain cold_environment basic_operations).
Proof.
  rewrite <- (npp_zero_of_growth
                (model_of carbon_free_strain cold_environment
                   basic_operations)).
  - apply npp_returns.
  - apply growth_zero_of_temperature, temperature_outside.
    left. simpl. lra.
Qed.

Lemma evaluation_without_validation_witness :
  (exists self,
      __init__ negative_strain negative_environment negative_operations
      = Returns self
      /\ exists m, calculate_viability_metrics self = Returns (m, self))
  /\ (exists self,
         __init__ still_strain basic_environment basic_operations
         = Returns self
         /\ calculate_viability_metrics self = Raises ZeroDivisionError)
  /\ (exists self,
         __init__ carbon_free_strain cold_environment basic_operations
         = Returns self
         /\ calculate_viability_metrics self = Raises ZeroDivisionError).
Proof.
  split; [| split].
  - destruct (evaluation_without_validation negative_strain
                negative_environment negative_operations)
      as (self & Hinit & _ & _ & _ & Hret & _).
    exists self. split; [exact Hinit |].
    apply Hret; simpl; lra.
  - destruct (evaluation_without_validation still_strain
                basic_environment basic_operations)
      as (self & Hinit & _ & _ & _ & _ & Hraise & _).
    exists self. split; [exact Hinit |].
    apply Hraise. reflexivity.
  - destruct (evaluation_without_validation carbon_free_strain
                cold_environment basic_operations)
      as (self & Hinit & _ & _ & _ & _ & _ & Hraise).
    exists self. split; [exact Hinit |].
    inversion Hinit; subst self.
    apply Hraise; [simpl; lra | reflexivity | exact cold_npp_without_carbon].
Defined.

(** * Further properties of the model *)

(** ** The response factors *)

Lemma bell_zero_or_high (x lo hi : R) self :
  exists v, bell x lo hi self = Returns (v, self)
            /\ (v = 0 \/ 0.75 <= v <= 1).
Proof.
  destruct (Rlt_dec x lo) as [H1 | H1];
    [exists 0; split; [apply bell_outside; lra | left; reflexivity] |].
  destruct (Rlt_dec hi x) as [H2 | H2];
    [exists 0; split; [apply bell_outside; lra | left; reflexivity] |].
  destruct (Rlt_dec lo hi) as [H3 | H3].
  - destruct (bell_inside_bounds x lo hi self H3 ltac:(lra)) as (v & Hv & Hb).
    exists v. split; [exact Hv | right; exact Hb].
  - exists 1. split; [| right; lra].
    rewrite bell_inside by lra.
    destruct (Reqb x ((lo + hi) / 2)) eqn:E; [reflexivity |].
    apply Reqb_false in E. exfalso. apply E. lra.
Qed.

(** [X1] Whatever the optimal ranges (ordered, degenerate or inverted) and
    whatever the temperature and the salinity, both response methods
    return: the division by the width of the range is never a division by
    zero.  The factor returned lies between 0 and 1. *)
Theorem response_factors_never_raise self :
  (exists v, _temperature_response_factor self = Returns (v, self)
             /\ 0 <= v <= 1)
  /\ (exists v, _salinity_response_factor self = Returns (v, self)
                /\ 0 <= v <= 1).
Proof.
  split.
  - rewrite temperature_is_bell.
    destruct (bell_zero_or_high (surface_temperature_celsius (environment self))
                (fst (optimal_temperature_range (strain self)))
                (snd (optimal_temperature_range (strain self))) self)
      as (v & Hv & Hb).
    exists v. split; [exact Hv | lra].
  - rewrite salinity_is_bell.
    destruct (bell_zero_or_high (salinity_ppt (environment self))
                (fst (optimal_salinity_range (strain self)))
                (snd (optimal_salinity_range (strain self))) self)
      as (v & Hv & Hb).
    exists v. split; [exact Hv | lra].
Qed.

(** [X3] The light limitation factor is returned for every euphotic depth
    and lies between 0.1 and 1; it is at its floor 0.1 exactly for depths
    of at most 10 m and at its ceiling 1 exactly for depths of at least
    100 m, so the interpolation meets both ends without a jump. *)
Theorem light_factor_floor_and_ceiling self :
  exists v,
    _light_limitation_factor self = Returns (v, self)
    /\ 0.1 <= v <= 1
    /\ (v = 0.1 <-> euphotic_depth_m (environment self) <= 10)
    /\ (v = 1 <-> 100 <= euphotic_depth_m (environment self)).
Proof.
  unfold _light_limitation_factor, bind, get_self.
  set (d := euphotic_depth_m (environment self)).
  destruct (Rltb d 10) eqn:E1.
  { apply Rltb_true in E1. eexists. split; [reflexivity |].
    repeat split; intros; lra. }
  apply Rltb_false in E1.
  destruct (Rgtb d 100) eqn:E2.
  { apply Rltb_true in E2. eexists. split; [reflexivity |].
    repeat split; intros; lra. }
  apply Rltb_false in E2.
  eexists. split; [reflexivity |]. repeat split; intros; lra.
Qed.

Lemma nutrient_value self :
  factor _nutrient_limitation_factor self
  = Rmin (Rmin (Rmin 1 (nutrient_nitrogen_umol_per_l (environment self) / 5))
               (Rmin 1 (nutrient_phosphorus_umol_per_l (environment self) / 0.3)))
         (Rmin 1 (nutrient_iron_nmol_per_l (environment self) / 0.06)).
Proof.
  unfold factor, value_of, _nutrient_limitation_factor, bind, get_self, ret,
    py_min3.
  rewrite !py_min_Rmin. reflexivity.
Qed.

(** [X4] The nutrient limitation factor is returned for every environment
    and never exceeds 1.  It is 1 exactly when nitrogen, phosphorus and
    iron all reach their reference concentrations (5, 0.3 and 0.06), it is
    strictly positive exactly when all three concentrations are, and it is
    not negative when none of them is. *)
Theorem nutrient_factor_saturation self :
  exists v,
    _nutrient_limitation_factor self = Returns (v, self)
    /\ v <= 1
    /\ (v = 1 <->
        5 <= nutrient_nitrogen_umol_per_l (environment self)
        /\ 0.3 <= nutrient_phosphorus_umol_per_l (environment self)
        /\ 0.06 <= nutrient_iron_nmol_per_l (environment self))
    /\ (0 < v <->
        0 < nutrient_nitrogen_umol_per_l (environment self)
        /\ 0 < nutrient_phosphorus_umol_per_l (environment self)
        /\ 0 < nutrient_iron_nmol_per_l (environment self))
    /\ (0 <= nutrient_nitrogen_umol_per_l (environment self) ->
        0 <= nutrient_phosphorus_umol_per_l (environment self) ->
        0 <= nutrient_iron_nmol_per_l (environment self) -> 0 <= v).
Proof.
  exists (factor _nutrient_limitation_factor self).
  split; [apply nutrient_run |]. rewrite nutrient_value.
  set (n := nutrient_nitrogen_umol_per_l (environment self)).
  set (p := nutrient_phosphorus_umol_per_l (environment self)).
  set (fe := nutrient_iron_nmol_per_l (environment self)).
  unfold Rmin.
  repeat match goal with
         | |- context [Rle_dec ?a ?b] =>
             no_comparison a; no_comparison b; destruct (Rle_dec a b)
         end;
    repeat split; intros; try lra.
Qed.

(** ** The growth rate *)

Lemma bell_value_bounds (x lo hi : R) self :
  0 <= value_of (bell x lo hi) self 0 <= 1.
Proof.
  destruct (bell_zero_or_high x lo hi self) as (v & Hv & Hb).
  rewrite (run_value_of _ _ _ 0 Hv). lra.
Qed.

Lemma bell_value_positive (x lo hi : R) self :
  0 < value_of (bell x lo hi) self 0 <-> lo <= x <= hi.
Proof.
  split.
  - intros H.
    destruct (Rlt_dec x lo) as [H1 | H1].
    { rewrite (run_value_of _ _ _ 0
                 (bell_outside x lo hi self (or_introl H1))) in H. lra. }
    destruct (Rlt_dec hi x) as [H2 | H2].
    { rewrite (run_value_of _ _ _ 0
                 (bell_outside x lo hi self (or_intror H2))) in H. lra. }
    lra.
  - intros Hin.
    destruct (bell_zero_or_high x lo hi self) as (v & Hv & Hb).
    rewrite (run_value_of _ _ _ 0 Hv).
    destruct Hb as [Hz | Hb]; [| lra]. subst v.
    rewrite (bell_inside _ _ _ _ Hin) in Hv.
    destruct (Reqb x ((lo + hi) / 2)) eqn:E; inversion Hv as [Hq]; [lra |].
    destruct (Rlt_dec lo hi) as [H3 | H3].
    + destruct (bell_inside_bounds x lo hi self H3 Hin) as (w & Hw & Hwb).
      rewrite (bell_inside _ _ _ _ Hin), E in Hw. inversion Hw. lra.
    + apply Reqb_false in E. exfalso. apply E. lra.
Qed.

Lemma temperature_factor_bounds self :
  0 <= factor _temperature_response_factor self <= 1.
Proof.
  unfold factor, value_of. rewrite temperature_is_bell.
  apply bell_value_bounds.
Qed.

Lemma salinity_factor_bounds self :
  0 <= factor _salinity_response_factor self <= 1.
Proof.
  unfold factor, value_of. rewrite salinity_is_bell. apply bell_value_bounds.
Qed.

Lemma temperature_factor_positive self :
  0 < factor _temperature_response_factor self <->
  fst (optimal_temperature_range (strain self))
  <= surface_temperature_celsius (environment self)
  <= snd (optimal_temperature_range (strain self)).
Proof.
  unfold factor, value_of. rewrite temperature_is_bell.
  apply bell_value_positive.
Qed.

Lemma salinity_factor_positive self :
  0 < factor _salinity_response_factor self <->
  fst (optimal_salinity_range (strain self))
  <= salinity_ppt (environment self)
  <= snd (optimal_salinity_range (strain self)).
Proof.
  unfold factor, value_of. rewrite salinity_is_bell.
  apply bell_value_positive.
Qed.

Lemma nutrient_factor_upper self :
  factor _nutrient_limitation_factor self <= 1.
Proof.
  rewrite nutrient_value.
  eapply Rle_trans; [apply Rmin_l |].
  eapply Rle_trans; [apply Rmin_l |]. apply Rmin_l.
Qed.

Lemma nutrient_factor_positive self :
  0 < factor _nutrient_limitation_factor self <->
  0 < nutrient_nitrogen_umol_per_l (environment self)
  /\ 0 < nutrient_phosphorus_umol_per_l (environment self)
  /\ 0 < nutrient_iron_nmol_per_l (environment self).
Proof.
  rewrite nutrient_value.
  set (n := nutrient_nitrogen_umol_per_l (environment self)).
  set (p := nutrient_phosphorus_umol_per_l (environment self)).
  set (fe := nutrient_iron_nmol_per_l (environment self)).
  unfold Rmin.
  repeat match goal with
         | |- context [Rle_dec ?a ?b] =>
             no_comparison a; no_comparison b; destruct (Rle_dec a b)
         end;
    repeat split; intros; try lra.
Qed.

Lemma base_rate_positive (dt : R) :
  0 < dt -> 0 < np_truediv (ln 2) (dt / 24).
Proof.
  intros Hdt. unfold np_truediv. pose proof ln_lt_2 as Hln.
  apply Rdiv_lt_0_compat; lra.
Qed.

(** [X5] The growth rate and the net primary productivity are returned for
    every model, whatever its fields, and neither is ever negative.  With
    a positive doubling time the growth rate does not exceed the base rate
    ln 2 / (doubling time in days): the four factors can only lower it. *)
Theorem growth_rate_between_zero_and_base_rate self :
  exists g npp,
    calculate_growth_rate self = Returns (g, self)
    /\ calculate_net_primary_productivity self = Returns (npp, self)
    /\ 0 <= g
    /\ 0 <= npp
    /\ (0 < doubling_time_hours (strain self) ->
        g <= ln 2 / (doubling_time_hours (strain self) / 24)).
Proof.
  exists (growth_of self), (npp_of self).
  split; [apply growth_rate_returns |]. split; [apply npp_returns |].
  split; [rewrite growth_of_eq; apply py_max_lower |].
  split; [rewrite npp_of_eq; apply py_max_lower |].
  intros Hdt. rewrite growth_of_eq.
  pose proof (base_rate_positive _ Hdt) as Hb.
  pose proof (temperature_factor_bounds self) as HT.
  pose proof (salinity_factor_bounds self) as HS.
  pose proof (light_positive self) as HL.
  pose proof (nutrient_factor_upper self) as HN.
  change (ln 2 / (doubling_time_hours (strain self) / 24))
    with (np_truediv (ln 2) (doubling_time_hours (strain self) / 24)).
  set (b := np_truediv _ _) in *.
  set (T := factor _temperature_response_factor self) in *.
  set (L := factor _light_limitation_factor self) in *.
  set (N := factor _nutrient_limitation_factor self) in *.
  set (S := factor _salinity_response_factor self) in *.
  assert (HTL : 0 <= T * L <= 1) by nra.
  assert (HTLS : 0 <= T * L * S <= 1) by nra.
  assert (Hprod : b * T * L * N * S <= b).
  { replace (b * T * L * N * S) with (b * (T * L * S * N)) by ring.
    destruct (Rle_dec N 0) as [Hn | Hn].
    - assert (T * L * S * N <= 0) by nra. nra.
    - assert (T * L * S * N <= 1) by nra. nra. }
  unfold py_max. case_R; lra.
Qed.

(** [X6] With a positive doubling time, the growth rate is strictly
    positive exactly when the surface temperature lies in the optimal
    temperature range (ends included), the salinity lies in the optimal
    salinity range (ends included), and nitrogen, phosphorus and iron are
    all present; in every other case it is 0. *)
Theorem growth_rate_positive_iff self :
  0 < doubling_time_hours (strain self) ->
  exists g,
    calculate_growth_rate self = Returns (g, self)
    /\ (0 < g <->
        (fst (optimal_temperature_range (strain self))
         <= surface_temperature_celsius (environment self)
         <= snd (optimal_temperature_range (strain self)))
        /\ (fst (optimal_salinity_range (strain self))
            <= salinity_ppt (environment self)
            <= snd (optimal_salinity_range (strain self)))
        /\ 0 < nutrient_nitrogen_umol_per_l (environment self)
        /\ 0 < nutrient_phosphorus_umol_per_l (environment self)
        /\ 0 < nutrient_iron_nmol_per_l (environment self))
    /\ (g = 0 \/ 0 < g).
Proof.
  intros Hdt. exists (growth_of self).
  split; [apply growth_rate_returns |].
  rewrite <- temperature_factor_positive,
    <- salinity_factor_positive, <- nutrient_factor_positive.
  rewrite growth_of_eq.
  pose proof (base_rate_positive _ Hdt) as Hb.
  pose proof (temperature_factor_bounds self) as HT.
  pose proof (salinity_factor_bounds self) as HS.
  pose proof (light_positive self) as HL.
  set (b := np_truediv _ _) in *.
  set (T := factor _temperature_response_factor self) in *.
  set (L := factor _light_limitation_factor self) in *.
  set (N := factor _nutrient_limitation_factor self) in *.
  set (S := factor _salinity_response_factor self) in *.
  assert (HbTL : 0 <= b * T * L) by (apply Rmult_le_pos; nra).
  split.
  - split.
    + intros Hpos.
      assert (Hp : 0 < b * T * L * N * S).
      { unfold py_max in Hpos. revert Hpos. case_R; lra. }
      assert (HT0 : 0 < T).
      { destruct (Rle_dec T 0); [| lra].
        replace T with 0 in Hp by lra. lra. }
      assert (HS0 : 0 < S).
      { destruct (Rle_dec S 0); [| lra].
        replace S with 0 in Hp by lra. lra. }
      assert (HN0 : 0 < N).
      { destruct (Rle_dec N 0); [| lra].
        assert (b * T * L * N <= 0) by nra. nra. }
      tauto.
    + intros (HT0 & HS0 & HN0).
      assert (Hp : 0 < b * T * L * N * S).
      { apply Rmult_lt_0_compat; [| lra].
        apply Rmult_lt_0_compat; [| lra].
        apply Rmult_lt_0_compat; [| lra].
        apply Rmult_lt_0_compat; lra. }
      rewrite py_max_0_of_pos by exact Hp. exact Hp.
  - pose proof (py_max_lower 0 (b * T * L * N * S)). lra.
Qed.

Lemma growth_rate_positive_iff_witness :
  exists g,
    calculate_growth_rate basic_model = Returns (g, basic_model)
    /\ (0 < g <->
        (fst (optimal_temperature_range (strain basic_model))
         <= surface_temperature_celsius (environment basic_model)
         <= snd (optimal_temperature_range (strain basic_model)))
        /\ (fst (optimal_salinity_range (strain basic_model))
            <= salinity_ppt (environment basic_model)
            <= snd (optimal_salinity_range (strain basic_model)))
        /\ 0 < nutrient_nitrogen_umol_per_l (environment basic_model)
        /\ 0 < nutrient_phosphorus_umol_per_l (environment basic_model)
        /\ 0 < nutrient_iron_nmol_per_l (environment basic_model))
    /\ (g = 0 \/ 0 < g).
Proof.
  apply (growth_rate_positive_iff basic_model). simpl. lra.
Defined.

Lemma growth_of_scaled_doubling_time s e o (k : R) :
  0 < k -> doubling_time_hours s <> 0 ->
  growth_of (model_of (with_doubling_time_hours s (k * doubling_time_hours s))
               e o)
  = growth_of (model_of s e o) / k.
Proof.
  intros Hk Hdt. rewrite !growth_of_eq.
  set (self1 := model_of (with_doubling_time_hours s _) e o).
  set (self2 := model_of s e o).
  rewrite (temperature_factor_indep self1 self2) by reflexivity.
  rewrite (light_factor_indep self1 self2) by reflexivity.
  rewrite (nutrient_factor_indep self1 self2) by reflexivity.
  rewrite (salinity_factor_indep self1 self2) by reflexivity.
  simpl. unfold np_truediv.
  set (T := factor _temperature_response_factor self2).
  set (L := factor _light_limitation_factor self2).
  set (N := factor _nutrient_limitation_factor self2).
  set (S := factor _salinity_response_factor self2).
  set (dt := doubling_time_hours s) in *.
  replace (ln 2 / (k * dt / 24) * T * L * N * S)
    with ((ln 2 / (dt / 24) * T * L * N * S) / k) by (field; lra).
  set (x := ln 2 / (dt / 24) * T * L * N * S).
  assert (Hik : 0 < / k) by (apply Rinv_0_lt_compat; exact Hk).
  unfold py_max, Rdiv. case_R; try lra; nra.
Qed.

(** [X7] The growth rate is inversely proportional to the doubling time:
    with every other field fixed, a doubling time [k] times as long
    ([k > 0], doubling time not zero) gives a growth rate [k] times as
    small; so halving the doubling time doubles the growth rate. *)
Theorem growth_rate_inverse_in_doubling_time (s : AlgaeStrain)
    (e : EnvironmentalConditions) (o : OperationalParameters) (k : R)
    self1 self2 :
  0 < k ->
  doubling_time_hours s <> 0 ->
  __init__ s e o = Returns self1 ->
  __init__ (with_doubling_time_hours s (k * doubling_time_hours s)) e o
  = Returns self2 ->
  exists g,
    calculate_growth_rate self1 = Returns (g, self1)
    /\ calculate_growth_rate self2 = Returns (g / k, self2).
Proof.
  intros Hk Hdt H1 H2.
  inversion H1; subst self1; clear H1. inversion H2; subst self2; clear H2.
  fold (model_of s e o).
  fold (model_of (with_doubling_time_hours s (k * doubling_time_hours s)) e o).
  exists (growth_of (model_of s e o)).
  split; [apply growth_rate_returns |].
  rewrite <- (growth_of_scaled_doubling_time s e o k Hk Hdt).
  apply growth_rate_returns.
Qed.

Lemma growth_rate_inverse_in_doubling_time_witness :
  exists g,
    calculate_growth_rate basic_model = Returns (g, basic_model)
    /\ calculate_growth_rate
         (model_of (with_doubling_time_hours basic_strain
                      (2 * doubling_time_hours basic_strain))
            basic_environment basic_operations)
       = Returns (g / 2,
                  model_of (with_doubling_time_hours basic_strain
                              (2 * doubling_time_hours basic_strain))
                    basic_environment basic_operations).
Proof.
  apply (growth_rate_inverse_in_doubling_time basic_strain basic_environment
           basic_operations 2).
  - lra.
  - simpl. lra.
  - reflexivity.
  - reflexivity.
Defined.

Lemma growth_of_indep self1 self2 :
  doubling_time_hours (strain self1) = doubling_time_hours (strain self2) ->
  optimal_temperature_range (strain self1)
  = optimal_temperature_range (strain self2) ->
  optimal_salinity_range (strain self1)
  = optimal_salinity_range (strain self2) ->
  euphotic_depth_m (environment self1) = euphotic_depth_m (environment self2) ->
  surface_temperature_celsius (environment self1)
  = surface_temperature_celsius (environment self2) ->
  salinity_ppt (environment self1) = salinity_ppt (environment self2) ->
  nutrient_nitrogen_umol_per_l (environment self1)
  = nutrient_nitrogen_umol_per_l (environment self2) ->
  nutrient_phosphorus_umol_per_l (environment self1)
  = nutrient_phosphorus_umol_per_l (environment self2) ->
  nutrient_iron_nmol_per_l (environment self1)
  = nutrient_iron_nmol_per_l (environment self2) ->
  growth_of self1 = growth_of self2.
Proof.
  intros Hdt Htr Hsr Hd Ht Hs Hn Hp Hfe. rewrite !growth_of_eq.
  rewrite (temperature_factor_indep self1 self2) by assumption.
  rewrite (light_factor_indep self1 self2) by assumption.
  rewrite (nutrient_factor_indep self1 self2) by assumption.
  rewrite (salinity_factor_indep self1 self2) by assumption.
  rewrite Hdt. reflexivity.
Qed.

Lemma nutrient_factor_monotone self1 self2 :
  nutrient_nitrogen_umol_per_l (environment self1)
  <= nutrient_nitrogen_umol_per_l (environment self2) ->
  nutrient_phosphorus_umol_per_l (environment self1)
  <= nutrient_phosphorus_umol_per_l (environment self2) ->
  nutrient_iron_nmol_per_l (environment self1)
  <= nutrient_iron_nmol_per_l (environment self2) ->
  factor _nutrient_limitation_factor self1
  <= factor _nutrient_limitation_factor self2.
Proof.
  intros Hn Hp Hfe. rewrite !nutrient_value.
  set (n1 := nutrient_nitrogen_umol_per_l (environment self1)) in *.
  set (p1 := nutrient_phosphorus_umol_per_l (environment self1)) in *.
  set (fe1 := nutrient_iron_nmol_per_l (environment self1)) in *.
  set (n2 := nutrient_nitrogen_umol_per_l (environment self2)) in *.
  set (p2 := nutrient_phosphorus_umol_per_l (environment self2)) in *.
  set (fe2 := nutrient_iron_nmol_per_l (environment self2)) in *.
  unfold Rmin.
  repeat match goal with
         | |- context [Rle_dec ?a ?b] =>
             no_comparison a; no_comparison b; destruct (Rle_dec a b)
         end;
    lra.
Qed.

Lemma py_max_0_monotone (x y : R) : x <= y -> py_max 0 x <= py_max 0 y.
Proof. intros H. unfold py_max. case_R; lra. Qed.

(** [X8] With a positive doubling time and every other field fixed, more
    of any nutrient never lowers the growth rate: if nitrogen, phosphorus
    and iron are each at least what they were, so is the growth rate. *)
Theorem growth_rate_monotone_in_nutrients (s : AlgaeStrain)
    (e : EnvironmentalConditions) (o : OperationalParameters)
    (n1 p1 fe1 n2 p2 fe2 : R) self1 self2 :
  0 < doubling_time_hours s ->
  n1 <= n2 -> p1 <= p2 -> fe1 <= fe2 ->
  __init__ s (with_nutrients e n1 p1 fe1) o = Returns self1 ->
  __init__ s (with_nutrients e n2 p2 fe2) o = Returns self2 ->
  exists g1 g2,
    calculate_growth_rate self1 = Returns (g1, self1)
    /\ calculate_growth_rate self2 = Returns (g2, self2)
    /\ g1 <= g2.
Proof.
  intros Hdt Hn Hp Hfe H1 H2.
  inversion H1; subst self1; clear H1. inversion H2; subst self2; clear H2.
  set (self1 := {| environment := with_nutrients e n1 p1 fe1 |}).
  set (self2 := {| environment := with_nutrients e n2 p2 fe2 |}).
  exists (growth_of self1), (growth_of self2).
  split; [apply growth_rate_returns |]. split; [apply growth_rate_returns |].
  rewrite !growth_of_eq.
  rewrite (temperature_factor_indep self1 self2) by reflexivity.
  rewrite (light_factor_indep self1 self2) by reflexivity.
  rewrite (salinity_factor_indep self1 self2) by reflexivity.
  pose proof (nutrient_factor_monotone self1 self2 Hn Hp Hfe) as Hmono.
  pose proof (temperature_factor_bounds self2) as HT.
  pose proof (salinity_factor_bounds self2) as HS.
  pose proof (light_positive self2) as HL.
  pose proof (base_rate_positive _ Hdt) as Hb.
  simpl strain.
  set (b := np_truediv _ _) in *.
  set (T := factor _temperature_response_factor self2) in *.
  set (L := factor _light_limitation_factor self2) in *.
  set (S := factor _salinity_response_factor self2) in *.
  set (N1 := factor _nutrient_limitation_factor self1) in *.
  set (N2 := factor _nutrient_limitation_factor self2) in *.
  apply py_max_0_monotone.
  assert (HbTL : 0 <= b * T * L) by (apply Rmult_le_pos; nra).
  assert (H12 : b * T * L * N1 <= b * T * L * N2) by nra.
  nra.
Qed.

Lemma growth_rate_monotone_in_nutrients_witness :
  exists g1 g2,
    calculate_growth_rate
      (model_of basic_strain (with_nutrients basic_environment 1 0.1 0.03)
         basic_operations)
    = Returns (g1, model_of basic_strain
                     (with_nutrients basic_environment 1 0.1 0.03)
                     basic_operations)
    /\ calculate_growth_rate
         (model_of basic_strain (with_nutrients basic_environment 2 0.2 0.05)
            basic_operations)
       = Returns (g2, model_of basic_strain
                        (with_nutrients basic_environment 2 0.2 0.05)
                        basic_operations)
    /\ g1 <= g2.
Proof.
  apply (growth_rate_monotone_in_nutrients basic_strain basic_environment
           basic_operations 1 0.1 0.03 2 0.2 0.05);
    try reflexivity; simpl; lra.
Defined.

(** ** Export and sequestration *)

(** [X9] The one way for the export of carbon, the total carbon sequestered
    and the CO2 removed to fail is a sinking rate of exactly 0: each of the
    three raises [ZeroDivisionError] if and only if the sinking rate is 0,
    and returns a value, leaving the model as it was, otherwise. *)
Theorem sequestration_raises_iff_no_sinking self :
  (calculate_carbon_export self = Raises ZeroDivisionError
   <-> sinking_rate_m_per_day (strain self) = 0)
  /\ (calculate_total_carbon_sequestered self = Raises ZeroDivisionError
      <-> sinking_rate_m_per_day (strain self) = 0)
  /\ (calculate_co2_removed self = Raises ZeroDivisionError
      <-> sinking_rate_m_per_day (strain self) = 0)
  /\ (sinking_rate_m_per_day (strain self) <> 0 ->
      exists export carbon co2,
        calculate_carbon_export self = Returns (export, self)
        /\ calculate_total_carbon_sequestered self = Returns (carbon, self)
        /\ calculate_co2_removed self = Returns (co2, self)).
Proof.
  destruct (Req_dec_T (sinking_rate_m_per_day (strain self)) 0) as [Hz | Hnz].
  - pose proof (carbon_export_raises self Hz) as He.
    pose proof (co2_removed_raises self Hz) as Hc.
    assert (Ht : calculate_total_carbon_sequestered self
                 = Raises ZeroDivisionError).
    { unfold calculate_total_carbon_sequestered. apply bind_raises, He. }
    repeat split; intros; try assumption; contradiction.
  - pose proof (carbon_export_run self Hnz) as He.
    pose proof (total_carbon_run self Hnz) as Ht.
    pose proof (co2_removed_run self Hnz) as Hc.
    repeat split; intros; try contradiction.
    + rewrite He in H. discriminate.
    + rewrite Ht in H. discriminate.
    + rewrite Hc in H. discriminate.
    + do 3 eexists. split; [exact He |]. split; [exact Ht | exact Hc].
Qed.

(** [X10] Sinking only loses carbon.  For a positive sinking rate, a
    sequestration depth that is not negative and an export fraction
    between 0 and 1, the carbon exported below the sequestration depth is
    not negative and does not exceed the export fraction of the net primary
    productivity, hence not the net primary productivity itself. *)
Theorem carbon_export_at_most_npp self :
  0 < sinking_rate_m_per_day (strain self) ->
  0 <= sequestration_depth_m (environment self) ->
  0 <= export_fraction (strain self) <= 1 ->
  exists npp export,
    calculate_net_primary_productivity self = Returns (npp, self)
    /\ calculate_carbon_export self = Returns (export, self)
    /\ 0 <= export
    /\ export <= npp * export_fraction (strain self)
    /\ export <= npp.
Proof.
  intros Hs Hd Hef.
  exists (npp_of self). eexists.
  split; [apply npp_returns |].
  split; [apply carbon_export_run; lra |].
  assert (Hn : 0 <= npp_of self)
    by (rewrite npp_of_eq; apply py_max_lower).
  set (t := sequestration_depth_m (environment self)
            / sinking_rate_m_per_day (strain self)).
  assert (Ht : 0 <= t).
  { unfold t. apply Rmult_le_pos; [exact Hd |].
    left. apply Rinv_0_lt_compat, Hs. }
  assert (Hsurv : 0 < exp (- (0.1) * t) <= 1).
  { split; [apply exp_pos |]. rewrite <- exp_0. apply exp_monotone. lra. }
  set (E := exp (- (0.1) * t)) in *.
  set (n := npp_of self) in *. set (f := export_fraction (strain self)) in *.
  assert (0 <= n * f <= n) by nra.
  repeat split; nra.
Qed.

Lemma carbon_export_at_most_npp_witness :
  exists npp export,
    calculate_net_primary_productivity basic_model = Returns (npp, basic_model)
    /\ calculate_carbon_export basic_model = Returns (export, basic_model)
    /\ 0 <= export
    /\ export <= npp * export_fraction (strain basic_model)
    /\ export <= npp.
Proof.
  apply (carbon_export_at_most_npp basic_model); simpl; lra.
Defined.

Lemma npp_of_indep self1 self2 :
  growth_of self1 = growth_of self2 ->
  mixing_depth_m (environment self1) = mixing_depth_m (environment self2) ->
  DAYS_PER_YEAR self1 = DAYS_PER_YEAR self2 ->
  npp_of self1 = npp_of self2.
Proof. intros Hg Hm Hd. rewrite !npp_of_eq, Hg, Hm, Hd. reflexivity. Qed.

(** [X11] Faster sinking never lowers the CO2 removed.  With every other
    field fixed, an area, an export fraction and a sequestration depth
    that are not negative, and sinking rates [0 < r1 <= r2], the CO2
    removed at [r2] is at least the CO2 removed at [r1]. *)
Theorem co2_removed_monotone_in_sinking_rate (s : AlgaeStrain)
    (e : EnvironmentalConditions) (o : OperationalParameters)
    (r1 r2 : R) self1 self2 :
  0 < r1 -> r1 <= r2 ->
  0 <= area_km2 o ->
  0 <= export_fraction s ->
  0 <= sequestration_depth_m e ->
  __init__ (with_sinking_rate_m_per_day s r1) e o = Returns self1 ->
  __init__ (with_sinking_rate_m_per_day s r2) e o = Returns self2 ->
  exists c1 c2,
    calculate_co2_removed self1 = Returns (c1, self1)
    /\ calculate_co2_removed self2 = Returns (c2, self2)
    /\ c1 <= c2.
Proof.
  intros Hr1 Hr Ha Hef Hd H1 H2.
  inversion H1; subst self1; clear H1. inversion H2; subst self2; clear H2.
  set (self1 := {| strain := with_sinking_rate_m_per_day s r1 |}).
  set (self2 := {| strain := with_sinking_rate_m_per_day s r2 |}).
  do 2 eexists.
  split; [apply co2_removed_run; simpl; lra |].
  split; [apply co2_removed_run; simpl; lra |].
  assert (Hnpp : npp_of self1 = npp_of self2).
  { apply npp_of_indep; try reflexivity.
    apply growth_of_indep; reflexivity. }
  rewrite Hnpp. simpl.
  assert (Hn : 0 <= npp_of self2)
    by (rewrite npp_of_eq; apply py_max_lower).
  set (d := sequestration_depth_m e) in *.
  assert (Ht : d / r2 <= d / r1).
  { unfold Rdiv. apply Rmult_le_compat_l; [exact Hd |].
    apply Rinv_le_contravar; lra. }
  assert (He : exp (- (0.1) * (d / r1)) <= exp (- (0.1) * (d / r2)))
    by (apply exp_monotone; lra).
  pose proof (exp_pos (- (0.1) * (d / r1))) as Hp1.
  set (E1 := exp (- (0.1) * (d / r1))) in *.
  set (E2 := exp (- (0.1) * (d / r2))) in *.
  set (n := npp_of self2) in *. set (f := export_fraction s) in *.
  set (a := area_km2 o) in *.
  assert (Hnf : 0 <= n * f) by nra.
  assert (H12 : n * f * E1 <= n * f * E2) by nra.
  assert (Hscale : 0 <= a * 1e6 / 1000 * 3.67 / 1000) by lra.
  replace (n * f * E1 * (a * 1e6) / 1000 * 3.67 / 1000)
    with (n * f * E1 * (a * 1e6 / 1000 * 3.67 / 1000)) by lra.
  replace (n * f * E2 * (a * 1e6) / 1000 * 3.67 / 1000)
    with (n * f * E2 * (a * 1e6 / 1000 * 3.67 / 1000)) by lra.
  apply Rmult_le_compat_r; assumption.
Qed.

Lemma co2_removed_monotone_in_sinking_rate_witness :
  exists c1 c2,
    calculate_co2_removed
      (model_of (with_sinking_rate_m_per_day basic_strain 25)
         basic_environment basic_operations)
    = Returns (c1, model_of (with_sinking_rate_m_per_day basic_strain 25)
                     basic_environment basic_operations)
    /\ calculate_co2_removed
         (model_of (with_sinking_rate_m_per_day basic_strain 50)
            basic_environment basic_operations)
       = Returns (c2, model_of (with_sinking_rate_m_per_day basic_strain 50)
                        basic_environment basic_operations)
    /\ c1 <= c2.
Proof.
  apply (co2_removed_monotone_in_sinking_rate basic_strain basic_environment
           basic_operations 25 50);
    try reflexivity; simpl; lra.
Defined.

(** ** Biomass and costs *)

(** [X12] For a positive carbon content and a positive area the biomass
    required is returned and is never negative; it is 0 exactly when the
    net primary productivity reaches the target of 125 g C/m2/year, and it
    never exceeds what a productivity of 0 would ask for. *)
Theorem biomass_required_closes_the_gap self :
  0 < carbon_content_percent (strain self) ->
  0 < area_km2 (operations self) ->
  exists npp biomass,
    calculate_net_primary_productivity self = Returns (npp, self)
    /\ calculate_biomass_required self = Returns (biomass, self)
    /\ 0 <= biomass
    /\ (biomass = 0 <-> 125 <= npp)
    /\ biomass <= 125 / carbon_content_percent (strain self) * 100
                  * (area_km2 (operations self) * 1e6) / 1000.
Proof.
  intros Hc Ha.
  exists (npp_of self), (biomass_of self).
  split; [apply npp_returns |].
  split; [apply biomass_required_returns; lra |].
  rewrite biomass_of_eq by lra.
  assert (Hn : 0 <= npp_of self)
    by (rewrite npp_of_eq; apply py_max_lower).
  set (n := npp_of self) in *.
  set (c := carbon_content_percent (strain self)) in *.
  set (a := area_km2 (operations self)) in *.
  assert (Hic : 0 < / c) by (apply Rinv_0_lt_compat; exact Hc).
  assert (Hk : 0 < / c * 100 * (a * 1e6) / 1000) by nra.
  set (k := / c * 100 * (a * 1e6) / 1000) in *.
  replace (125 / c * 100 * (a * 1e6) / 1000) with (125 * k)
    by (unfold k; lra).
  destruct (Rgeb n 125) eqn:E.
  - apply Rleb_true in E. repeat split; intros; try lra; nra.
  - apply Rleb_false in E.
    replace ((125 - n) / c * 100 * (a * 1e6) / 1000) with ((125 - n) * k)
      by (unfold k; lra).
    repeat split; intros; try nra.
Qed.

Lemma biomass_required_closes_the_gap_witness :
  exists npp biomass,
    calculate_net_primary_productivity basic_model = Returns (npp, basic_model)
    /\ calculate_biomass_required basic_model = Returns (biomass, basic_model)
    /\ 0 <= biomass
    /\ (biomass = 0 <-> 125 <= npp)
    /\ biomass <= 125 / carbon_content_percent (strain basic_model) * 100
                  * (area_km2 (operations basic_model) * 1e6) / 1000.
Proof.
  apply (biomass_required_closes_the_gap basic_model); simpl; lra.
Defined.

Lemma biomass_zero_when_productive self :
  125 <= npp_of self ->
  calculate_biomass_required self = Returns (0, self).
Proof.
  intros Hn. unfold calculate_biomass_required.
  rewrite (bind_run _ _ _ _ (npp_returns self)).
  destruct (Rgeb (npp_of self) 125) eqn:E; [reflexivity |].
  apply Rleb_false in E. lra.
Qed.

(** [X13] Where the net primary productivity already reaches 125 g
    C/m2/year, nothing is seeded: the cultivation and delivery costs are 0
    and the total is the sum of the vessel, monitoring, regulatory and R&D
    costs alone.  It then depends neither on the area nor on the two prices
    per kilogram, and is returned even for a carbon content of 0. *)
Theorem costs_are_fixed_when_productive (s : AlgaeStrain)
    (e : EnvironmentalConditions) (o : OperationalParameters) self (npp : R) :
  __init__ s e o = Returns self ->
  calculate_net_primary_productivity self = Returns (npp, self) ->
  125 <= npp ->
  exists costs,
    calculate_operational_costs self = Returns (costs, self)
    /\ cultivation costs = 0
    /\ delivery costs = 0
    /\ total costs
       = vessel_cost_per_day o * 365.25 + monitoring_cost_per_year o
         + regulatory_cost_per_year o + r_and_d_cost_millions s * 100000.
Proof.
  intros Hinit Hnpp Hn. inversion Hinit; subst self; clear Hinit.
  set (self := {| strain := s |}) in *.
  rewrite npp_returns in Hnpp. inversion Hnpp as [Hv]. clear Hnpp.
  rewrite <- Hv in Hn.
  eexists. split.
  - unfold calculate_operational_costs.
    rewrite (bind_run _ _ _ _ (biomass_zero_when_productive self Hn)).
    reflexivity.
  - simpl. repeat split; lra.
Qed.

Lemma costs_are_fixed_when_productive_witness :
  exists costs,
    calculate_operational_costs basic_model = Returns (costs, basic_model)
    /\ cultivation costs = 0
    /\ delivery costs = 0
    /\ total costs
       = vessel_cost_per_day basic_operations * 365.25
         + monitoring_cost_per_year basic_operations
         + regulatory_cost_per_year basic_operations
         + r_and_d_cost_millions basic_strain * 100000.
Proof.
  apply (costs_are_fixed_when_productive basic_strain basic_environment
           basic_operations basic_model (npp_of basic_model)).
  - reflexivity.
  - apply npp_returns.
  - rewrite basic_npp. pose proof ln_lt_2. lra.
Defined.

(** [X14] With a positive carbon content, an area that is not negative and
    no negative price or yearly cost, the operational costs are returned
    and none of the seven amounts is negative; the total is the sum of the
    other six, so it is at least each of them. *)
Theorem operational_costs_are_not_negative (s : AlgaeStrain)
    (e : EnvironmentalConditions) (o : OperationalParameters) self :
  __init__ s e o = Returns self ->
  0 < carbon_content_percent s ->
  0 <= area_km2 o ->
  0 <= cultivation_cost_per_kg o ->
  0 <= delivery_cost_per_kg o ->
  0 <= vessel_cost_per_day o ->
  0 <= monitoring_cost_per_year o ->
  0 <= regulatory_cost_per_year o ->
  0 <= r_and_d_cost_millions s ->
  exists costs,
    calculate_operational_costs self = Returns (costs, self)
    /\ 0 <= cultivation costs /\ 0 <= delivery costs /\ 0 <= vessel costs
    /\ 0 <= monitoring costs /\ 0 <= regulatory costs /\ 0 <= r_and_d costs
    /\ total costs
       = cultivation costs + delivery costs + vessel costs
         + monitoring costs + regulatory costs + r_and_d costs.
Proof.
  intros Hinit Hc Ha Hcu Hde Hve Hmo Hre Hrd.
  inversion Hinit; subst self; clear Hinit.
  set (self := {| strain := s |}).
  exists (costs_of self).
  split; [apply operational_costs_returns; simpl; lra |].
  assert (Hb : 0 <= biomass_of self).
  { rewrite biomass_of_eq by (simpl; lra). simpl.
    destruct (Rgeb (npp_of self) 125) eqn:E; [lra |].
    apply Rleb_false in E.
    assert (Hic : 0 < / carbon_content_percent s)
      by (apply Rinv_0_lt_compat; exact Hc).
    unfold Rdiv.
    set (c := / carbon_content_percent s) in *.
    set (n := npp_of self) in *. set (a := area_km2 o) in *.
    assert (0 <= (125 - n) * c) by nra.
    assert (0 <= (125 - n) * c * 100 * (a * 1e6)) by nra.
    lra. }
  simpl. set (b := biomass_of self) in *.
  repeat split; try nra; lra.
Qed.

Lemma operational_costs_are_not_negative_witness :
  exists costs,
    calculate_operational_costs basic_model = Returns (costs, basic_model)
    /\ 0 <= cultivation costs /\ 0 <= delivery costs /\ 0 <= vessel costs
    /\ 0 <= monitoring costs /\ 0 <= regulatory costs /\ 0 <= r_and_d costs
    /\ total costs
       = cultivation costs + delivery costs + vessel costs
         + monitoring costs + regulatory costs + r_and_d costs.
Proof.
  apply (operational_costs_are_not_negative basic_strain basic_environment
           basic_operations basic_model);
    try reflexivity; simpl; lra.
Defined.

Lemma co2_of_area s e o (a : R) :
  sinking_rate_m_per_day s <> 0 ->
  co2_of (model_of s e (with_area_km2 o a))
  = npp_of (model_of s e o) * export_fraction s
    * exp (- (0.1) * (sequestration_depth_m e / sinking_rate_m_per_day s))
    * 3.67 * a.
Proof.
  intros Hs. rewrite co2_of_eq by exact Hs.
  rewrite (npp_of_indep_operations s e _ o). simpl. lra.
Qed.

Lemma biomass_of_area s e o (a : R) :
  carbon_content_percent s <> 0 ->
  biomass_of (model_of s e (with_area_km2 o a))
  = (if Rgeb (npp_of (model_of s e o)) 125 then 0
     else (125 - npp_of (model_of s e o)) / carbon_content_percent s * 100000)
    * a.
Proof.
  intros Hc. rewrite biomass_of_eq by exact Hc.
  rewrite (npp_of_indep_operations s e _ o). simpl.
  destruct (Rgeb (npp_of (model_of s e o)) 125); lra.
Qed.

(** [X15] Larger areas show better economics of scale.  With every other
    field fixed, a carbon content that is not zero, no negative vessel,
    monitoring, regulatory or R&D cost, and a positive CO2 removal at the
    smaller of two positive areas, the cost per tonne is returned at both
    areas and at the larger area it is at most what it is at the smaller
    one, in the order of the floats where +infinity (an overflowing
    quotient) is the largest: the fixed costs are spread over more
    tonnes. *)
Theorem cost_per_tonne_falls_with_area (s : AlgaeStrain)
    (e : EnvironmentalConditions) (o : OperationalParameters)
    (a1 a2 x1 : R) self1 self2 :
  0 < a1 -> a1 <= a2 ->
  carbon_content_percent s <> 0 ->
  0 <= vessel_cost_per_day o ->
  0 <= monitoring_cost_per_year o ->
  0 <= regulatory_cost_per_year o ->
  0 <= r_and_d_cost_millions s ->
  __init__ s e (with_area_km2 o a1) = Returns self1 ->
  __init__ s e (with_area_km2 o a2) = Returns self2 ->
  calculate_co2_removed self1 = Returns (x1, self1) ->
  0 < x1 ->
  exists c1 c2,
    calculate_cost_per_tonne_co2 self1 = Returns (c1, self1)
    /\ calculate_cost_per_tonne_co2 self2 = Returns (c2, self2)
    /\ pf_le c2 c1.
Proof.
  intros Ha1 Ha Hc Hve Hmo Hre Hrd H1 H2 Hx1 Hpos.
  inversion H1; subst self1; clear H1. inversion H2; subst self2; clear H2.
  fold (model_of s e (with_area_km2 o a1)) in *.
  fold (model_of s e (with_area_km2 o a2)).
  assert (Hs : sinking_rate_m_per_day s <> 0).
  { intros Hz.
    rewrite (co2_removed_raises (model_of s e (with_area_km2 o a1)) Hz) in Hx1.
    discriminate. }
  rewrite (co2_removed_returns (model_of s e (with_area_km2 o a1)) Hs) in Hx1.
  inversion Hx1 as [Hv].
  clear Hx1.
  pose proof (co2_of_area s e o a1 Hs) as Hco1.
  pose proof (co2_of_area s e o a2 Hs) as Hco2.
  pose proof (biomass_of_area s e o a1 Hc) as Hb1.
  pose proof (biomass_of_area s e o a2 Hc) as Hb2.
  set (u := npp_of (model_of s e o) * export_fraction s
            * exp (- (0.1) * (sequestration_depth_m e
                              / sinking_rate_m_per_day s)) * 3.67) in *.
  set (kb := if Rgeb (npp_of (model_of s e o)) 125 then 0
             else (125 - npp_of (model_of s e o))
                  / carbon_content_percent s * 100000) in *.
  assert (Hu : 0 < u) by nra.
  set (self1 := model_of s e (with_area_km2 o a1)) in *.
  set (self2 := model_of s e (with_area_km2 o a2)) in *.
  assert (Hx2 : 0 < co2_of self2) by nra.
  exists (float_truediv (total (costs_of self1)) (co2_of self1)),
    (float_truediv (total (costs_of self2)) (co2_of self2)).
  assert (Hcp : forall self, 0 < co2_of self ->
                  cost_per_tonne_of self
                  = float_truediv (total (costs_of self)) (co2_of self)).
  { intros self Hp. unfold cost_per_tonne_of.
    destruct (Rleb (co2_of self) 0) eqn:E; [| reflexivity].
    apply Rleb_true in E. lra. }
  split.
  { rewrite <- Hcp by lra. apply cost_per_tonne_returns; assumption. }
  split.
  { rewrite <- Hcp by lra. apply cost_per_tonne_returns; assumption. }
  apply overflow_monotone.
  simpl total. rewrite Hb1, Hb2, Hco1, Hco2. simpl.
  set (p := cultivation_cost_per_kg o). set (q := delivery_cost_per_kg o).
  set (F := vessel_cost_per_day o * 365.25 + monitoring_cost_per_year o
            + regulatory_cost_per_year o + r_and_d_cost_millions s * 1e6 / 10).
  assert (HF : 0 <= F) by (unfold F; lra).
  replace (kb * a2 * p + kb * a2 * q + vessel_cost_per_day o * 365.25
           + monitoring_cost_per_year o + regulatory_cost_per_year o
           + r_and_d_cost_millions s * 1e6 / 10)
    with (kb * (p + q) * a2 + F) by (unfold F; ring).
  replace (kb * a1 * p + kb * a1 * q + vessel_cost_per_day o * 365.25
           + monitoring_cost_per_year o + regulatory_cost_per_year o
           + r_and_d_cost_millions s * 1e6 / 10)
    with (kb * (p + q) * a1 + F) by (unfold F; ring).
  set (m := kb * (p + q)).
  assert (Hua1 : 0 < u * a1) by nra.
  assert (Hua2 : 0 < u * a2) by nra.
  apply Rmult_le_reg_r with (u * a1 * (u * a2)); [nra |].
  replace ((m * a2 + F) / (u * a2) * (u * a1 * (u * a2)))
    with ((m * a2 + F) * (u * a1)) by (field; lra).
  replace ((m * a1 + F) / (u * a1) * (u * a1 * (u * a2)))
    with ((m * a1 + F) * (u * a2)) by (field; lra).
  clearbody m F u.
  assert (HFu : 0 <= F * u) by (apply Rmult_le_pos; lra).
  assert (Hspread : F * u * a1 <= F * u * a2)
    by (apply Rmult_le_compat_l; assumption).
  lra.
Qed.

Lemma cost_per_tonne_falls_with_area_witness :
  exists c1 c2,
    calculate_cost_per_tonne_co2
      (model_of basic_strain basic_environment
         (with_area_km2 basic_operations 1000))
    = Returns (c1, model_of basic_strain basic_environment
                     (with_area_km2 basic_operations 1000))
    /\ calculate_cost_per_tonne_co2
         (model_of basic_strain basic_environment
            (with_area_km2 basic_operations 2000))
       = Returns (c2, model_of basic_strain basic_environment
                        (with_area_km2 basic_operations 2000))
    /\ pf_le c2 c1.
Proof.
  apply (cost_per_tonne_falls_with_area basic_strain basic_environment
           basic_operations 1000 2000 (co2_of basic_model));
    try reflexivity; try (simpl; lra).
  - exact basic_co2.
  - pose proof basic_co2_lower. lra.
Defined.

(** ** The viability score *)

Lemma safety_of_cases self : safety_of self = 1 \/ safety_of self = 0.5.
Proof. unfold safety_of. destruct (genetic_kill_switch (strain self)); auto. Qed.

Lemma py_min_1_of_pos (x : R) : 0 < x -> 0 < py_min 1 x <= 1.
Proof. intros H. unfold py_min. case_R; lra. Qed.

Lemma cost_score_bounds (c : R) :
  0 < c -> 0 <= py_max 0 (1 - (c - 50) / 200) < 1.25.
Proof. intros H. unfold py_max. case_R; lra. Qed.

(** [X16] The viability score is a finite number for every cost per tonne,
    infinite ones included, and every CO2 removal.  It is never negative:
    it is 0 (the scenario counts as not viable) or at least 0.1, the least
    that the safety component contributes. *)
Theorem viability_score_range (cost_per_tonne : pyfloat) (co2_removed : R)
    self :
  exists v,
    _calculate_viability_score cost_per_tonne co2_removed self
    = Returns (Finite v, self)
    /\ 0 <= v
    /\ (v = 0 \/ 0.1 <= v).
Proof.
  destruct (Rle_dec co2_removed 0) as [Hx | Hx].
  { exists 0. split; [apply viability_score_nonviable; right; exact Hx |].
    split; [lra | left; reflexivity]. }
  assert (Hpos : 0 < co2_removed) by lra.
  assert (Hx' : 0 < co2_removed / 10000) by lra.
  pose proof (py_min_1_of_pos _ Hx') as Hscale.
  pose proof (safety_of_cases self) as Hsafe.
  destruct cost_per_tonne as [c | |].
  - destruct (Rle_dec c 0) as [Hc | Hc].
    + exists 0. split.
      * apply viability_score_nonviable. left. apply Rleb_true, Hc.
      * split; [lra | left; reflexivity].
    + assert (Hc' : 0 < c) by lra.
      pose proof (cost_score_bounds c Hc') as Hcs.
      eexists. split; [apply viability_score_finite; assumption |].
      split; [| right]; destruct Hsafe as [-> | ->]; lra.
  - eexists. split; [apply viability_score_infinite_cost; assumption |].
    split; [| right]; destruct Hsafe as [-> | ->]; lra.
  - exists 0. split; [apply viability_score_nonviable; left; reflexivity |].
    split; [lra | left; reflexivity].
Qed.

(** [X17] At a cost of 50 $/t or more, or an infinite one, the viability
    score stays within 0 to 1; only a cost below 50 $/t can take it above
    1. *)
Theorem viability_score_at_most_one_from_50_dollars
    (cost_per_tonne : pyfloat) (co2_removed : R) self :
  cost_per_tonne = PosInf
  \/ (exists c, cost_per_tonne = Finite c /\ 50 <= c) ->
  exists v,
    _calculate_viability_score cost_per_tonne co2_removed self
    = Returns (Finite v, self)
    /\ 0 <= v <= 1.
Proof.
  intros Hcost.
  destruct (Rle_dec co2_removed 0) as [Hx | Hx].
  { exists 0. split; [apply viability_score_nonviable; right; exact Hx | lra]. }
  assert (Hpos : 0 < co2_removed) by lra.
  assert (Hx' : 0 < co2_removed / 10000) by lra.
  pose proof (py_min_1_of_pos _ Hx') as Hscale.
  pose proof (safety_of_cases self) as Hsafe.
  destruct Hcost as [-> | (c & -> & Hc)].
  - eexists. split; [apply viability_score_infinite_cost; assumption |].
    destruct Hsafe as [-> | ->]; lra.
  - eexists. split; [apply viability_score_finite; lra |].
    assert (Hcs : 0 <= py_max 0 (1 - (c - 50) / 200) <= 1)
      by (unfold py_max; case_R; lra).
    destruct Hsafe as [-> | ->]; lra.
Qed.

Lemma viability_score_at_most_one_from_50_dollars_witness :
  exists v,
    _calculate_viability_score (Finite 50) 10000 basic_model
    = Returns (Finite v, basic_model)
    /\ 0 <= v <= 1.
Proof.
  apply (viability_score_at_most_one_from_50_dollars (Finite 50) 10000
           basic_model).
  right. exists 50. split; [reflexivity | lra].
Defined.

(** [X18] The score never rewards a higher cost or a smaller removal.  For
    positive finite costs [c1 <= c2] and positive removals [x1 <= x2], on
    one model, the score at [(c2, x1)] is at most the score at [(c1, x1)],
    which is at most the score at [(c1, x2)]. *)
Theorem viability_score_monotone (c1 c2 x1 x2 : R) self :
  0 < c1 -> c1 <= c2 -> 0 < x1 -> x1 <= x2 ->
  exists v21 v11 v12,
    _calculate_viability_score (Finite c2) x1 self = Returns (Finite v21, self)
    /\ _calculate_viability_score (Finite c1) x1 self
       = Returns (Finite v11, self)
    /\ _calculate_viability_score (Finite c1) x2 self
       = Returns (Finite v12, self)
    /\ v21 <= v11 /\ v11 <= v12.
Proof.
  intros Hc1 Hc Hx1 Hx.
  do 3 eexists.
  split; [apply viability_score_finite; lra |].
  split; [apply viability_score_finite; lra |].
  split; [apply viability_score_finite; lra |].
  assert (Hcost : py_max 0 (1 - (c2 - 50) / 200)
                  <= py_max 0 (1 - (c1 - 50) / 200))
    by (apply py_max_0_monotone; lra).
  assert (Hscale : py_min 1 (x1 / 10000) <= py_min 1 (x2 / 10000))
    by (unfold py_min; case_R; lra).
  split; lra.
Qed.

Lemma viability_score_monotone_witness :
  exists v21 v11 v12,
    _calculate_viability_score (Finite 200) 5000 basic_model
    = Returns (Finite v21, basic_model)
    /\ _calculate_viability_score (Finite 100) 5000 basic_model
       = Returns (Finite v11, basic_model)
    /\ _calculate_viability_score (Finite 100) 8000 basic_model
       = Returns (Finite v12, basic_model)
    /\ v21 <= v11 /\ v11 <= v12.
Proof.
  apply (viability_score_monotone 100 200 5000 8000 basic_model); lra.
Defined.

(** [X19] The genetic kill switch is worth 0.1 of viability score, the
    weight 0.2 times the difference 1.0 - 0.5 of the safety component: for
    a positive CO2 removal and a cost per tonne that is positive or
    infinite, the score of a model whose strain has the switch is the
    score of the model that differs from it in the switch alone, plus
    0.1. *)
Theorem kill_switch_is_worth_a_tenth (s : AlgaeStrain)
    (e : EnvironmentalConditions) (o : OperationalParameters)
    (cost_per_tonne : pyfloat) (co2_removed : R) self_on self_off :
  0 < co2_removed ->
  pf_gtb cost_per_tonne 0 = true ->
  __init__ (with_genetic_kill_switch s true) e o = Returns self_on ->
  __init__ (with_genetic_kill_switch s false) e o = Returns self_off ->
  exists v,
    _calculate_viability_score cost_per_tonne co2_removed self_off
    = Returns (Finite v, self_off)
    /\ _calculate_viability_score cost_per_tonne co2_removed self_on
       = Returns (Finite (v + 0.1), self_on).
Proof.
  intros Hx Hc H1 H2.
  inversion H1; subst self_on; clear H1.
  inversion H2; subst self_off; clear H2.
  destruct cost_per_tonne as [c | |]; simpl in Hc.
  - apply Rltb_true in Hc.
    eexists. split; [apply viability_score_finite; assumption |].
    rewrite viability_score_finite by assumption.
    unfold safety_of. simpl. do 3 f_equal. lra.
  - eexists. split; [apply viability_score_infinite_cost; assumption |].
    rewrite viability_score_infinite_cost by assumption.
    unfold safety_of. simpl. do 3 f_equal. lra.
  - discriminate.
Qed.

Lemma kill_switch_is_worth_a_tenth_witness :
  exists v,
    _calculate_viability_score (Finite 100) 5000
      (model_of (with_genetic_kill_switch basic_strain false)
         basic_environment basic_operations)
    = Returns (Finite v,
               model_of (with_genetic_kill_switch basic_strain false)
                 basic_environment basic_operations)
    /\ _calculate_viability_score (Finite 100) 5000
         (model_of (with_genetic_kill_switch basic_strain true)
            basic_environment basic_operations)
       = Returns (Finite (v + 0.1),
                  model_of (with_genetic_kill_switch basic_strain true)
                    basic_environment basic_operations).
Proof.
  apply (kill_switch_is_worth_a_tenth basic_strain basic_environment
           basic_operations (Finite 100) 5000); try reflexivity.
  - lra.
  - simpl. apply Rltb_true. lra.
Defined.

(** ** The metrics record *)

Lemma viability_metrics_inversion self m self' :
  calculate_viability_metrics self = Returns (m, self') ->
  self' = self
  /\ calculate_co2_removed self = Returns (co2_removed_tonnes_per_year m, self)
  /\ calculate_cost_per_tonne_co2 self = Returns (cost_per_tonne_co2 m, self)
  /\ (exists costs,
         calculate_operational_costs self = Returns (costs, self)
         /\ total_cost_per_year m = total costs)
  /\ calculate_total_carbon_sequestered self
     = Returns (carbon_sequestered_kg_per_year m, self)
  /\ _calculate_viability_score (cost_per_tonne_co2 m)
       (co2_removed_tonnes_per_year m) self
     = Returns (viability_score m, self)
  /\ cost_competitiveness m
     = (if pf_gtb (cost_per_tonne_co2 m) 0
        then pf_rdiv 100 (cost_per_tonne_co2 m) else 0)
  /\ scale_adequacy m = co2_removed_tonnes_per_year m / 1000.
Proof.
  unfold calculate_viability_metrics, bind. intros H.
  destruct (calculate_co2_removed self) as [[a1 s1] |] eqn:E1;
    [| discriminate].
  returned read_only_co2_removed E1.
  destruct (calculate_cost_per_tonne_co2 self) as [[a2 s2] |] eqn:E2;
    [| discriminate].
  returned read_only_cost_per_tonne E2.
  destruct (calculate_operational_costs self) as [[a3 s3] |] eqn:E3;
    [| discriminate].
  returned read_only_operational_costs E3.
  destruct (calculate_biomass_required self) as [[a4 s4] |] eqn:E4;
    [| discriminate].
  returned read_only_biomass_required E4.
  destruct (calculate_total_carbon_sequestered self) as [[a5 s5] |] eqn:E5;
    [| discriminate].
  returned read_only_total_carbon E5.
  destruct (calculate_net_primary_productivity self) as [[a6 s6] |] eqn:E6;
    [| discriminate].
  returned read_only_npp E6.
  destruct (calculate_growth_rate self) as [[a7 s7] |] eqn:E7;
    [| discriminate].
  returned read_only_growth_rate E7.
  destruct (_calculate_viability_score a2 a1 self) as [[a8 s8] |] eqn:E8;
    [| discriminate].
  returned (read_only_viability_score a2 a1) E8.
  unfold ret in H. inversion H; subst; simpl.
  repeat split; try assumption; try reflexivity.
  exists a3. split; first [assumption | reflexivity].
Qed.

(** [X20] The numbers of a returned metrics record add up.  The CO2
    removed is the carbon sequestered times 3.67 / 1000, the scale adequacy
    is the CO2 removed over 1000, the total cost is the total of the cost
    breakdown, and for a positive CO2 removal the cost per tonne is the
    quotient of the total cost of the record by its CO2 removed, as a
    float: +infinity where it overflows.  The cost competitiveness times
    the cost per tonne is the target of 100 $/t when the cost per tonne is
    finite and positive, and the cost competitiveness is 0 when the cost
    per tonne is +infinity. *)
Theorem metrics_record_is_consistent (s : AlgaeStrain)
    (e : EnvironmentalConditions) (o : OperationalParameters) self m self' :
  __init__ s e o = Returns self ->
  calculate_viability_metrics self = Returns (m, self') ->
  co2_removed_tonnes_per_year m
  = carbon_sequestered_kg_per_year m * 3.67 / 1000
  /\ scale_adequacy m = co2_removed_tonnes_per_year m / 1000
  /\ (exists costs,
         calculate_operational_costs self = Returns (costs, self)
         /\ total_cost_per_year m = total costs)
  /\ (0 < co2_removed_tonnes_per_year m ->
      cost_per_tonne_co2 m
      = float_truediv (total_cost_per_year m) (co2_removed_tonnes_per_year m))
  /\ (forall c, cost_per_tonne_co2 m = Finite c -> 0 < c ->
                cost_competitiveness m * c = 100)
  /\ (cost_per_tonne_co2 m = PosInf -> cost_competitiveness m = 0).
Proof.
  intros Hinit Hm.
  destruct (viability_metrics_inversion _ _ _ Hm)
    as (_ & Hco2 & Hcost & (costs & Hcosts & Htotal) & Hcarbon & _ & Hcomp
        & Hscale).
  inversion Hinit; subst self; clear Hinit.
  set (self := {| strain := s |}) in *.
  split.
  { unfold calculate_co2_removed in Hco2.
    rewrite (bind_run _ _ _ _ Hcarbon) in Hco2.
    unfold bind, get_self, ret in Hco2. simpl in Hco2.
    inversion Hco2 as [Heq]. lra. }
  split; [exact Hscale |].
  split; [exists costs; split; assumption |].
  split; [| split].
  - intros Hpos.
    rewrite (cost_per_tonne_from_parts _ _ _ Hcosts Hco2) in Hcost.
    destruct (Rleb (co2_removed_tonnes_per_year m) 0) eqn:E;
      [apply Rleb_true in E; lra |].
    inversion Hcost as [Hc]. rewrite Htotal. reflexivity.
  - intros c Hc Hcpos. rewrite Hcomp, Hc. simpl.
    destruct (Rgtb c 0) eqn:E'; [| apply Rltb_false in E'; lra].
    field. lra.
  - intros Hc. rewrite Hcomp, Hc. reflexivity.
Qed.

Lemma metrics_record_is_consistent_witness :
  let m := metrics_of basic_model in
  co2_removed_tonnes_per_year m
  = carbon_sequestered_kg_per_year m * 3.67 / 1000
  /\ scale_adequacy m = co2_removed_tonnes_per_year m / 1000
  /\ (exists costs,
         calculate_operational_costs basic_model = Returns (costs, basic_model)
         /\ total_cost_per_year m = total costs)
  /\ (0 < co2_removed_tonnes_per_year m ->
      cost_per_tonne_co2 m
      = float_truediv (total_cost_per_year m) (co2_removed_tonnes_per_year m))
  /\ (forall c, cost_per_tonne_co2 m = Finite c -> 0 < c ->
                cost_competitiveness m * c = 100)
  /\ (cost_per_tonne_co2 m = PosInf -> cost_competitiveness m = 0).
Proof.
  apply (metrics_record_is_consistent basic_strain basic_environment
           basic_operations basic_model (metrics_of basic_model) basic_model).
  - reflexivity.
  - apply viability_metrics_returns; simpl; lra.
Defined.

(** [X21] A scenario that removes no CO2 is reported as data, not as an
    error: in a returned metrics record whose CO2 removed is 0 or negative
    the cost per tonne is +infinity, the viability score is 0 and the cost
    competitiveness is 0. *)
Theorem no_removal_is_reported_as_not_viable self m self' :
  calculate_viability_metrics self = Returns (m, self') ->
  co2_removed_tonnes_per_year m <= 0 ->
  cost_per_tonne_co2 m = PosInf
  /\ viability_score m = Finite 0
  /\ cost_competitiveness m = 0.
Proof.
  intros Hm Hx.
  destruct (viability_metrics_inversion _ _ _ Hm)
    as (_ & Hco2 & Hcost & (costs & Hcosts & _) & _ & Hscore & Hcomp & _).
  rewrite (cost_per_tonne_from_parts _ _ _ Hcosts Hco2) in Hcost.
  destruct (Rleb (co2_removed_tonnes_per_year m) 0) eqn:E;
    [| apply Rleb_false in E; lra].
  inversion Hcost as [Hc]. split; [reflexivity |].
  rewrite <- Hc in *. split.
  - rewrite viability_score_nonviable in Hscore by (right; exact Hx).
    inversion Hscore. reflexivity.
  - rewrite Hcomp. reflexivity.
Qed.

Lemma no_removal_is_reported_as_not_viable_witness :
  cost_per_tonne_co2 (metrics_of cold_model) = PosInf
  /\ viability_score (metrics_of cold_model) = Finite 0
  /\ cost_competitiveness (metrics_of cold_model) = 0.
Proof.
  apply (no_removal_is_reported_as_not_viable cold_model
           (metrics_of cold_model) cold_model).
  - apply viability_metrics_returns; simpl; lra.
  - simpl. right.
    apply (run_value_of calculate_co2_removed cold_model 0 0 cold_co2).
Defined.

(** ** Fields that are never read *)

Lemma agree_ret {A} self1 self2 (a : A) : agree self1 self2 (ret a) (ret a).
Proof. unfold agree, ret. auto. Qed.

Lemma agree_raise {A} self1 self2 (e : exn) :
  agree self1 self2 (@raise A e) (raise e).
Proof. reflexivity. Qed.

Lemma agree_bind {A B} self1 self2 (m1 m2 : Method A) (k1 k2 : A -> Method B) :
  agree self1 self2 m1 m2 ->
  (forall a, agree self1 self2 (k1 a) (k2 a)) ->
  agree self1 self2 (bind m1 k1) (bind m2 k2).
Proof.
  unfold agree at 1. unfold agree at 2. unfold bind. intros Hm Hk.
  destruct (m1 self1) as [[a s1] | e1], (m2 self2) as [[b s2] | e2];
    try contradiction.
  - destruct Hm as (-> & -> & ->). apply Hk.
  - exact Hm.
Qed.

Lemma agree_get_self {B} self1 self2
    (k1 k2 : AlgaeCarbonSequestrationModel -> Method B) :
  agree self1 self2 (k1 self1) (k2 self2) ->
  agree self1 self2 (bind get_self k1) (bind get_self k2).
Proof. intros H. exact H. Qed.

Lemma agree_py_truediv self1 self2 (a b : R) :
  agree self1 self2 (py_truediv a b) (py_truediv a b).
Proof.
  unfold py_truediv. destruct (Reqb b 0);
    [apply agree_raise | apply agree_ret].
Qed.

Lemma agree_truediv_from_max self1 self2 (c a b : R) :
  agree self1 self2 (truediv_from_max c a b) (truediv_from_max c a b).
Proof.
  unfold truediv_from_max. destruct (Rgtb c 0);
    [apply agree_ret | apply agree_py_truediv].
Qed.

Create HintDb agreement.
#[local] Hint Resolve agree_ret agree_raise agree_py_truediv
  agree_truediv_from_max : agreement.

(** Names the equations of [same_fields_read]. *)
Ltac name_fields HR :=
  let H := fresh in
  pose proof HR as H;
  destruct H as (Ecc & Edt & Esr & Eef & Etr & Esa & Eks & Erd & Eeu & Ete
                 & Esl & Enn & Enp & Efe & Emi & Esq & Ear & Ecu & Ede & Eve
                 & Emo & Ere & Ecr & Edy).

Ltac to_second_model :=
  cbv beta zeta;
  repeat match goal with
         | H : ?l = _ |- context [?l] => rewrite H
         end.

(** Walks two copies of one method body side by side. *)
Ltac agree_body :=
  repeat first
    [ solve [auto with agreement]
    | match goal with
      | |- agree _ _ (bind get_self _) (bind get_self _) =>
          apply agree_get_self; to_second_model
      | |- agree _ _ (bind _ _) (bind _ _) => apply agree_bind; [| intro]
      | |- agree _ _ (if ?b then _ else _) (if ?b then _ else _) => destruct b
      end ].

Lemma agree_temperature self1 self2 :
  same_fields_read self1 self2 ->
  agree self1 self2 _temperature_response_factor _temperature_response_factor.
Proof.
  intros HR. name_fields HR. unfold _temperature_response_factor. agree_body.
Qed.

Lemma agree_light self1 self2 :
  same_fields_read self1 self2 ->
  agree self1 self2 _light_limitation_factor _light_limitation_factor.
Proof.
  intros HR. name_fields HR. unfold _light_limitation_factor. agree_body.
Qed.

Lemma agree_nutrient self1 self2 :
  same_fields_read self1 self2 ->
  agree self1 self2 _nutrient_limitation_factor _nutrient_limitation_factor.
Proof.
  intros HR. name_fields HR. unfold _nutrient_limitation_factor. agree_body.
Qed.

Lemma agree_salinity self1 self2 :
  same_fields_read self1 self2 ->
  agree self1 self2 _salinity_response_factor _salinity_response_factor.
Proof.
  intros HR. name_fields HR. unfold _salinity_response_factor. agree_body.
Qed.

#[local] Hint Resolve agree_temperature agree_light agree_nutrient
  agree_salinity : agreement.

Lemma agree_growth_rate self1 self2 :
  same_fields_read self1 self2 ->
  agree self1 self2 calculate_growth_rate calculate_growth_rate.
Proof.
  intros HR. name_fields HR. unfold calculate_growth_rate. agree_body.
Qed.

#[local] Hint Resolve agree_growth_rate : agreement.

Lemma agree_npp self1 self2 :
  same_fields_read self1 self2 ->
  agree self1 self2 calculate_net_primary_productivity
    calculate_net_primary_productivity.
Proof.
  intros HR. name_fields HR. unfold calculate_net_primary_productivity.
  agree_body.
Qed.

#[local] Hint Resolve agree_npp : agreement.

Lemma agree_carbon_export self1 self2 :
  same_fields_read self1 self2 ->
  agree self1 self2 calculate_carbon_export calculate_carbon_export.
Proof.
  intros HR. name_fields HR. unfold calculate_carbon_export. agree_body.
Qed.

#[local] Hint Resolve agree_carbon_export : agreement.

Lemma agree_total_carbon self1 self2 :
  same_fields_read self1 self2 ->
  agree self1 self2 calculate_total_carbon_sequestered
    calculate_total_carbon_sequestered.
Proof.
  intros HR. name_fields HR. unfold calculate_total_carbon_sequestered.
  agree_body.
Qed.

#[local] Hint Resolve agree_total_carbon : agreement.

Lemma agree_co2_removed self1 self2 :
  same_fields_read self1 self2 ->
  agree self1 self2 calculate_co2_removed calculate_co2_removed.
Proof.
  intros HR. name_fields HR. unfold calculate_co2_removed. agree_body.
Qed.

Lemma agree_biomass_required self1 self2 :
  same_fields_read self1 self2 ->
  agree self1 self2 calculate_biomass_required calculate_biomass_required.
Proof.
  intros HR. name_fields HR. unfold calculate_biomass_required. agree_body.
Qed.

#[local] Hint Resolve agree_co2_removed agree_biomass_required : agreement.

Lemma agree_operational_costs self1 self2 :
  same_fields_read self1 self2 ->
  agree self1 self2 calculate_operational_costs calculate_operational_costs.
Proof.
  intros HR. name_fields HR. unfold calculate_operational_costs. agree_body.
Qed.

#[local] Hint Resolve agree_operational_costs : agreement.

Lemma agree_cost_per_tonne self1 self2 :
  same_fields_read self1 self2 ->
  agree self1 self2 calculate_cost_per_tonne_co2 calculate_cost_per_tonne_co2.
Proof.
  intros HR. name_fields HR. unfold calculate_cost_per_tonne_co2. agree_body.
Qed.

Lemma agree_viability_score self1 self2 (c : pyfloat) (x : R) :
  same_fields_read self1 self2 ->
  agree self1 self2 (_calculate_viability_score c x)
    (_calculate_viability_score c x).
Proof.
  intros HR. name_fields HR. unfold _calculate_viability_score. agree_body.
Qed.

#[local] Hint Resolve agree_cost_per_tonne agree_viability_score : agreement.

Lemma agree_viability_metrics self1 self2 :
  same_fields_read self1 self2 ->
  agree self1 self2 calculate_viability_metrics calculate_viability_metrics.
Proof.
  intros HR. name_fields HR. unfold calculate_viability_metrics. agree_body.
Qed.

#[local] Hint Resolve agree_viability_metrics : agreement.

Lemma agree_evaluate self1 self2 :
  same_fields_read self1 self2 ->
  agree self1 self2 evaluate evaluate.
Proof. intros HR. name_fields HR. unfold evaluate. agree_body. Qed.

(** [X22] Four inputs are accepted and never read: the name and the
    photosynthetic efficiency of the strain, the current speed of the
    environment and the application frequency of the operations.  Whatever
    values they are given, the evaluation ends the same way: the same
    metrics and the same cost breakdown, or the same error. *)
Theorem unread_fields_do_not_matter (s : AlgaeStrain)
    (e : EnvironmentalConditions) (o : OperationalParameters)
    (n : string) (pe v f : R) self1 self2 :
  __init__ s e o = Returns self1 ->
  __init__ (with_name_and_efficiency s n pe) (with_current_speed_m_per_s e v)
    (with_application_frequency_per_year o f) = Returns self2 ->
  (exists r,
      evaluate self1 = Returns (r, self1)
      /\ evaluate self2 = Returns (r, self2))
  \/ (exists err,
         evaluate self1 = Raises err /\ evaluate self2 = Raises err).
Proof.
  intros H1 H2.
  inversion H1; subst self1; clear H1. inversion H2; subst self2; clear H2.
  set (self1 := {| strain := s |}).
  set (self2 := {| strain := with_name_and_efficiency s n pe |}).
  assert (HR : same_fields_read self1 self2)
    by (unfold same_fields_read; simpl; repeat split; reflexivity).
  pose proof (agree_evaluate self1 self2 HR) as Hag.
  unfold agree in Hag.
  destruct (evaluate self1) as [[r1 s1] | e1],
    (evaluate self2) as [[r2 s2] | e2]; try contradiction.
  - destruct Hag as (-> & -> & ->). left. exists r2. split; reflexivity.
  - subst e2. right. exists e1. split; reflexivity.
Qed.

Lemma unread_fields_do_not_matter_witness :
  (exists r,
      evaluate basic_model = Returns (r, basic_model)
      /\ evaluate
           (model_of (with_name_and_efficiency basic_strain "Renamed" 0.1)
              (with_current_speed_m_per_s basic_environment 3)
              (with_application_frequency_per_year basic_operations 12))
         = Returns (r, model_of
                         (with_name_and_efficiency basic_strain "Renamed" 0.1)
                         (with_current_speed_m_per_s basic_environment 3)
                         (with_application_frequency_per_year
                            basic_operations 12)))
  \/ (exists err,
         evaluate basic_model = Raises err
         /\ evaluate
              (model_of (with_name_and_efficiency basic_strain "Renamed" 0.1)
                 (with_current_speed_m_per_s basic_environment 3)
                 (with_application_frequency_per_year basic_operations 12))
            = Raises err).
Proof.
  apply (unread_fields_do_not_matter basic_strain basic_environment
           basic_operations "Renamed" 0.1 3 12); reflexivity.
Defined.

(** ** The sensitivity analysis of the dashboard *)

Lemma area_sensitivity_run s e o (l : list R) (acc1 : list R)
    (acc2 : list pyfloat) :
  sinking_rate_m_per_day s <> 0 ->
  carbon_content_percent s <> 0 ->
  area_sensitivity s e o l acc1 acc2
  = Returns
      (acc1 ++ map (fun a => co2_of (model_of s e (with_area_km2 o a))) l,
       acc2 ++ map (fun a => cost_per_tonne_of
                               (model_of s e (with_area_km2 o a))) l).
Proof.
  intros Hs Hc. revert acc1 acc2.
  induction l as [| a l IH]; intros acc1 acc2.
  - simpl. rewrite !app_nil_r. reflexivity.
  - simpl.
    change {| strain := s;
              environment := e;
              operations :=
                {| area_km2 := a;
                   application_frequency_per_year :=
                     application_frequency_per_year o;
                   cultivation_cost_per_kg := cultivation_cost_per_kg o;
                   delivery_cost_per_kg := delivery_cost_per_kg o;
                   vessel_cost_per_day := vessel_cost_per_day o;
                   monitoring_cost_per_year := monitoring_cost_per_year o;
                   regulatory_cost_per_year := regulatory_cost_per_year o |};
              CARBON_TO_CO2_RATIO := 3.67;
              DAYS_PER_YEAR := 365.25 |}
      with (model_of s e (with_area_km2 o a)).
    rewrite (viability_metrics_returns (model_of s e (with_area_km2 o a)))
      by assumption.
    rewrite IH. simpl. rewrite <- !app_assoc. reflexivity.
Qed.

(** [X23] For a strain whose sinking rate and carbon content are not zero,
    the area sweep of the dashboard returns one CO2 removal and one cost
    per tonne for each area, in the order of the areas, and the CO2
    removals are the areas times one constant, the CO2 removed on 1 km2:
    removal is proportional to area along the whole sweep. *)
Theorem area_sweep_is_proportional (s : AlgaeStrain)
    (e : EnvironmentalConditions) (o : OperationalParameters)
    (l : list R) :
  sinking_rate_m_per_day s <> 0 ->
  carbon_content_percent s <> 0 ->
  exists unit_model u cost_results,
    __init__ s e (with_area_km2 o 1) = Returns unit_model
    /\ calculate_co2_removed unit_model = Returns (u, unit_model)
    /\ area_sensitivity s e o l [] [] = Returns (map (Rmult u) l, cost_results)
    /\ length cost_results = length l.
Proof.
  intros Hs Hc.
  exists (model_of s e (with_area_km2 o 1)),
    (co2_of (model_of s e (with_area_km2 o 1))),
    (map (fun a => cost_per_tonne_of (model_of s e (with_area_km2 o a))) l).
  split; [reflexivity |].
  split; [apply co2_removed_returns; exact Hs |].
  rewrite (area_sensitivity_run s e o l [] [] Hs Hc). simpl.
  split; [| apply length_map].
  assert (Hmap : map (fun a => co2_of (model_of s e (with_area_km2 o a))) l
                 = map (Rmult (co2_of (model_of s e (with_area_km2 o 1)))) l).
  { apply map_ext. intros a. rewrite !co2_of_area by exact Hs. ring. }
  rewrite Hmap. reflexivity.
Qed.

Lemma area_sweep_is_proportional_witness :
  exists unit_model u cost_results,
    __init__ basic_strain basic_environment (with_area_km2 basic_operations 1)
    = Returns unit_model
    /\ calculate_co2_removed unit_model = Returns (u, unit_model)
    /\ area_sensitivity basic_strain basic_environment basic_operations
         areas [] []
       = Returns (map (Rmult u) areas, cost_results)
    /\ length cost_results = length areas.
Proof.
  apply (area_sweep_is_proportional basic_strain basic_environment
           basic_operations areas); simpl; lra.
Defined.

(** ** The presets of the dashboard *)

Lemma dict_get_missing {V : Type} (d : list (string * V)) (key : string) :
  ~ In key (map fst d) -> dict_get d key = None.
Proof.
  induction d as [| [k v] d IH]; simpl; intros H; [reflexivity |].
  destruct (String.eqb k key) eqn:E.
  - apply String.eqb_eq in E. tauto.
  - apply IH. tauto.
Qed.

(** [X25] Every name offered by the two select boxes other than "Custom"
    finds its record: the key that [strain_map] gives is a key of
    [create_sample_strains], the strain found carries the selected name as
    its own [name], and the key that [env_map] gives is a key of
    [create_sample_environments].  Any other name, "Custom" included, is
    a missing key of the maps. *)
Theorem presets_resolve :
  (forall strain_name,
      In strain_name (map fst strain_map) ->
      exists s, preset_strain strain_name = Some s /\ name s = strain_name)
  /\ (forall env_name,
         In env_name (map fst env_map) ->
         exists e, preset_environment env_name = Some e)
  /\ (forall strain_name,
         ~ In strain_name (map fst strain_map) ->
         dict_get strain_map strain_name = None
         /\ preset_strain strain_name = None)
  /\ (forall env_name,
         ~ In env_name (map fst env_map) ->
         dict_get env_map env_name = None
         /\ preset_environment env_name = None)
  /\ ~ In "Custom"%string (map fst strain_map)
  /\ ~ In "Custom"%string (map fst env_map).
Proof.
  split; [| split; [| split; [| split; [| split]]]].
  - intros n Hin. simpl in Hin.
    destruct Hin as [<- | [<- | [<- | []]]];
      eexists; (split; [reflexivity | reflexivity]).
  - intros n Hin. simpl in Hin.
    destruct Hin as [<- | [<- | [<- | []]]]; eexists; reflexivity.
  - intros n Hnin.
    pose proof (dict_get_missing strain_map n Hnin) as H.
    split; [exact H |]. unfold preset_strain. rewrite H. reflexivity.
  - intros n Hnin.
    pose proof (dict_get_missing env_map n Hnin) as H.
    split; [exact H |]. unfold preset_environment. rewrite H. reflexivity.
  - simpl. intros [H | [H | [H | []]]]; discriminate.
  - simpl. intros [H | [H | [H | []]]]; discriminate.
Qed.

(** [X26] Every strain of [create_sample_strains] can be evaluated in every
    environment of [create_sample_environments], for any operations: the
    model is built and the metrics are returned without an error. *)
Theorem sample_pairings_evaluate (k k' : string) (s : AlgaeStrain)
    (e : EnvironmentalConditions) (o : OperationalParameters) :
  In (k, s) create_sample_strains ->
  In (k', e) create_sample_environments ->
  exists self m,
    __init__ s e o = Returns self
    /\ calculate_viability_metrics self = Returns (m, self).
Proof.
  intros Hs He.
  exists (model_of s e o), (metrics_of (model_of s e o)).
  split; [reflexivity |].
  simpl in Hs.
  destruct Hs as [Hs | [Hs | [Hs | []]]]; inversion Hs; subst;
    apply viability_metrics_returns; simpl; lra.
Qed.

Lemma sample_pairings_evaluate_witness :
  exists self m,
    __init__ basic_strain basic_environment basic_operations = Returns self
    /\ calculate_viability_metrics self = Returns (m, self).
Proof.
  apply (sample_pairings_evaluate "fast_growing_cyanobacteria"
           "tropical_ocean" basic_strain basic_environment basic_operations).
  - left. reflexivity.
  - left. reflexivity.
Defined.
